(** * Kompite arbitration core: a shallow embedding and its properties

    The development follows the Python backend module by module:
    - [Py]            the few built-ins the code relies on (string formatting of
                      integers, [int(s, 16)], [min], slicing);
    - [Sha256]        [hashlib.sha256(...).hexdigest()] (FIPS 180-4), executable;
    - [Unicode]       [str.encode()]: UTF-8, which refuses surrogates;
    - [Dec]           the finite values of [decimal.Decimal] under the default
                      context (28 significant digits, ROUND_HALF_EVEN), within
                      its exponent limits;
    - [GameEngine]    [app/game_engine.py]: rake tiers, fee computation, the
                      triple-entry treasury ledger;
    - [Ludo]          [app/ludo_engine.py]: provably fair dice and the board game;
    - [Jitter]        [app/jitter_detector.py]: spike detection, the jitter
                      score, heartbeats and missed heartbeats;
    - [Security]      [app/security.py]: the pre-match shield, quarantine and
                      the collusion check;
    - [WebsocketHandler] [app/websocket_handler.py]: the room state machine,
                      matchmaking, the ready and escrow handlers and the
                      game-over handler;
    - [Spec]        the relations and formulas the specification states, and
                      the data of the worked examples.

    Python [float] is IEEE binary64 and is modelled by Rocq's primitive floats;
    Python [int] is [Z]; [str] is a byte string (its UTF-8 encoding, which
    [Unicode.encode] computes where a client supplies the [str]); [dict]s
    whose iteration order is observed are association lists, the others are
    [gmap]s.  Readings of the wall clock are explicit arguments. *)

From Stdlib Require Import ZArith List String Ascii Bool Lia.
From Stdlib Require Import DecimalString.
From Stdlib Require Import Floats.PrimFloat Floats.SpecFloat Floats.FloatOps Floats.FloatAxioms.
From stdpp Require Import base gmap strings list.

Local Open Scope Z_scope.

(* ===================================================================== *)
(** ** Python built-ins                                                   *)
(* ===================================================================== *)

Module Py.

(** [str(n)] / [f"{n}"] for an [int]. *)
Definition str_of_int (n : Z) : string := NilZero.string_of_int (Z.to_int n).

(** [s[:n]]. *)
Definition take_str (n : nat) (s : string) : string := String.substring 0 n s.

(** The value of one base-16 digit, either case. *)
Definition hex_val (c : ascii) : option Z :=
  let n := Z.of_N (N_of_ascii c) in
  if (48 <=? n) && (n <=? 57) then Some (n - 48)
  else if (97 <=? n) && (n <=? 102) then Some (n - 87)
  else if (65 <=? n) && (n <=? 70) then Some (n - 55)
  else None.

Fixpoint int16_acc (acc : Z) (s : string) : option Z :=
  match s with
  | EmptyString => Some acc
  | String c r =>
      match hex_val c with
      | Some v => int16_acc (16 * acc + v) r
      | None => None
      end
  end.

(** [int(s, 16)] on a string of digits; [None] is [ValueError].  (Signs,
    prefixes, blanks and underscores, which [int] also accepts, do not occur in
    a hex digest.) *)
Definition int16 (s : string) : option Z :=
  match s with
  | EmptyString => None
  | _ => int16_acc 0 s
  end.

(** [min(a, b)] on floats: Python returns [b] only when [b < a]. *)
Definition fmin (a b : float) : float := if PrimFloat.ltb b a then b else a.

(** [float(n)] for an [int] of magnitude below 2^53, where every step below
    is exact (counters and list lengths are far smaller). *)
Fixpoint float_of_pos (p : positive) : float :=
  match p with
  | xH => 1%float
  | xO q => PrimFloat.mul 2 (float_of_pos q)
  | xI q => PrimFloat.add (PrimFloat.mul 2 (float_of_pos q)) 1
  end.

Definition float_of_Z (n : Z) : float :=
  match n with
  | Z0 => 0%float
  | Zpos p => float_of_pos p
  | Zneg p => PrimFloat.opp (float_of_pos p)
  end.

End Py.

(* ===================================================================== *)
(** ** SHA-256                                                            *)
(* ===================================================================== *)

Module Sha256.

Definition mask32 : Z := 4294967295.
Definition w32 (x : Z) : Z := Z.land x mask32.
Definition add32 (x y : Z) : Z := w32 (x + y).
Definition rotr (n x : Z) : Z := Z.lor (Z.shiftr x n) (w32 (Z.shiftl x (32 - n))).
Definition not32 (x : Z) : Z := Z.lxor x mask32.

Definition ch (x y z : Z) : Z := Z.lxor (Z.land x y) (Z.land (not32 x) z).
Definition maj (x y z : Z) : Z :=
  Z.lxor (Z.lxor (Z.land x y) (Z.land x z)) (Z.land y z).
Definition bsig0 (x : Z) : Z := Z.lxor (Z.lxor (rotr 2 x) (rotr 13 x)) (rotr 22 x).
Definition bsig1 (x : Z) : Z := Z.lxor (Z.lxor (rotr 6 x) (rotr 11 x)) (rotr 25 x).
Definition ssig0 (x : Z) : Z := Z.lxor (Z.lxor (rotr 7 x) (rotr 18 x)) (Z.shiftr x 3).
Definition ssig1 (x : Z) : Z := Z.lxor (Z.lxor (rotr 17 x) (rotr 19 x)) (Z.shiftr x 10).

(** Round constants and initial state, in decimal. *)
Definition round_constants : list Z :=
  [ 1116352408; 1899447441; 3049323471; 3921009573; 961987163; 1508970993;
    2453635748; 2870763221; 3624381080; 310598401; 607225278; 1426881987;
    1925078388; 2162078206; 2614888103; 3248222580; 3835390401; 4022224774;
    264347078; 604807628; 770255983; 1249150122; 1555081692; 1996064986;
    2554220882; 2821834349; 2952996808; 3210313671; 3336571891; 3584528711;
    113926993; 338241895; 666307205; 773529912; 1294757372; 1396182291;
    1695183700; 1986661051; 2177026350; 2456956037; 2730485921; 2820302411;
    3259730800; 3345764771; 3516065817; 3600352804; 4094571909; 275423344;
    430227734; 506948616; 659060556; 883997877; 958139571; 1322822218;
    1537002063; 1747873779; 1955562222; 2024104815; 2227730452; 2361852424;
    2428436474; 2756734187; 3204031479; 3329325298 ].

Record state := St { sa : Z; sb : Z; sc : Z; sd : Z; se : Z; sf : Z; sg : Z; sh : Z }.

Definition initial_state : state :=
  St 1779033703 3144134277 1013904242 2773480762
     1359893119 2600822924 528734635 1541459225.

(** Message bytes, then 0x80, zeros up to 56 mod 64, then the bit length on
    eight bytes, big endian. *)
Definition byte_at (x : Z) (i : Z) : Z := Z.land (Z.shiftr x (8 * i)) 255.

Definition pad (msg : list Z) : list Z :=
  let len := Z.of_nat (length msg) in
  let zeros := Z.to_nat ((55 - len) mod 64) in
  msg ++ [128] ++ repeat 0 zeros
      ++ map (byte_at (8 * len)) [7; 6; 5; 4; 3; 2; 1; 0].

Fixpoint to_words (bs : list Z) : list Z :=
  match bs with
  | a :: b :: c :: d :: r =>
      Z.lor (Z.lor (Z.shiftl a 24) (Z.shiftl b 16)) (Z.lor (Z.shiftl c 8) d)
      :: to_words r
  | _ => []
  end.

(** The message schedule, newest word first: [rev_w] holds W(t-1), W(t-2), ... *)
Fixpoint extend (n : nat) (rev_w : list Z) : list Z :=
  match n with
  | O => rev_w
  | S n' =>
      let g i := nth i rev_w 0 in
      extend n' (add32 (add32 (add32 (ssig1 (g 1%nat)) (g 6%nat)) (ssig0 (g 14%nat)))
                       (g 15%nat) :: rev_w)
  end.

Definition schedule (block : list Z) : list Z := rev (extend 48 (rev block)).

Definition round (s : state) (kw : Z * Z) : state :=
  let t1 := add32 (add32 (add32 (add32 (sh s) (bsig1 (se s))) (ch (se s) (sf s) (sg s)))
                         (fst kw)) (snd kw) in
  let t2 := add32 (bsig0 (sa s)) (maj (sa s) (sb s) (sc s)) in
  St (add32 t1 t2) (sa s) (sb s) (sc s) (add32 (sd s) t1) (se s) (sf s) (sg s).

Definition compress (h : state) (block : list Z) : state :=
  let s := fold_left round (combine round_constants (schedule block)) h in
  St (add32 (sa h) (sa s)) (add32 (sb h) (sb s)) (add32 (sc h) (sc s))
     (add32 (sd h) (sd s)) (add32 (se h) (se s)) (add32 (sf h) (sf s))
     (add32 (sg h) (sg s)) (add32 (sh h) (sh s)).

Fixpoint blocks (n : nat) (h : state) (ws : list Z) : state :=
  match n with
  | O => h
  | S n' => blocks n' (compress h (firstn 16 ws)) (skipn 16 ws)
  end.

Definition digest (msg : list Z) : state :=
  let ws := to_words (pad msg) in
  blocks (length ws / 16) initial_state ws.

(** Lower-case hexadecimal rendering, eight digits per word. *)
Definition hex_char (n : Z) : ascii :=
  match Z.land n 15 with
  | 0 => "0" | 1 => "1" | 2 => "2" | 3 => "3" | 4 => "4" | 5 => "5" | 6 => "6"
  | 7 => "7" | 8 => "8" | 9 => "9" | 10 => "a" | 11 => "b" | 12 => "c"
  | 13 => "d" | 14 => "e" | _ => "f"
  end%char.

Definition hex8 (x : Z) (rest : string) : string :=
  String (hex_char (Z.shiftr x 28)) (String (hex_char (Z.shiftr x 24))
  (String (hex_char (Z.shiftr x 20)) (String (hex_char (Z.shiftr x 16))
  (String (hex_char (Z.shiftr x 12)) (String (hex_char (Z.shiftr x 8))
  (String (hex_char (Z.shiftr x 4)) (String (hex_char x) rest))))))).

Definition hex_of_state (s : state) : string :=
  hex8 (sa s) (hex8 (sb s) (hex8 (sc s) (hex8 (sd s)
  (hex8 (se s) (hex8 (sf s) (hex8 (sg s) (hex8 (sh s) EmptyString))))))).

Definition bytes_of_string (s : string) : list Z :=
  map (fun c => Z.of_N (N_of_ascii c)) (list_ascii_of_string s).

(** [hashlib.sha256(s.encode()).hexdigest()]. *)
Definition hexdigest (s : string) : string := hex_of_state (digest (bytes_of_string s)).

End Sha256.

(* ===================================================================== *)
(** ** Exceptions                                                         *)
(* ===================================================================== *)

(** A call either returns a value or raises; [x <- m ;; k] sequences calls
    and propagates the exception. *)

Inductive exn : Type :=
| InvalidOperation   (* decimal.InvalidOperation *)
| ValueError
| KeyError
| IndexError
| ZeroDivisionError
| UnicodeEncodeError
| SettlementFailed.  (* the handler's own [Exception("Settlement failed")] *)

Inductive res (A : Type) : Type :=
| Ok (a : A)
| Raise (e : exn).
Arguments Ok {A} a.
Arguments Raise {A} e.

Definition bind {A B : Type} (m : res A) (f : A -> res B) : res B :=
  match m with
  | Ok a => f a
  | Raise e => Raise e
  end.

Notation "x <- m ;; k" := (bind m (fun x => k))
  (at level 100, m at next level, right associativity).

(* ===================================================================== *)
(** ** str.encode                                                         *)
(* ===================================================================== *)

(** A [str] as a client sends it is a sequence of code points, 0 to 0x10FFFF,
    the surrogates D800 to DFFF among them.  [s.encode()] writes it in UTF-8
    and raises [UnicodeEncodeError] at a surrogate.  A [str] that is hashed or
    compared is held in this development by the bytes [encode] gives;
    [encode] is where a [str] that has none is refused. *)

Module Unicode.

Definition str : Type := list Z.

Definition is_surrogate (c : Z) : bool := (55296 <=? c) && (c <=? 57343).

Definition byte (b : Z) : string := String (ascii_of_N (Z.to_N b)) EmptyString.

(** The UTF-8 bytes of a code point that is not a surrogate. *)
Definition utf8 (c : Z) : string :=
  if c <? 128 then byte c
  else if c <? 2048 then (byte (192 + c / 64) ++ byte (128 + c mod 64))%string
  else if c <? 65536 then
    (byte (224 + c / 4096) ++ byte (128 + (c / 64) mod 64) ++ byte (128 + c mod 64))%string
  else
    (byte (240 + c / 262144) ++ byte (128 + (c / 4096) mod 64)
     ++ byte (128 + (c / 64) mod 64) ++ byte (128 + c mod 64))%string.

Fixpoint encode (s : str) : res string :=
  match s with
  | [] => Ok ""%string
  | c :: rest =>
      if is_surrogate c then Raise UnicodeEncodeError
      else bytes <- encode rest ;; Ok (utf8 c ++ bytes)%string
  end.

(** No code point is a surrogate. *)
Definition encodable (s : str) : bool := forallb (fun c => negb (is_surrogate c)) s.

End Unicode.

(* ===================================================================== *)
(** ** decimal.Decimal                                                    *)
(* ===================================================================== *)

(** A finite [Decimal] is a coefficient and an exponent; its value is
    [coef * 10 ^ dexp].  The sign is carried by the coefficient (a negative zero
    is not distinguished from zero; the two compare equal in Python).  NaN and
    the infinities are outside this type.  Arithmetic rounds to the 28
    significant digits of the default context, half to even, as [Decimal._fix]
    does.

    The exponent limits of the context are not applied by [fix_prec]: in Python
    a result whose adjusted exponent exceeds [Emax] raises [Overflow], and one
    whose exponent is below [Etiny] is rounded there (underflow, down to zero).
    [mul], [add], [sub] and [quantize] are those of Python on every result
    whose exact value lies within the limits, which [in_range] states; the
    properties that speak of arbitrary decimals carry it as a hypothesis. *)

Module Dec.

Record t : Type := Dc { coef : Z; dexp : Z }.

Definition prec : Z := 28.

Definition digits_str (c : Z) : string :=
  match c with
  | Z0 => "0"
  | Zpos p | Zneg p => NilZero.string_of_uint (Pos.to_uint p)
  end.

(** [len(self._int)]. *)
Definition ndigits (c : Z) : Z := Z.of_nat (String.length (digits_str c)).

(** [a / m] for [0 <= a], [0 < m], rounded half to even. *)
Definition div_half_even (a m : Z) : Z :=
  let q := a / m in
  let r := a mod m in
  if 2 * r <? m then q
  else if m <? 2 * r then q + 1
  else if Z.even q then q else q + 1.

(** The coefficient of [c * 10^(-k)] for [0 < k], rounded half to even. *)
Definition shift_round (c k : Z) : Z := Z.sgn c * div_half_even (Z.abs c) (10 ^ k).

(** More digits than the precision: [len(self._int) > prec]. *)
Definition too_long (c : Z) : bool := 10 ^ prec <=? Z.abs c.

(** [Decimal._fix]: round to the context precision. *)
Definition fix_prec (d : t) : t :=
  if too_long (coef d) then
    let k := ndigits (coef d) - prec in
    let c := shift_round (coef d) k in
    if too_long c then Dc (c / 10) (dexp d + k + 1)
    else Dc c (dexp d + k)
  else d.

Definition of_int (n : Z) : t := Dc n 0.

Definition mul (a b : t) : t := fix_prec (Dc (coef a * coef b) (dexp a + dexp b)).

(** Both coefficients at the smaller exponent. *)
Definition align (a b : t) : Z * Z * Z :=
  let e := Z.min (dexp a) (dexp b) in
  (coef a * 10 ^ (dexp a - e), coef b * 10 ^ (dexp b - e), e).

Definition add (a b : t) : t :=
  let '(x, y, e) := align a b in fix_prec (Dc (x + y) e).

Definition sub (a b : t) : t :=
  let '(x, y, e) := align a b in fix_prec (Dc (x - y) e).

(** Comparisons are by value and never round. *)
Definition leb (a b : t) : bool := let '(x, y, _) := align a b in x <=? y.
Definition ltb (a b : t) : bool := let '(x, y, _) := align a b in x <? y.
Definition eqb (a b : t) : bool := let '(x, y, _) := align a b in x =? y.

(** [Decimal._rescale(e, ROUND_HALF_EVEN)]. *)
Definition rescale (d : t) (e : Z) : t :=
  if e <=? dexp d then Dc (coef d * 10 ^ (dexp d - e)) e
  else Dc (shift_round (coef d) (e - dexp d)) e.

(** [d.quantize(q)]: [d] at the exponent of [q]; signals [InvalidOperation]
    when the result would need more digits than the precision. *)
Definition quantize (d q : t) : res t :=
  if coef d =? 0 then Ok (Dc 0 (dexp q))
  else
    let r := rescale d (dexp q) in
    if too_long (coef r) then Raise InvalidOperation else Ok r.

(** The limits of the default context: [Emax], [Emin] and
    [Etiny = Emin - prec + 1]; [adjusted] is the exponent of the first digit. *)
Definition Emax : Z := 999999.
Definition Emin : Z := -999999.
Definition Etiny : Z := Emin - prec + 1.

Definition adjusted (d : t) : Z := dexp d + ndigits (coef d) - 1.

(** Neither overflow nor underflow: the exponent is not below [Etiny] and the
    adjusted exponent not above [Emax]. *)
Definition in_range (d : t) : bool := (Etiny <=? dexp d) && (adjusted d <=? Emax).

(** [str(d)]: plain notation when the exponent is not positive and the number
    is not too small, scientific notation otherwise. *)
Definition zeros (n : Z) : string := String.concat "" (repeat "0"%string (Z.to_nat n)).

Definition signed_exp (n : Z) : string :=
  String.append (if n <? 0 then "-"%string else "+"%string) (Py.str_of_int (Z.abs n)).

Definition to_str (d : t) : string :=
  let ds := digits_str (coef d) in
  let len := Z.of_nat (String.length ds) in
  let leftdigits := dexp d + len in
  let dotplace := if (dexp d <=? 0) && (-6 <? leftdigits) then leftdigits else 1 in
  let intpart :=
    if dotplace <=? 0 then "0"%string
    else if len <=? dotplace then (ds ++ zeros (dotplace - len))%string
    else String.substring 0 (Z.to_nat dotplace) ds in
  let fracpart :=
    if dotplace <=? 0 then ("." ++ zeros (- dotplace) ++ ds)%string
    else if len <=? dotplace then ""%string
    else ("." ++ String.substring (Z.to_nat dotplace) (Z.to_nat (len - dotplace)) ds)%string in
  let e :=
    if leftdigits =? dotplace then ""%string
    else ("E" ++ signed_exp (leftdigits - dotplace))%string in
  let sign := if coef d <? 0 then "-"%string else ""%string in
  (sign ++ intpart ++ fracpart ++ e)%string.

End Dec.

(** Identifiers ([UUID]s, socket ids, entry ids) are their canonical strings. *)
Abbreviation UUID := string.

(* ===================================================================== *)
(** ** app/game_engine.py: rake and treasury ledger                       *)
(* ===================================================================== *)

Module GameEngine.

Inductive RakeLevel : Type := SEMILLA | COMPETIDOR | PRO.

Record RakeConfig : Type := mkRakeConfig {
  level : RakeLevel;
  min_bet : Dec.t;
  max_bet : Dec.t;
  rate : Dec.t
}.

(** [self.min_bet <= bet_amount <= self.max_bet] *)
Definition applies_to (self : RakeConfig) (bet_amount : Dec.t) : bool :=
  Dec.leb (min_bet self) bet_amount && Dec.leb bet_amount (max_bet self).

Definition tier_semilla : RakeConfig :=
  mkRakeConfig SEMILLA (Dec.Dc 1 0) (Dec.Dc 10 0) (Dec.Dc 8 (-2)).
Definition tier_competidor : RakeConfig :=
  mkRakeConfig COMPETIDOR (Dec.Dc 11 0) (Dec.Dc 50 0) (Dec.Dc 6 (-2)).
Definition tier_pro : RakeConfig :=
  mkRakeConfig PRO (Dec.Dc 51 0) (Dec.Dc 999999 0) (Dec.Dc 5 (-2)).

Definition RAKE_TIERS : list RakeConfig := [tier_semilla; tier_competidor; tier_pro].

(** The first tier that applies, else [RAKE_TIERS[-1]]. *)
Definition get_rake_tier (bet_amount : Dec.t) : RakeConfig :=
  match List.find (fun tier => applies_to tier bet_amount) RAKE_TIERS with
  | Some tier => tier
  | None => List.last RAKE_TIERS tier_pro
  end.

(** The dictionary returned by [calculate_fee]. *)
Record FeeResult : Type := mkFeeResult {
  bet_per_player : Dec.t;
  fee_per_player : Dec.t;
  total_pot : Dec.t;
  total_fee : Dec.t;
  winner_prize : Dec.t;
  rake_rate : Dec.t;
  rake_level : RakeLevel
}.

Definition cent : Dec.t := Dec.Dc 1 (-2).

Definition calculate_fee (bet_amount : Dec.t) (num_players : Z) : res FeeResult :=
  let tier := get_rake_tier bet_amount in
  fee <- Dec.quantize (Dec.mul bet_amount (rate tier)) cent ;;
  let pot := Dec.mul bet_amount (Dec.of_int num_players) in
  let tfee := Dec.mul fee (Dec.of_int num_players) in
  let prize := Dec.sub pot tfee in
  Ok (mkFeeResult bet_amount fee pot tfee prize (rate tier) (level tier)).

Inductive EntryStatus : Type := PENDING | COMMITTED | ROLLED_BACK.

Record LedgerEntry : Type := mkLedgerEntry {
  entry_id : string;
  match_id : string;
  timestamp : float;
  debitor_id : string;
  creditor_id : string;
  debit_amount : Dec.t;
  credit_amount : Dec.t;
  rake_amount : Dec.t;
  treasury_id : string;
  debitor_balance_hash_before : string;
  debitor_balance_hash_after : string;
  creditor_balance_hash_before : string;
  creditor_balance_hash_after : string;
  status : EntryStatus
}.

Definition set_status (s : EntryStatus) (e : LedgerEntry) : LedgerEntry :=
  mkLedgerEntry (entry_id e) (match_id e) (timestamp e) (debitor_id e) (creditor_id e)
    (debit_amount e) (credit_amount e) (rake_amount e) (treasury_id e)
    (debitor_balance_hash_before e) (debitor_balance_hash_after e)
    (creditor_balance_hash_before e) (creditor_balance_hash_after e) s.

(** [self.debit_amount == (self.credit_amount + self.rake_amount)] *)
Definition validate_balance_equation (self : LedgerEntry) : bool :=
  Dec.eqb (debit_amount self) (Dec.add (credit_amount self) (rake_amount self)).

Record TreasuryLedger : Type := mkTreasuryLedger {
  entries : list LedgerEntry;
  treasury_balance : Dec.t;
  pending_entries : gmap string LedgerEntry
}.

Definition TreasuryLedger_init : TreasuryLedger :=
  mkTreasuryLedger [] (Dec.Dc 0 0) ∅.

Definition _compute_balance_hash (user_id : string) (balance : Dec.t) : string :=
  Sha256.hexdigest (user_id ++ ":" ++ Dec.to_str balance)%string.

(** [now_int] is [int(time.time())] at the point the entry id is formed and
    [now] the later reading stored as the entry's timestamp. *)
Definition create_match_settlement (now_int : Z) (now : float)
    (self : TreasuryLedger) (match_id winner_id loser_id : string)
    (bet_amount winner_balance_before loser_balance_before : Dec.t)
  : res (LedgerEntry * TreasuryLedger) :=
  rake_result <- calculate_fee bet_amount 2 ;;
  let entry_id :=
    ("LED-" ++ Py.take_str 8 match_id ++ "-" ++ Py.str_of_int now_int)%string in
  let debit_amount := bet_amount in
  let credit_amount := winner_prize rake_result in
  let rake_amount := total_fee rake_result in
  let loser_balance_after := Dec.sub loser_balance_before debit_amount in
  let winner_balance_after := Dec.add winner_balance_before credit_amount in
  let entry :=
    mkLedgerEntry entry_id match_id now loser_id winner_id
      debit_amount credit_amount rake_amount "LK_TREASURY"
      (_compute_balance_hash loser_id loser_balance_before)
      (_compute_balance_hash loser_id loser_balance_after)
      (_compute_balance_hash winner_id winner_balance_before)
      (_compute_balance_hash winner_id winner_balance_after)
      PENDING in
  if negb (validate_balance_equation entry) then Raise ValueError
  else Ok (entry, mkTreasuryLedger (entries self) (treasury_balance self)
                    (<[entry_id := entry]> (pending_entries self))).

Definition commit_entry (self : TreasuryLedger) (entry_id : string)
  : bool * TreasuryLedger :=
  match pending_entries self !! entry_id with
  | None => (false, self)
  | Some entry =>
      let entry := set_status COMMITTED entry in
      (true, mkTreasuryLedger (entries self ++ [entry])
               (Dec.add (treasury_balance self) (rake_amount entry))
               (delete entry_id (pending_entries self)))
  end.

Definition rollback_entry (self : TreasuryLedger) (entry_id : string)
  : bool * TreasuryLedger :=
  match pending_entries self !! entry_id with
  | None => (false, self)
  | Some _ =>
      (true, mkTreasuryLedger (entries self) (treasury_balance self)
               (delete entry_id (pending_entries self)))
  end.

(** [LKBot.is_bot_user] *)
Definition BOT_USER_ID : string := "00000000-0000-0000-0000-000000000001".
Definition is_bot_user (user_id : string) : bool := String.eqb user_id BOT_USER_ID.

(** *** The rest of the treasury ledger *)

(** The dictionary returned by [get_treasury_summary]. *)
Record TreasurySummary : Type := mkTreasurySummary {
  total_balance : string;
  total_entries : Z;
  pending_count : Z;                 (* "pending_entries" *)
  last_entry : option string
}.

Definition get_treasury_summary (self : TreasuryLedger) : TreasurySummary :=
  mkTreasurySummary (Dec.to_str (treasury_balance self))
    (Z.of_nat (length (entries self)))
    (Z.of_nat (size (pending_entries self)))
    (match List.rev (entries self) with
     | [] => None
     | e :: _ => Some (entry_id e)
     end).

(** The dictionary returned by [verify_all_entries]. *)
Record VerifyReport : Type := mkVerifyReport {
  total_entries_verified : Z;
  invalid_entries : list string;
  calculated_balance : string;
  recorded_balance : string;
  drift : string;
  integrity_status : string
}.

(** The loop of [verify_all_entries]: the ids of the entries that fail the
    balance equation, and the sum of the rakes in ledger order. *)
Definition invalid_ids (es : list LedgerEntry) : list string :=
  map entry_id (List.filter (fun e => negb (validate_balance_equation e)) es).

Definition sum_of_rakes (es : list LedgerEntry) : Dec.t :=
  fold_left (fun acc e => Dec.add acc (rake_amount e)) es (Dec.Dc 0 0).

Definition verify_all_entries (self : TreasuryLedger) : VerifyReport :=
  let invalid := invalid_ids (entries self) in
  let calculated := sum_of_rakes (entries self) in
  let d := Dec.sub (treasury_balance self) calculated in
  mkVerifyReport (Z.of_nat (length (entries self))) invalid
    (Dec.to_str calculated) (Dec.to_str (treasury_balance self)) (Dec.to_str d)
    (if Dec.eqb d (Dec.Dc 0 0) && (match invalid with [] => true | _ => false end)
     then "OK" else "ALERT").

(** A client of the ledger: it creates settlements (an exception leaves the
    ledger as it was), commits and rolls back, in any order. *)
Inductive ledger_call : Type :=
| CallCreate (now_int : Z) (now : float) (mid winner_id loser_id : string)
             (bet winner_balance loser_balance : Dec.t)
| CallCommit (eid : string)
| CallRollback (eid : string).

Definition ledger_step (l : TreasuryLedger) (c : ledger_call) : TreasuryLedger :=
  match c with
  | CallCreate now_int now mid w lo bet wb lb =>
      match create_match_settlement now_int now l mid w lo bet wb lb with
      | Ok (_, l') => l'
      | Raise _ => l
      end
  | CallCommit eid => snd (commit_entry l eid)
  | CallRollback eid => snd (rollback_entry l eid)
  end.

Definition ledger_run (calls : list ledger_call) (l : TreasuryLedger) : TreasuryLedger :=
  fold_left ledger_step calls l.

End GameEngine.

(* ===================================================================== *)
(** ** app/ludo_engine.py: provably fair dice and the board game          *)
(* ===================================================================== *)

Module Ludo.

Module LudoConfig.
Definition BOARD_SIZE : Z := 52.
Definition HOME_STRETCH : Z := 5.
Definition PIECES_PER_PLAYER : Z := 4.
Definition DICE_MIN : Z := 1.
Definition DICE_MAX : Z := 6.
Definition ROLL_AGAIN_ON : Z := 6.
Definition MAX_CONSECUTIVE_SIXES : Z := 3.
Definition EXIT_ROLL : Z := 6.
Definition SAFE_POSITIONS : list Z := [0; 8; 13; 21; 26; 34; 39; 47].
End LudoConfig.

Inductive PieceState : Type := HOME | ACTIVE | SAFE_ZONE | FINISHED.
Inductive LudoGameState : Type := WAITING | ROLLING | MOVING | COMPLETED | ABANDONED.
Inductive PlayerColor : Type := RED | BLUE | GREEN | YELLOW.

Record LudoPiece : Type := mkLudoPiece {
  piece_id : Z;
  owner : PlayerColor;
  piece_state : PieceState;          (* [state] *)
  position : Z;
  safe_zone_pos : Z
}.

Record LudoPlayer : Type := mkLudoPlayer {
  user_id : UUID;
  color : PlayerColor;
  pieces : list LudoPiece;
  pieces_finished : Z;
  captures_made : Z;
  sixes_rolled : Z;
  is_connected : bool;
  last_action : float
}.

Record DiceRoll : Type := mkDiceRoll {
  value : Z;
  server_seed : string;              (* the public hash of the seed *)
  client_seed : string;
  nonce : Z;
  timestamp : float;
  hash_proof : string
}.

Record LudoMove : Type := mkLudoMove {
  move_id : Z;
  player : PlayerColor;
  moved_piece : Z;                   (* [piece_id] *)
  dice_roll : DiceRoll;
  from_position : Z;
  to_position : Z;
  captured_piece : option (PlayerColor * Z);
  entered_safe_zone : bool;
  finished : bool;
  move_timestamp : float             (* [timestamp] *)
}.

(** *** ProvablyFairDice *)

Record ProvablyFairDice : Type := mkDice {
  dice_server_seed : string;         (* [server_seed], secret until the end *)
  server_seed_hash : string;
  client_seeds : gmap string string;
  dice_nonce : Z                     (* [nonce] *)
}.

(** [__init__]: [token] is the value [secrets.token_hex(32)] would return. *)
Definition ProvablyFairDice_init (seed : option string) (token : string)
  : ProvablyFairDice :=
  let s := match seed with
           | Some s => if String.eqb s "" then token else s
           | None => token
           end in
  mkDice s (Sha256.hexdigest s) ∅ 0.

Definition set_client_seed (self : ProvablyFairDice) (player_id seed : string)
  : ProvablyFairDice :=
  mkDice (dice_server_seed self) (server_seed_hash self)
         (<[player_id := seed]> (client_seeds self)) (dice_nonce self).

(** [f"{server_seed}:{client_seed}:{nonce}"] *)
Definition combined (server_seed client_seed : string) (nonce : Z) : string :=
  (server_seed ++ ":" ++ client_seed ++ ":" ++ Py.str_of_int nonce)%string.

(** [(int(hash_result[:8], 16) % 6) + 1] *)
Definition dice_value_of_hash (hash_result : string) : res Z :=
  match Py.int16 (Py.take_str 8 hash_result) with
  | Some numeric_value => Ok (numeric_value mod 6 + 1)
  | None => Raise ValueError
  end.

Definition roll (now : float) (self : ProvablyFairDice) (player_id : string)
  : res (DiceRoll * ProvablyFairDice) :=
  let nonce := dice_nonce self + 1 in
  let client_seed := default "default"%string (client_seeds self !! player_id) in
  let hash_result := Sha256.hexdigest (combined (dice_server_seed self) client_seed nonce) in
  dice_value <- dice_value_of_hash hash_result ;;
  Ok (mkDiceRoll dice_value (server_seed_hash self) client_seed nonce now
                 (Py.take_str 16 hash_result),
      mkDice (dice_server_seed self) (server_seed_hash self) (client_seeds self) nonce).

Definition verify_roll (roll : DiceRoll) (revealed_server_seed : string) : res bool :=
  let hash_result :=
    Sha256.hexdigest (combined revealed_server_seed (client_seed roll) (nonce roll)) in
  expected_value <- dice_value_of_hash hash_result ;;
  Ok ((expected_value =? value roll)
      && String.eqb (Py.take_str 16 hash_result) (hash_proof roll)).




(** *** LudoEngine *)

Inductive Action : Type := Exit | Move | EnterSafe | SafeMove | Finish.

(** The dictionary [{"to": .., "action": ..}] of [_can_move_piece]. *)
Record MoveInfo : Type := mkMoveInfo { mi_to : Z; mi_action : Action }.

(** One entry of the list returned by [_get_available_moves]. *)
Record AvailableMove : Type := mkAvailableMove {
  am_piece_id : Z;
  am_from : Z;
  am_to : Z;
  am_action : Action
}.

Record LudoEngine : Type := mkEngine {
  match_id : UUID;
  state : LudoGameState;
  players : list (UUID * LudoPlayer);     (* dict, in insertion order *)
  player_order : list UUID;
  dice : ProvablyFairDice;
  current_player_index : Z;
  current_roll : option DiceRoll;
  consecutive_sixes : Z;
  can_roll_again : bool;
  moves_history : list LudoMove;
  move_counter : Z;
  started_at : float;
  turn_started_at : float;
  winner : option UUID;
  rankings : list UUID
}.

Definition color_eqb (a b : PlayerColor) : bool :=
  match a, b with
  | RED, RED | BLUE, BLUE | GREEN, GREEN | YELLOW, YELLOW => true
  | _, _ => false
  end.

Definition state_eqb (a b : LudoGameState) : bool :=
  match a, b with
  | WAITING, WAITING | ROLLING, ROLLING | MOVING, MOVING
  | COMPLETED, COMPLETED | ABANDONED, ABANDONED => true
  | _, _ => false
  end.

(** [l[i]] with Python's negative indices; [IndexError] out of range. *)
Definition py_index {A : Type} (l : list A) (i : Z) : res A :=
  let n := Z.of_nat (length l) in
  let j := if i <? 0 then i + n else i in
  if (0 <=? j) && (j <? n) then
    match nth_error l (Z.to_nat j) with
    | Some x => Ok x
    | None => Raise IndexError
    end
  else Raise IndexError.

(** [d[k]] and [d[k] = v] on an insertion-ordered dictionary. *)
Fixpoint dict_get {V : Type} (d : list (UUID * V)) (k : UUID) : res V :=
  match d with
  | [] => Raise KeyError
  | (k', v) :: r => if String.eqb k' k then Ok v else dict_get r k
  end.

Fixpoint dict_set {V : Type} (d : list (UUID * V)) (k : UUID) (v : V) : list (UUID * V) :=
  match d with
  | [] => [(k, v)]
  | (k', v') :: r => if String.eqb k' k then (k', v) :: r else (k', v') :: dict_set r k v
  end.

Definition new_player (uid : UUID) (c : PlayerColor) (now : float) : LudoPlayer :=
  mkLudoPlayer uid c
    (map (fun i => mkLudoPiece i c HOME (-1) (-1)) [0; 1; 2; 3]) 0 0 0 true now.

(** [__init__]: at most four players, coloured in order. *)
Fixpoint seat (uids : list UUID) (colors : list PlayerColor) (now : float)
    (acc : list (UUID * LudoPlayer) * list UUID) : list (UUID * LudoPlayer) * list UUID :=
  match uids, colors with
  | uid :: us, c :: cs =>
      seat us cs now (dict_set (fst acc) uid (new_player uid c now), snd acc ++ [uid])
  | _, _ => acc
  end.

Definition LudoEngine_init (now : float) (token : string) (mid : UUID) (uids : list UUID)
  : LudoEngine :=
  let '(pls, order) := seat uids [RED; BLUE; GREEN; YELLOW] now ([], []) in
  mkEngine mid WAITING pls order (ProvablyFairDice_init None token)
           0 None 0 false [] 0 now now None [].

Definition current_user_id (self : LudoEngine) : res UUID :=
  py_index (player_order self) (current_player_index self).

Definition current_player (self : LudoEngine) : res LudoPlayer :=
  uid <- current_user_id self ;;
  dict_get (players self) uid.

Definition get_start_position (c : PlayerColor) : Z :=
  match c with RED => 0 | BLUE => 13 | GREEN => 26 | YELLOW => 39 end.

Definition get_safe_zone_entry (c : PlayerColor) : Z :=
  (get_start_position c + LudoConfig.BOARD_SIZE - 1) mod LudoConfig.BOARD_SIZE.

Definition start_game (now : float) (self : LudoEngine) : option string * LudoEngine :=
  if negb (state_eqb (state self) WAITING) then (Some "Game already started"%string, self)
  else (None,
        mkEngine (match_id self) ROLLING (players self) (player_order self) (dice self)
          (current_player_index self) (current_roll self) (consecutive_sixes self)
          (can_roll_again self) (moves_history self) (move_counter self)
          now now (winner self) (rankings self)).

(** The lookup of the current player at the head of the Python method binds a
    variable that is never read; it is made again, and read, by each caller. *)
Definition _can_move_piece (piece : LudoPiece) (dice_value : Z) : option MoveInfo :=
  match piece_state piece with
  | HOME =>
      if dice_value =? LudoConfig.EXIT_ROLL
      then Some (mkMoveInfo (get_start_position (owner piece)) Exit)
      else None
  | FINISHED => None
  | SAFE_ZONE =>
      let new_safe_pos := safe_zone_pos piece + dice_value in
      if new_safe_pos =? LudoConfig.HOME_STRETCH + 1 then Some (mkMoveInfo (-2) Finish)
      else if LudoConfig.HOME_STRETCH + 1 <? new_safe_pos then None
      else Some (mkMoveInfo new_safe_pos SafeMove)
  | ACTIVE =>
      let new_pos := (position piece + dice_value) mod LudoConfig.BOARD_SIZE in
      let safe_zone_entry := get_safe_zone_entry (owner piece) in
      let steps_to_entry := (safe_zone_entry - position piece) mod LudoConfig.BOARD_SIZE in
      if (steps_to_entry <? dice_value) && (0 <=? steps_to_entry) then
        let remaining := dice_value - steps_to_entry - 1 in
        if remaining <=? LudoConfig.HOME_STRETCH then
          if remaining =? LudoConfig.HOME_STRETCH then Some (mkMoveInfo (-2) Finish)
          else Some (mkMoveInfo remaining EnterSafe)
        else None
      else Some (mkMoveInfo new_pos Move)
  end.

Definition moves_of_pieces (ps : list LudoPiece) (dice_value : Z) : list AvailableMove :=
  flat_map (fun piece =>
              match _can_move_piece piece dice_value with
              | Some mi => [mkAvailableMove (piece_id piece) (position piece)
                                            (mi_to mi) (mi_action mi)]
              | None => []
              end) ps.

Definition _get_available_moves (self : LudoEngine) (dice_value : Z)
  : res (list AvailableMove) :=
  player <- current_player self ;;
  Ok (moves_of_pieces (pieces player) dice_value).

Definition _next_turn (now : float) (self : LudoEngine) : res LudoEngine :=
  let n := Z.of_nat (length (player_order self)) in
  if n =? 0 then Raise ZeroDivisionError
  else Ok (mkEngine (match_id self) ROLLING (players self) (player_order self) (dice self)
             ((current_player_index self + 1) mod n) None 0 false
             (moves_history self) (move_counter self)
             (started_at self) now (winner self) (rankings self)).

(** What [roll_dice] returns. *)
Inductive RollOutcome : Type :=
| RollError (msg : string)
| RollPenalty (roll : DiceRoll) (next_player : UUID)      (* "penalty": "three_sixes" *)
| RollNoMoves (roll : DiceRoll) (next_player : UUID)      (* "no_moves": True *)
| RollMoves (roll : DiceRoll) (available_moves : list AvailableMove) (again : bool).

(** The fields [roll_dice] assigns before it decides what to do. *)
Definition with_roll (self : LudoEngine) (d : ProvablyFairDice) (r : DiceRoll)
    (sixes : Z) (again : bool) (st : LudoGameState) : LudoEngine :=
  mkEngine (match_id self) st (players self) (player_order self) d
    (current_player_index self) (Some r) sixes again
    (moves_history self) (move_counter self)
    (started_at self) (turn_started_at self) (winner self) (rankings self).

(** [if client_seed: self.dice.set_client_seed(str(user_id), client_seed)] *)
Definition register_seed (d : ProvablyFairDice) (uid : UUID) (seed : option string)
  : ProvablyFairDice :=
  match seed with
  | Some s => if String.eqb s "" then d else set_client_seed d uid s
  | None => d
  end.

(** [t_roll] is the clock reading stamped on the roll, [t_turn] the one taken
    by [_next_turn] when the turn passes. *)
Definition roll_dice (t_roll t_turn : float) (self : LudoEngine) (uid : UUID)
    (seed : option string) : res (RollOutcome * LudoEngine) :=
  if negb (state_eqb (state self) ROLLING)
  then Ok (RollError "Cannot roll in current state", self)
  else
    cur <- current_user_id self ;;
    if negb (String.eqb uid cur) then Ok (RollError "Not your turn", self)
    else
      rd <- roll t_roll (register_seed (dice self) uid seed) uid ;;
      let '(r, d') := rd in
      let six := value r =? 6 in
      let sixes := if six then consecutive_sixes self + 1 else 0 in
      if six && (LudoConfig.MAX_CONSECUTIVE_SIXES <=? sixes) then
        self' <- _next_turn t_turn
                   (with_roll self d' r sixes (can_roll_again self) (state self)) ;;
        next <- current_user_id self' ;;
        Ok (RollPenalty r next, self')
      else
        let self1 := with_roll self d' r sixes six (state self) in
        available <- _get_available_moves self1 (value r) ;;
        match available with
        | [] =>
            self' <- _next_turn t_turn self1 ;;
            next <- current_user_id self' ;;
            Ok (RollNoMoves r next, self')
        | _ => Ok (RollMoves r available six, with_roll self d' r sixes six MOVING)
        end.

(** What [move_piece] returns. *)
Inductive MoveOutcome : Type :=
| MoveError (msg : string)
| MoveRollAgain (move : LudoMove)                          (* "roll_again": True *)
| MoveNext (move : LudoMove) (next_player : UUID)
| GameOver (winner_id : UUID) (winner_color : PlayerColor) (ranking : list UUID)
           (total_moves : Z).

Definition with_pieces (pl : LudoPlayer) (ps : list LudoPiece) : LudoPlayer :=
  mkLudoPlayer (user_id pl) (color pl) ps (pieces_finished pl) (captures_made pl)
               (sixes_rolled pl) (is_connected pl) (last_action pl).

Definition with_players (self : LudoEngine) (pls : list (UUID * LudoPlayer)) : LudoEngine :=
  mkEngine (match_id self) (state self) pls (player_order self) (dice self)
    (current_player_index self) (current_roll self) (consecutive_sixes self)
    (can_roll_again self) (moves_history self) (move_counter self)
    (started_at self) (turn_started_at self) (winner self) (rankings self).

(** The first active piece on [pos] goes back home. *)
Fixpoint capture_piece (pos : Z) (ps : list LudoPiece) : option (Z * list LudoPiece) :=
  match ps with
  | [] => None
  | p :: r =>
      match piece_state p with
      | ACTIVE =>
          if position p =? pos
          then Some (piece_id p,
                     mkLudoPiece (piece_id p) (owner p) HOME (-1) (safe_zone_pos p) :: r)
          else option_map (fun '(i, r') => (i, p :: r')) (capture_piece pos r)
      | _ => option_map (fun '(i, r') => (i, p :: r')) (capture_piece pos r)
      end
  end.

Fixpoint capture_player (pos : Z) (attacker : PlayerColor) (pls : list (UUID * LudoPlayer))
  : option ((PlayerColor * Z) * list (UUID * LudoPlayer)) :=
  match pls with
  | [] => None
  | (uid, pl) :: r =>
      let later := option_map (fun '(c, r') => (c, (uid, pl) :: r'))
                              (capture_player pos attacker r) in
      if color_eqb (color pl) attacker then later
      else match capture_piece pos (pieces pl) with
           | Some (i, ps) => Some ((color pl, i), (uid, with_pieces pl ps) :: r)
           | None => later
           end
  end.

Definition _check_capture (self : LudoEngine) (pos : Z) (attacker : PlayerColor)
  : res (option (PlayerColor * Z) * LudoEngine) :=
  if existsb (Z.eqb pos) LudoConfig.SAFE_POSITIONS then Ok (None, self)
  else match capture_player pos attacker (players self) with
       | None => Ok (None, self)
       | Some (c, pls) =>
           let self1 := with_players self pls in
           uid <- current_user_id self1 ;;
           cur <- dict_get pls uid ;;
           let cur' := mkLudoPlayer (user_id cur) (color cur) (pieces cur)
                         (pieces_finished cur) (captures_made cur + 1)
                         (sixes_rolled cur) (is_connected cur) (last_action cur) in
           Ok (Some c, with_players self1 (dict_set pls uid cur'))
       end.

(** The dictionary returned by [_validate_and_execute_move]. *)
Record MoveResult : Type := mkMoveResult {
  mr_from : Z;
  mr_to : Z;
  mr_capture : option (PlayerColor * Z);
  mr_entered_safe_zone : bool;
  mr_finished : bool
}.

(** The piece is the one at index [idx] of the current player's pieces. *)
Definition _validate_and_execute_move (self : LudoEngine) (uid : UUID) (idx : nat)
    (piece : LudoPiece) (dice_value : Z) : res (option MoveResult * LudoEngine) :=
  match _can_move_piece piece dice_value with
  | None => Ok (None, self)
  | Some mi =>
      pl <- current_player self ;;
      let from_pos := position piece in
      let to_pos := mi_to mi in
      let put pc fin :=
        with_players self
          (dict_set (players self) uid
             (mkLudoPlayer (user_id pl) (color pl) (<[idx := pc]> (pieces pl))
                (pieces_finished pl + fin) (captures_made pl)
                (sixes_rolled pl) (is_connected pl) (last_action pl))) in
      match mi_action mi with
      | Exit =>
          let pc := mkLudoPiece (piece_id piece) (owner piece) ACTIVE to_pos
                                (safe_zone_pos piece) in
          cap <- _check_capture (put pc 0) to_pos (color pl) ;;
          Ok (Some (mkMoveResult from_pos to_pos (fst cap) false false), snd cap)
      | Move =>
          let pc := mkLudoPiece (piece_id piece) (owner piece) (piece_state piece) to_pos
                                (safe_zone_pos piece) in
          cap <- _check_capture (put pc 0) to_pos (color pl) ;;
          Ok (Some (mkMoveResult from_pos to_pos (fst cap) false false), snd cap)
      | EnterSafe =>
          let pc := mkLudoPiece (piece_id piece) (owner piece) SAFE_ZONE (-1) to_pos in
          Ok (Some (mkMoveResult from_pos to_pos None true false), put pc 0)
      | SafeMove =>
          let pc := mkLudoPiece (piece_id piece) (owner piece) (piece_state piece)
                                (position piece) to_pos in
          Ok (Some (mkMoveResult from_pos to_pos None false false), put pc 0)
      | Finish =>
          let pc := mkLudoPiece (piece_id piece) (owner piece) FINISHED (-2) (-1) in
          Ok (Some (mkMoveResult from_pos to_pos None false true), put pc 1)
      end
  end.

Definition _handle_victory (self : LudoEngine) (w : LudoPlayer) : MoveOutcome * LudoEngine :=
  let ranking1 := rankings self ++ [user_id w] in
  let ranking :=
    fold_left (fun acc uid => if existsb (String.eqb uid) acc then acc else acc ++ [uid])
              (player_order self) ranking1 in
  (GameOver (user_id w) (color w) ranking (Z.of_nat (length (moves_history self))),
   mkEngine (match_id self) COMPLETED (players self) (player_order self) (dice self)
     (current_player_index self) (current_roll self) (consecutive_sixes self)
     (can_roll_again self) (moves_history self) (move_counter self)
     (started_at self) (turn_started_at self) (Some (user_id w)) ranking).

(** [t_move] is the clock reading stamped on the move, [t_turn] the one taken
    by [_next_turn]. *)
Definition move_piece (t_move t_turn : float) (self : LudoEngine) (uid : UUID)
    (pid : Z) : res (MoveOutcome * LudoEngine) :=
  if negb (state_eqb (state self) MOVING)
  then Ok (MoveError "Cannot move in current state", self)
  else
    cur <- current_user_id self ;;
    if negb (String.eqb uid cur) then Ok (MoveError "Not your turn", self)
    else
      match current_roll self with
      | None => Ok (MoveError "No dice roll available", self)
      | Some r =>
          pl <- current_player self ;;
          if (pid <? 0) || (Z.of_nat (length (pieces pl)) <=? pid)
          then Ok (MoveError "Invalid piece ID", self)
          else
            piece <- py_index (pieces pl) pid ;;
            done <- _validate_and_execute_move self cur (Z.to_nat pid) piece (value r) ;;
            match done with
            | (None, _) => Ok (MoveError "Invalid move for this piece", self)
            | (Some mr, self1) =>
                let counter := move_counter self1 + 1 in
                let move := mkLudoMove counter (color pl) pid r (mr_from mr) (mr_to mr)
                              (mr_capture mr) (mr_entered_safe_zone mr) (mr_finished mr)
                              t_move in
                let self2 :=
                  mkEngine (match_id self1) (state self1) (players self1)
                    (player_order self1) (dice self1) (current_player_index self1)
                    (current_roll self1) (consecutive_sixes self1) (can_roll_again self1)
                    (moves_history self1 ++ [move]) counter
                    (started_at self1) (turn_started_at self1) (winner self1)
                    (rankings self1) in
                pl2 <- current_player self2 ;;
                if LudoConfig.PIECES_PER_PLAYER <=? pieces_finished pl2
                then Ok (_handle_victory self2 pl2)
                else
                  let extra_turn :=
                    match mr_capture mr with Some _ => true | None => mr_finished mr end in
                  if can_roll_again self2 || extra_turn then
                    Ok (MoveRollAgain move,
                        mkEngine (match_id self2) ROLLING (players self2)
                          (player_order self2) (dice self2) (current_player_index self2)
                          None (consecutive_sixes self2) (can_roll_again self2)
                          (moves_history self2) (move_counter self2)
                          (started_at self2) (turn_started_at self2) (winner self2)
                          (rankings self2))
                  else
                    self3 <- _next_turn t_turn self2 ;;
                    next <- current_user_id self3 ;;
                    Ok (MoveNext move next, self3)
            end
      end.

(** [roll_dice] with the client seed as the [str] the client sent.  The seed
    is encoded where the dice hashes it, in [roll], that is after the two
    guards and after [set_client_seed]: a seed that holds a surrogate makes the
    call raise [UnicodeEncodeError] there, and is not looked at when a guard
    answers first.  A seed that can be encoded is held by its bytes. *)
Definition roll_dice_str (t_roll t_turn : float) (self : LudoEngine) (uid : UUID)
    (client_seed : option Unicode.str) : res (RollOutcome * LudoEngine) :=
  match client_seed with
  | None => roll_dice t_roll t_turn self uid None
  | Some s =>
      match Unicode.encode s with
      | Ok seed => roll_dice t_roll t_turn self uid (Some seed)
      | Raise e =>
          if negb (state_eqb (state self) ROLLING)
          then Ok (RollError "Cannot roll in current state", self)
          else
            cur <- current_user_id self ;;
            if negb (String.eqb uid cur) then Ok (RollError "Not your turn", self)
            else Raise e
      end
  end.

(** A client of the engine: it starts the game, rolls and moves, for any user
    and any piece number, in any order.  A run ends at the first call that
    raises. *)
Inductive game_call : Type :=
| CallStart (now : float)
| CallRollDice (t_roll t_turn : float) (uid : UUID) (client_seed : option Unicode.str)
| CallMovePiece (t_move t_turn : float) (uid : UUID) (pid : Z).

Definition game_step (e : LudoEngine) (c : game_call) : res LudoEngine :=
  match c with
  | CallStart now => Ok (snd (start_game now e))
  | CallRollDice t_roll t_turn uid client_seed =>
      r <- roll_dice_str t_roll t_turn e uid client_seed ;; Ok (snd r)
  | CallMovePiece t_move t_turn uid pid =>
      r <- move_piece t_move t_turn e uid pid ;; Ok (snd r)
  end.

Fixpoint game_run (calls : list game_call) (e : LudoEngine) : res LudoEngine :=
  match calls with
  | [] => Ok e
  | c :: rest => e' <- game_step e c ;; game_run rest e'
  end.

(** The client seed of the call, if it has one, can be encoded. *)
Definition seed_encodable (c : game_call) : bool :=
  match c with
  | CallRollDice _ _ _ (Some s) => Unicode.encodable s
  | _ => true
  end.

End Ludo.

(* ===================================================================== *)
(** ** app/jitter_detector.py: spikes and the jitter score                *)
(* ===================================================================== *)

Module Jitter.

Module JitterConfig.
Definition BASELINE_SAMPLES : Z := 10.
Definition JITTER_THRESHOLD_STD : float := 2.5.
Definition LATENCY_SPIKE_THRESHOLD : float := 500.     (* the [int] 500 *)
Definition MAX_SPIKES_BEFORE_FLAG : Z := 3.
Definition SPIKE_WINDOW : float := 60.
Definition GRACE_PERIOD : Z := 45.
End JitterConfig.

Inductive ConnectionQuality : Type := EXCELLENT | GOOD | FAIR | POOR | CRITICAL.
Inductive DisconnectType : Type := GENUINE | SUSPICIOUS | LAG_SWITCH | MASS_OUTAGE.

Record HeartbeatSample : Type := mkSample {
  timestamp : float;
  client_timestamp : float;
  round_trip_time : float;
  sequence_number : Z;
  game_state : string
}.

Record LatencyProfile : Type := mkProfile {
  user_id : UUID;
  baseline_rtt : float;
  baseline_std : float;
  current_rtt : float;
  samples : list HeartbeatSample;        (* deque(maxlen=100), oldest first *)
  spike_timestamps : list float;
  connection_quality : ConnectionQuality;
  is_flagged : bool;
  flag_reason : string;
  missed_heartbeats : Z;
  last_heartbeat : float;
  spikes_during_critical : Z;
  total_critical_moments : Z
}.

(** The [details] dictionary, in its two shapes. *)
Inductive Details : Type :=
| Establishing (samples_collected : Z)
| Measured (rtt baseline deviation : float) (spike_count : Z)
           (quality : ConnectionQuality) (critical_spike_ratio : float).

Record JitterAnalysis : Type := mkAnalysis {
  a_user_id : UUID;
  a_timestamp : float;
  current_jitter : float;
  jitter_score : float;
  latency_trend : string;
  is_suspicious : bool;
  disconnect_type : DisconnectType;
  details : Details;
  recommended_action : string
}.

(** [a / b] on floats raises when the divisor is zero. *)
Definition fdiv (a b : float) : res float :=
  if PrimFloat.eqb b 0 then Raise ZeroDivisionError else Ok (PrimFloat.div a b).

(** [a / b] on two [int] counters (both below 2^53). *)
Definition int_div (a b : Z) : float := PrimFloat.div (Py.float_of_Z a) (Py.float_of_Z b).

Definition critical_states : list string :=
  [ "SHOOTING"; "DEFENDING"; "PENALTY"; "MATCH_POINT";
    "FINAL_MOVE"; "WINNING_POSITION"; "LOSING_POSITION" ]%string.

(** [l[-n:]] and [l[-20:-10]]. *)
Definition last_n {A : Type} (n : nat) (l : list A) : list A := skipn (length l - n) l.
Definition older_10 {A : Type} (l : list A) : list A :=
  firstn (length (last_n 20 l) - 10) (last_n 20 l).

Section WithLibrary.

(** [str.upper] and [statistics.mean], from the Python library. *)
Variable upper : string -> string.
Variable mean : list float -> float.

Definition _is_critical_moment (game_state : string) : bool :=
  existsb (String.eqb (upper game_state)) critical_states.

Definition _calculate_jitter_score (profile : LatencyProfile)
    (normalized_deviation : float) : float :=
  let score := 0%float in
  let score := PrimFloat.add score
                 (Py.fmin 30 (PrimFloat.mul (PrimFloat.abs normalized_deviation) 10)) in
  let spike_factor := Z.of_nat (length (spike_timestamps profile)) * 5 in
  let score := PrimFloat.add score (Py.float_of_Z (Z.min 30 spike_factor)) in
  let score :=
    if 0 <? total_critical_moments profile then
      let critical_ratio :=
        int_div (spikes_during_critical profile) (total_critical_moments profile) in
      PrimFloat.add score (PrimFloat.mul critical_ratio 40)
    else score in
  Py.fmin 100 score.

Definition _classify_connection (rtt : float) : ConnectionQuality :=
  if PrimFloat.ltb rtt 50 then EXCELLENT
  else if PrimFloat.ltb rtt 100 then GOOD
  else if PrimFloat.ltb rtt 200 then FAIR
  else if PrimFloat.ltb rtt 500 then POOR
  else CRITICAL.

Definition _calculate_trend (profile : LatencyProfile) : string :=
  if (length (samples profile) <? 5)%nat then "INSUFFICIENT_DATA"%string
  else
    let recent := map round_trip_time (last_n 10 (samples profile)) in
    let older := map round_trip_time (older_10 (samples profile)) in
    match older with
    | [] => "ESTABLISHING"%string
    | _ =>
        let diff := PrimFloat.sub (mean recent) (mean older) in
        let threshold := PrimFloat.mul (baseline_std profile) 0.5 in
        if PrimFloat.ltb (PrimFloat.abs diff) threshold then "STABLE"%string
        else if PrimFloat.ltb 0 diff then "INCREASING"%string
        else "DECREASING"%string
    end.

(** [sample.round_trip_time > 500 or normalized_deviation > 2.5] *)
Definition is_spike (sample : HeartbeatSample) (normalized_deviation : float) : bool :=
  PrimFloat.ltb JitterConfig.LATENCY_SPIKE_THRESHOLD (round_trip_time sample)
  || PrimFloat.ltb JitterConfig.JITTER_THRESHOLD_STD normalized_deviation.

(** [(rtt - baseline_rtt) / (baseline_std + 1)] *)
Definition normalized_deviation_of (profile : LatencyProfile) (sample : HeartbeatSample)
  : res float :=
  fdiv (PrimFloat.sub (round_trip_time sample) (baseline_rtt profile))
       (PrimFloat.add (baseline_std profile) 1).

(** The spike list and the critical-moment counters after a sample. *)
Definition record_sample (profile : LatencyProfile) (sample : HeartbeatSample)
    (spike : bool) : LatencyProfile :=
  let current_time := timestamp sample in
  let critical := _is_critical_moment (game_state sample) in
  let spikes :=
    if spike then
      let cutoff := PrimFloat.sub current_time JitterConfig.SPIKE_WINDOW in
      List.filter (fun ts => PrimFloat.ltb cutoff ts)
                  (spike_timestamps profile ++ [current_time])
    else spike_timestamps profile in
  mkProfile (user_id profile) (baseline_rtt profile) (baseline_std profile)
    (current_rtt profile) (samples profile) spikes
    (connection_quality profile) (is_flagged profile) (flag_reason profile)
    (missed_heartbeats profile) (last_heartbeat profile)
    (if spike && critical then spikes_during_critical profile + 1
     else spikes_during_critical profile)
    (if critical then total_critical_moments profile + 1
     else total_critical_moments profile).

(** The "+30" of the suspicious timing pattern. *)
Definition timing_pattern (profile : LatencyProfile) : bool :=
  (5 <=? total_critical_moments profile)
  && PrimFloat.ltb 0x1.3333333333333p-1      (* the float 0.6 *)
       (int_div (spikes_during_critical profile) (total_critical_moments profile)).

Definition _analyze_jitter (profile : LatencyProfile) (sample : HeartbeatSample)
  : res (JitterAnalysis * LatencyProfile) :=
  let current_time := timestamp sample in
  if PrimFloat.eqb (baseline_rtt profile) 0 then
    Ok (mkAnalysis (user_id profile) current_time 0 0 "ESTABLISHING_BASELINE" false
          GENUINE (Establishing (Z.of_nat (length (samples profile)))) "",
        profile)
  else
    let deviation := PrimFloat.sub (round_trip_time sample) (baseline_rtt profile) in
    normalized_deviation <- normalized_deviation_of profile sample ;;
    let p1 := record_sample profile sample (is_spike sample normalized_deviation) in
    let score := _calculate_jitter_score p1 normalized_deviation in
    let quality := _classify_connection (round_trip_time sample) in
    let p2 :=
      mkProfile (user_id p1) (baseline_rtt p1) (baseline_std p1) (current_rtt p1)
        (samples p1) (spike_timestamps p1) quality (is_flagged p1) (flag_reason p1)
        (missed_heartbeats p1) (last_heartbeat p1)
        (spikes_during_critical p1) (total_critical_moments p1) in
    let trend := _calculate_trend p2 in
    let many :=
      JitterConfig.MAX_SPIKES_BEFORE_FLAG <=? Z.of_nat (length (spike_timestamps p2)) in
    let pattern := timing_pattern p2 in
    let suspicious := many || pattern in
    let reason :=
      if pattern then "Suspicious spike timing pattern"%string
      else if many then "Multiple latency spikes detected"%string
      else ""%string in
    let score := if pattern then Py.fmin 100 (PrimFloat.add score 30) else score in
    let p3 :=
      if suspicious && negb (is_flagged p2) then
        mkProfile (user_id p2) (baseline_rtt p2) (baseline_std p2) (current_rtt p2)
          (samples p2) (spike_timestamps p2) (connection_quality p2) true reason
          (missed_heartbeats p2) (last_heartbeat p2)
          (spikes_during_critical p2) (total_critical_moments p2)
      else p2 in
    Ok (mkAnalysis (user_id profile) current_time normalized_deviation score trend
          suspicious GENUINE
          (Measured (round_trip_time sample) (baseline_rtt profile) deviation
             (Z.of_nat (length (spike_timestamps p3))) (connection_quality p3)
             (int_div (spikes_during_critical p3)
                      (Z.max 1 (total_critical_moments p3))))
          (if suspicious then "MONITOR" else ""),
        p3).

(** The score as the specification words it:
    [clamp(0, |nd|*10 + spikes*5 + (crit_spikes / max(1, crit_total))*40, 100)]. *)
Definition spec_jitter_score (profile : LatencyProfile) (normalized_deviation : float)
  : float :=
  let raw :=
    PrimFloat.add
      (PrimFloat.add (PrimFloat.mul (PrimFloat.abs normalized_deviation) 10)
                     (Py.float_of_Z (Z.of_nat (length (spike_timestamps profile)) * 5)))
      (PrimFloat.mul (int_div (spikes_during_critical profile)
                              (Z.max 1 (total_critical_moments profile))) 40) in
  let capped := if PrimFloat.ltb 100 raw then 100%float else raw in
  if PrimFloat.ltb capped 0 then 0%float else capped.

End WithLibrary.

(** [str.upper] on ASCII text. *)
Definition ascii_upper_char (c : ascii) : ascii :=
  let n := N_of_ascii c in
  if ((97 <=? n) && (n <=? 122))%N then ascii_of_N (n - 32) else c.

Fixpoint ascii_upper (s : string) : string :=
  match s with
  | EmptyString => EmptyString
  | String c r => String (ascii_upper_char c) (ascii_upper r)
  end.

(** *** The detector: registration, heartbeats, missed heartbeats *)

Record JitterDetector : Type := mkDetector {
  profiles : gmap string LatencyProfile;
  active_players : gmap string float;          (* user_id -> last seen *)
  recent_disconnects : list (string * float)
}.

Definition JitterDetector_init : JitterDetector := mkDetector ∅ ∅ [].

(** [LatencyProfile(user_id=user_id)] *)
Definition new_profile (uid : UUID) : LatencyProfile :=
  mkProfile uid 0 0 0 [] [] GOOD false "" 0 0 0 0.

Definition register_player (now : float) (self : JitterDetector) (uid : UUID)
  : LatencyProfile * JitterDetector :=
  let ps := match profiles self !! uid with
            | Some _ => profiles self
            | None => <[uid := new_profile uid]> (profiles self)
            end in
  (default (new_profile uid) (ps !! uid),
   mkDetector ps (<[uid := now]> (active_players self)) (recent_disconnects self)).

Definition unregister_player (self : JitterDetector) (uid : UUID) : JitterDetector :=
  mkDetector (delete uid (profiles self)) (delete uid (active_players self))
             (recent_disconnects self).

(** [deque(maxlen=100).append]: the oldest sample leaves when the buffer is full. *)
Definition push_sample (l : list HeartbeatSample) (s : HeartbeatSample)
  : list HeartbeatSample :=
  skipn (length (l ++ [s]) - 100) (l ++ [s]).

(** The result of [check_missed_heartbeat]: a [JitterAnalysis] whose details
    have the disconnect shape. *)
Record DisconnectAnalysis : Type := mkDisconnectAnalysis {
  d_user_id : UUID;
  d_timestamp : float;
  d_current_jitter : float;
  d_jitter_score : float;
  d_latency_trend : string;
  d_is_suspicious : bool;
  d_disconnect_type : DisconnectType;
  d_missed_heartbeats : Z;
  d_last_seen : float;
  d_time_since_last : float;
  d_recommended_action : string
}.

Definition _get_disconnect_action (t : DisconnectType) : string :=
  match t with
  | GENUINE => "APPLY_GRACE_PERIOD"
  | SUSPICIOUS => "MONITOR_ON_RECONNECT"
  | LAG_SWITCH => "FLAG_FOR_REVIEW"
  | MASS_OUTAGE => "PAUSE_MATCH_OR_ROLLBACK"
  end.

Definition MASS_DISCONNECT_THRESHOLD : float := 0x1.999999999999ap-3.   (* 0.20 *)

Definition _classify_disconnect (now : float) (self : JitterDetector) (uid : UUID)
  : DisconnectType * JitterDetector :=
  let recent :=
    List.filter (fun e => PrimFloat.ltb (PrimFloat.sub now 30) (snd e))
                (recent_disconnects self ++ [(uid, now)]) in
  let self' := mkDetector (profiles self) (active_players self) recent in
  let total_active := Z.of_nat (size (active_players self)) in
  if (0 <? total_active)
     && PrimFloat.leb MASS_DISCONNECT_THRESHOLD
          (int_div (Z.of_nat (length recent)) total_active)
  then (MASS_OUTAGE, self')
  else
    match profiles self !! uid with
    | Some profile =>
        if is_flagged profile then (LAG_SWITCH, self')
        else if (2 <=? length (spike_timestamps profile))%nat then (SUSPICIOUS, self')
        else (GENUINE, self')
    | None => (GENUINE, self')
    end.

Definition with_missed (p : LatencyProfile) (n : Z) : LatencyProfile :=
  mkProfile (user_id p) (baseline_rtt p) (baseline_std p) (current_rtt p) (samples p)
    (spike_timestamps p) (connection_quality p) (is_flagged p) (flag_reason p)
    n (last_heartbeat p) (spikes_during_critical p) (total_critical_moments p).

(** [now] is the reading taken by the check, [t_classify] the one taken by
    [_classify_disconnect]. *)
Definition check_missed_heartbeat (now t_classify : float) (self : JitterDetector)
    (uid : UUID) : option DisconnectAnalysis * JitterDetector :=
  match profiles self !! uid with
  | None => (None, self)
  | Some profile =>
      let time_since_last := PrimFloat.sub now (last_heartbeat profile) in
      let expected_interval := PrimFloat.add 3 1 in
      if PrimFloat.ltb expected_interval time_since_last then
        let missed := missed_heartbeats profile + 1 in
        let self1 := mkDetector (<[uid := with_missed profile missed]> (profiles self))
                                (active_players self) (recent_disconnects self) in
        if 3 <=? missed then
          let '(t, self2) := _classify_disconnect t_classify self1 uid in
          (Some (mkDisconnectAnalysis uid now PrimFloat.infinity 100 "DISCONNECTED"
                   (match t with GENUINE | MASS_OUTAGE => false | _ => true end)
                   t missed (last_heartbeat profile) time_since_last
                   (_get_disconnect_action t)),
           self2)
        else (None, self1)
      else (None, self)
  end.

Section Heartbeats.

(** [str.upper], [statistics.mean], [statistics.stdev] and [sorted], from the
    Python library. *)
Variable upper : string -> string.
Variable mean : list float -> float.
Variable stdev : list float -> float.
Variable sorted : list float -> list float.

Definition _update_baseline (profile : LatencyProfile) : LatencyProfile :=
  let recent_rtts := map round_trip_time (last_n 20 (samples profile)) in
  if JitterConfig.BASELINE_SAMPLES <=? Z.of_nat (length recent_rtts) then
    let sorted_rtts := sorted recent_rtts in
    let trimmed :=
      if (4 <? length sorted_rtts)%nat
      then firstn (length sorted_rtts - 4) (skipn 2 sorted_rtts)
      else sorted_rtts in
    mkProfile (user_id profile) (mean trimmed)
      (if (1 <? length trimmed)%nat then stdev trimmed else 0)
      (current_rtt profile) (samples profile) (spike_timestamps profile)
      (connection_quality profile) (is_flagged profile) (flag_reason profile)
      (missed_heartbeats profile) (last_heartbeat profile)
      (spikes_during_critical profile) (total_critical_moments profile)
  else profile.

(** [server_time] is the reading taken on entry, [t_register] the one taken by
    [register_player] when the player is not yet known.  When the analysis
    raises, the exception reaches the caller. *)
Definition process_heartbeat (server_time t_register : float) (self : JitterDetector)
    (uid : UUID) (client_timestamp : float) (seq : Z) (tag : string)
  : res (JitterAnalysis * JitterDetector) :=
  let '(profile, self1) :=
    match profiles self !! uid with
    | Some p => (p, self)
    | None => register_player t_register self uid
    end in
  let rtt := PrimFloat.mul (PrimFloat.sub server_time client_timestamp) 1000 in
  let sample := mkSample server_time client_timestamp rtt seq tag in
  let p1 :=
    mkProfile (user_id profile) (baseline_rtt profile) (baseline_std profile) rtt
      (push_sample (samples profile) sample) (spike_timestamps profile)
      (connection_quality profile) (is_flagged profile) (flag_reason profile)
      0 server_time (spikes_during_critical profile) (total_critical_moments profile) in
  let p2 :=
    if JitterConfig.BASELINE_SAMPLES <=? Z.of_nat (length (samples p1))
    then _update_baseline p1 else p1 in
  r <- _analyze_jitter upper mean p2 sample ;;
  Ok (fst r,
      mkDetector (<[uid := snd r]> (profiles self1))
                 (<[uid := server_time]> (active_players self1))
                 (recent_disconnects self1)).


End Heartbeats.

End Jitter.

(* ===================================================================== *)
(** ** app/security.py: the pre-match shield                              *)
(* ===================================================================== *)

Module Security.

Module SecurityConfig.
Definition MIN_TRUST_SCORE_FOR_MATCH : Z := 30.
Definition MIN_TRUST_SCORE_FOR_HIGH_STAKES : Z := 70.
Definition MAX_MATCH_REQUESTS_PER_MINUTE : Z := 10.
Definition MAX_FAILED_MATCHES_PER_HOUR : Z := 5.
Definition HIGH_STAKE_THRESHOLD : Dec.t := Dec.Dc 1000 (-1).          (* "100.0" *)
Definition SUSPICIOUS_WIN_RATE : float := 0x1.b333333333333p-1.       (* 0.85 *)
Definition MIN_MATCHES_FOR_WIN_RATE : Z := 20.
End SecurityConfig.

Inductive ShieldVerdict : Type :=
| APPROVED | DENIED_LOW_TRUST | DENIED_COLLUSION | DENIED_RATE_LIMIT
| DENIED_QUARANTINE | DENIED_FROZEN | DENIED_KYC | REVIEW_REQUIRED.

(** A [datetime] is its number of microseconds since the epoch. *)
Abbreviation datetime := Z.

Record PlayerSecurityProfile : Type := mkSecurityProfile {
  user_id : UUID;
  trust_score : Z;
  trust_level : string;
  kyc_status : string;
  is_frozen : bool;
  device_fingerprint : option string;
  current_ip : string;
  lkoins_balance : Dec.t;
  recent_matches : Z;
  recent_wins : Z;
  recent_disconnects : Z;
  last_match_timestamp : option float;
  in_quarantine : bool;
  quarantine_until : option datetime
}.

Record ShieldCheckResult : Type := mkShieldResult {
  verdict : ShieldVerdict;
  player_id : UUID;
  can_proceed : bool;
  reason : string;
  risk_score : Z;
  flags : list string;
  recommended_action : option string;
  retry_after : option Z
}.

Record SecurityMemoryStore : Type := mkStore {
  ip_to_users : gmap string (gset string);
  device_to_users : gmap string (gset string);
  match_requests : gmap string (list float);
  failed_matches : gmap string (list float);
  user_ips : gmap string (list (string * float));
  quarantine : gmap string datetime
}.

(** The clock readings one call of [verify_player] can take, in order. *)
Record Clock : Type := mkClock {
  utc_check : datetime;       (* [is_in_quarantine] *)
  utc_retry : datetime;       (* [retry_after] *)
  t_request : float;          (* [record_match_request] *)
  t_count : float;            (* [get_match_request_count] *)
  t_failed : float;           (* [get_failed_match_count] *)
  t_ip : float;               (* [record_ip_usage], the appended stamp *)
  t_ip_cutoff : float         (* [record_ip_usage], the eviction cutoff *)
}.

Definition newer_than (cutoff : float) (ts : float) : bool := PrimFloat.ltb cutoff ts.

Definition record_match_request (now : float) (self : SecurityMemoryStore) (uid : UUID)
  : SecurityMemoryStore :=
  let stamps := default [] (match_requests self !! uid) ++ [now] in
  let kept := List.filter (newer_than (PrimFloat.sub now 60)) stamps in
  mkStore (ip_to_users self) (device_to_users self) (<[uid := kept]> (match_requests self))
          (failed_matches self) (user_ips self) (quarantine self).

Definition get_match_request_count (now : float) (self : SecurityMemoryStore) (uid : UUID)
  : Z :=
  Z.of_nat (length (List.filter (newer_than (PrimFloat.sub now 60))
                                (default [] (match_requests self !! uid)))).

Definition get_failed_match_count (now : float) (self : SecurityMemoryStore) (uid : UUID)
  : Z :=
  Z.of_nat (length (List.filter (newer_than (PrimFloat.sub now 3600))
                                (default [] (failed_matches self !! uid)))).

Definition record_ip_usage (now cutoff_now : float) (self : SecurityMemoryStore)
    (uid : UUID) (ip : string) : SecurityMemoryStore :=
  let users := default ∅ (ip_to_users self !! ip) ∪ {[uid]} in
  let seen := default [] (user_ips self !! uid) ++ [(ip, now)] in
  let kept := List.filter (fun e => newer_than (PrimFloat.sub cutoff_now 86400) (snd e)) seen in
  mkStore (<[ip := users]> (ip_to_users self)) (device_to_users self)
          (match_requests self) (failed_matches self)
          (<[uid := kept]> (user_ips self)) (quarantine self).

Definition record_device_usage (self : SecurityMemoryStore) (uid : UUID) (fp : string)
  : SecurityMemoryStore :=
  if String.eqb fp "" then self
  else mkStore (ip_to_users self)
         (<[fp := default ∅ (device_to_users self !! fp) ∪ {[uid]}]> (device_to_users self))
         (match_requests self) (failed_matches self) (user_ips self) (quarantine self).

(** An expired quarantine is removed as a side effect of the check. *)
Definition is_in_quarantine (now : datetime) (self : SecurityMemoryStore) (uid : UUID)
  : option datetime * SecurityMemoryStore :=
  match quarantine self !! uid with
  | None => (None, self)
  | Some until =>
      if until <? now
      then (None, mkStore (ip_to_users self) (device_to_users self) (match_requests self)
                    (failed_matches self) (user_ips self) (delete uid (quarantine self)))
      else (Some until, self)
  end.

Section WithDatetime.

(** [int(delta.total_seconds())] for a [timedelta] given in microseconds. *)
Variable whole_seconds : Z -> Z.

Definition verify_player (clk : Clock) (store : SecurityMemoryStore)
    (profile : PlayerSecurityProfile) (bet_amount : Dec.t)
  : ShieldCheckResult * SecurityMemoryStore :=
  let uid := user_id profile in
  (* 1. frozen account *)
  if is_frozen profile then
    (mkShieldResult DENIED_FROZEN uid false "Cuenta congelada por seguridad" 100
                    ["ACCOUNT_FROZEN"%string] None None, store)
  else
  (* 2. quarantine *)
  let '(until, store) := is_in_quarantine (utc_check clk) store uid in
  match until with
  | Some until =>
      (mkShieldResult DENIED_QUARANTINE uid false "Cuenta en cuarentena temporal" 0
                      ["IN_QUARANTINE"%string] None
                      (Some (whole_seconds (until - utc_retry clk))), store)
  | None =>
  (* 3. trust score *)
  if trust_score profile <? SecurityConfig.MIN_TRUST_SCORE_FOR_MATCH then
    (mkShieldResult DENIED_LOW_TRUST uid false
       ("Trust Score muy bajo: " ++ Py.str_of_int (trust_score profile))%string
       40 ["LOW_TRUST_SCORE"%string]
       (Some "Mejorar comportamiento para recuperar confianza"%string) None, store)
  else
  (* 4. trust level *)
  let '(risk, flags) :=
    if String.eqb (trust_level profile) "RED" then (30, ["RED_FLAG_ACCOUNT"%string])
    else if String.eqb (trust_level profile) "YELLOW" then (15, ["YELLOW_FLAG_ACCOUNT"%string])
    else (0, []) in
  (* 5. KYC for high stakes *)
  let high := Dec.leb SecurityConfig.HIGH_STAKE_THRESHOLD bet_amount in
  if high && negb (String.eqb (kyc_status profile) "VERIFIED") then
    (mkShieldResult DENIED_KYC uid false "KYC requerido para apuestas altas" 50
       ["HIGH_STAKE_NO_KYC"%string]
       (Some "Completar verificación de identidad"%string) None, store)
  else
  let '(risk, flags) :=
    if high && (trust_score profile <? SecurityConfig.MIN_TRUST_SCORE_FOR_HIGH_STAKES)
    then (risk + 20, flags ++ ["LOW_TRUST_HIGH_STAKE"%string]) else (risk, flags) in
  (* 6. rate limiting *)
  let store := record_match_request (t_request clk) store uid in
  let request_count := get_match_request_count (t_count clk) store uid in
  if SecurityConfig.MAX_MATCH_REQUESTS_PER_MINUTE <? request_count then
    (mkShieldResult DENIED_RATE_LIMIT uid false "Demasiadas solicitudes de partida" 0
       ["RATE_LIMITED"%string] None (Some 60), store)
  else
  (* 7. failed matches *)
  let failed_count := get_failed_match_count (t_failed clk) store uid in
  let '(risk, flags) :=
    if SecurityConfig.MAX_FAILED_MATCHES_PER_HOUR <=? failed_count
    then (risk + 25, flags ++ ["MANY_FAILED_MATCHES"%string]) else (risk, flags) in
  (* 8. IP and device *)
  let store := record_ip_usage (t_ip clk) (t_ip_cutoff clk) store uid (current_ip profile) in
  let store :=
    match device_fingerprint profile with
    | Some fp => record_device_usage store uid fp
    | None => store
    end in
  (* 9. win rate *)
  let '(risk, flags) :=
    if (SecurityConfig.MIN_MATCHES_FOR_WIN_RATE <=? recent_matches profile)
       && PrimFloat.leb SecurityConfig.SUSPICIOUS_WIN_RATE
            (Jitter.int_div (recent_wins profile) (recent_matches profile))
    then (risk + 20, flags ++ ["SUSPICIOUS_WIN_RATE"%string]) else (risk, flags) in
  (* 10. recent disconnects *)
  let '(risk, flags) :=
    if 3 <=? recent_disconnects profile
    then (risk + 15, flags ++ ["FREQUENT_DISCONNECTS"%string]) else (risk, flags) in
  if 70 <=? risk then
    (mkShieldResult REVIEW_REQUIRED uid false "Perfil requiere revisión manual" risk flags
       (Some "Esperar aprobación de administrador"%string) None, store)
  else
    (mkShieldResult APPROVED uid true "Verificación exitosa" risk flags None None, store)
  end.

End WithDatetime.

Definition verdict_eqb (a b : ShieldVerdict) : bool :=
  match a, b with
  | APPROVED, APPROVED | DENIED_LOW_TRUST, DENIED_LOW_TRUST
  | DENIED_COLLUSION, DENIED_COLLUSION | DENIED_RATE_LIMIT, DENIED_RATE_LIMIT
  | DENIED_QUARANTINE, DENIED_QUARANTINE | DENIED_FROZEN, DENIED_FROZEN
  | DENIED_KYC, DENIED_KYC | REVIEW_REQUIRED, REVIEW_REQUIRED => true
  | _, _ => false
  end.

(** *** The rest of the store and of the shield *)

(** [datetime.utcnow() + timedelta(hours=hours)], in microseconds. *)
Definition set_quarantine (now : datetime) (self : SecurityMemoryStore) (uid : UUID)
    (hours : Z) : SecurityMemoryStore :=
  mkStore (ip_to_users self) (device_to_users self) (match_requests self)
          (failed_matches self) (user_ips self)
          (<[uid := now + hours * 3600000000]> (quarantine self)).

Definition QUARANTINE_DURATION_HOURS : Z := 2.

Definition trigger_quarantine (now : datetime) (self : SecurityMemoryStore) (uid : UUID)
  : SecurityMemoryStore :=
  set_quarantine now self uid QUARANTINE_DURATION_HOURS.

Definition record_failed_match (now : float) (self : SecurityMemoryStore) (uid : UUID)
  : SecurityMemoryStore :=
  let stamps := default [] (failed_matches self !! uid) ++ [now] in
  let kept := List.filter (newer_than (PrimFloat.sub now 3600)) stamps in
  mkStore (ip_to_users self) (device_to_users self) (match_requests self)
          (<[uid := kept]> (failed_matches self)) (user_ips self) (quarantine self).

Definition get_users_by_ip (self : SecurityMemoryStore) (ip : string) : gset string :=
  default ∅ (ip_to_users self !! ip).

Definition get_users_by_device (self : SecurityMemoryStore) (fp : string) : gset string :=
  default ∅ (device_to_users self !! fp).

(** The [encounter_history] of the store, kept beside the record: the number
    of matches of each pair of players, under the sorted pair.  Identifiers in
    canonical form are ordered as their strings. *)
Abbreviation EncounterHistory := (gmap (string * string) Z).

(** [tuple(sorted([player1_id, player2_id]))] *)
Definition encounter_key (a b : UUID) : string * string :=
  if String.ltb b a then (b, a) else (a, b).

Definition record_encounter (h : EncounterHistory) (a b : UUID) : EncounterHistory :=
  <[encounter_key a b := default 0 (h !! encounter_key a b) + 1]> h.

Definition get_encounter_count (h : EncounterHistory) (a b : UUID) : Z :=
  default 0 (h !! encounter_key a b).

Record CollusionCheck : Type := mkCollusionCheck {
  player1_id : UUID;
  player2_id : UUID;
  is_suspicious : bool;
  collusion_indicators : list string;
  risk_level : string
}.

(** [fp] is a fingerprint that is present and not empty. *)
Definition has_device (fp : option string) : bool :=
  match fp with
  | Some s => negb (String.eqb s "")
  | None => false
  end.

Definition same_device (p1 p2 : PlayerSecurityProfile) : bool :=
  has_device (device_fingerprint p1) && has_device (device_fingerprint p2)
  && String.eqb (default "" (device_fingerprint p1)) (default "" (device_fingerprint p2)).

Definition ip_history_overlap (store : SecurityMemoryStore)
    (p1 p2 : PlayerSecurityProfile) : bool :=
  bool_decide (user_id p2 ∈ get_users_by_ip store (current_ip p1))
  || bool_decide (user_id p1 ∈ get_users_by_ip store (current_ip p2)).

Definition device_history_overlap (store : SecurityMemoryStore)
    (p1 p2 : PlayerSecurityProfile) : bool :=
  has_device (device_fingerprint p1)
  && bool_decide (user_id p2
                  ∈ get_users_by_device store (default "" (device_fingerprint p1))).

Definition check_collusion (store : SecurityMemoryStore) (h : EncounterHistory)
    (player1 player2 : PlayerSecurityProfile) : CollusionCheck :=
  (* 1. shared IP *)
  let '(indicators, level) :=
    if String.eqb (current_ip player1) (current_ip player2)
    then (["SAME_IP"%string], "MEDIUM"%string) else ([], "LOW"%string) in
  (* 2. shared device *)
  let '(indicators, level) :=
    if same_device player1 player2
    then (indicators ++ ["SAME_DEVICE"%string], "HIGH"%string) else (indicators, level) in
  (* 3. IP history *)
  let '(indicators, level) :=
    if ip_history_overlap store player1 player2
    then (indicators ++ ["IP_HISTORY_OVERLAP"%string],
          if String.eqb level "HIGH" then level else "MEDIUM"%string)
    else (indicators, level) in
  (* 4. device history *)
  let '(indicators, level) :=
    if device_history_overlap store player1 player2
    then (indicators ++ ["DEVICE_HISTORY_OVERLAP"%string], "HIGH"%string)
    else (indicators, level) in
  (* 5. frequent encounters *)
  let '(indicators, level) :=
    if 10 <? get_encounter_count h (user_id player1) (user_id player2)
    then (indicators ++ ["FREQUENT_ENCOUNTERS"%string],
          if String.eqb level "LOW" then "MEDIUM"%string else level)
    else (indicators, level) in
  let suspicious :=
    (2 <=? length indicators)%nat || String.eqb level "HIGH" || String.eqb level "CRITICAL" in
  let level :=
    if suspicious && String.eqb level "HIGH" && (3 <=? length indicators)%nat
    then "CRITICAL"%string else level in
  mkCollusionCheck (user_id player1) (user_id player2) suspicious indicators level.

(** What [_handle_match_found] does with the check: the match is cancelled. *)
Definition refuses_match (c : CollusionCheck) : bool :=
  is_suspicious c && (String.eqb (risk_level c) "HIGH" || String.eqb (risk_level c) "CRITICAL").

Section MatchEntry.

Variable whole_seconds : Z -> Z.

(** The loop of [verify_match_entry]: [clk_of i] holds the clock readings of
    the check of the [i]-th player. *)
Fixpoint verify_each (clk_of : nat -> Clock) (i : nat) (store : SecurityMemoryStore)
    (players : list PlayerSecurityProfile) (bet_amount : Dec.t)
  : list ShieldCheckResult * SecurityMemoryStore :=
  match players with
  | [] => ([], store)
  | p :: rest =>
      let '(result, store1) := verify_player whole_seconds (clk_of i) store p bet_amount in
      let '(results, store2) := verify_each clk_of (S i) store1 rest bet_amount in
      (result :: results, store2)
  end.

(** [result.flags.append(f"COLLUSION_RISK_{level}")] and
    [result.risk_score += 30 if level == "HIGH" else 15] *)
Definition add_collusion_risk (c : CollusionCheck) (r : ShieldCheckResult)
  : ShieldCheckResult :=
  mkShieldResult (verdict r) (player_id r) (can_proceed r) (reason r)
    (risk_score r + (if String.eqb (risk_level c) "HIGH" then 30 else 15))
    (flags r ++ [("COLLUSION_RISK_" ++ risk_level c)%string])
    (recommended_action r) (retry_after r).

Definition verify_match_entry (clk_of : nat -> Clock) (store : SecurityMemoryStore)
    (h : EncounterHistory) (players : list PlayerSecurityProfile) (bet_amount : Dec.t)
  : (bool * list ShieldCheckResult * option CollusionCheck)
    * SecurityMemoryStore * EncounterHistory :=
  let '(results, store1) := verify_each clk_of 0 store players bet_amount in
  if negb (forallb can_proceed results) then ((false, results, None), store1, h)
  else
    match players with
    | [p0; p1] =>
        let check := check_collusion store1 h p0 p1 in
        let results' :=
          if is_suspicious check then map (add_collusion_risk check) results else results in
        if is_suspicious check
           && (String.eqb (risk_level check) "HIGH" || String.eqb (risk_level check) "CRITICAL")
        then ((false, results', Some check), store1, h)
        else ((true, results', Some check), store1,
              record_encounter h (user_id p0) (user_id p1))
    | _ => ((true, results, None), store1, h)
    end.

End MatchEntry.

End Security.

(* ===================================================================== *)
(** ** app/websocket_handler.py: rooms, the state machine, game over      *)
(* ===================================================================== *)

Module WebsocketHandler.

Inductive MatchState : Type :=
| MATCHMAKING | LOCKED | IN_PROGRESS | VALIDATION
| SETTLEMENT | COMPLETED | DISPUTED | CANCELLED.

Record PlayerConnection : Type := mkConnection {
  user_id : UUID;
  sid : string;
  connected_at : float;
  last_heartbeat : float;
  is_ready : bool;
  is_connected : bool;
  ip_address : string;
  device_fingerprint : string;
  escrow_confirmed : bool;
  balance_at_lock : Dec.t
}.

Record MoveEntry : Type := mkMoveEntry {
  sequence : Z;
  player_id : string;
  move_timestamp : float;
  data : string
}.

Record MatchRoom : Type := mkRoom {
  match_id : UUID;
  game_type : string;
  bet_amount : Dec.t;
  state : MatchState;
  players : list (UUID * PlayerConnection);   (* dict, in insertion order *)
  max_players : Z;
  created_at : float;
  locked_at : option float;
  started_at : option float;
  session_id : string;
  initial_state_hash : string;
  moves_log : list MoveEntry;
  move_sequence : Z;
  server_seed : string;
  client_seeds : gmap string string;
  is_bot_match : bool;
  ledger_entry_id : option string
}.

Record MatchManager : Type := mkManager {
  active_matches : gmap string MatchRoom;
  player_to_match : gmap string UUID;
  sid_to_user : gmap string UUID;
  _locks : gset string
}.

Definition MatchState_eqb (a b : MatchState) : bool :=
  match a, b with
  | MATCHMAKING, MATCHMAKING | LOCKED, LOCKED | IN_PROGRESS, IN_PROGRESS
  | VALIDATION, VALIDATION | SETTLEMENT, SETTLEMENT | COMPLETED, COMPLETED
  | DISPUTED, DISPUTED | CANCELLED, CANCELLED => true
  | _, _ => false
  end.

(** The table inside [transition_state]. *)
Definition valid_transitions (s : MatchState) : list MatchState :=
  match s with
  | MATCHMAKING => [LOCKED; CANCELLED]
  | LOCKED => [IN_PROGRESS; CANCELLED]
  | IN_PROGRESS => [VALIDATION; DISPUTED]
  | VALIDATION => [SETTLEMENT; DISPUTED]
  | SETTLEMENT => [COMPLETED; DISPUTED]
  | DISPUTED => [COMPLETED; CANCELLED]
  | COMPLETED => []
  | CANCELLED => []
  end.

Definition enter_state (now : float) (room : MatchRoom) (new_state : MatchState)
  : MatchRoom :=
  mkRoom (match_id room) (game_type room) (bet_amount room) new_state (players room)
    (max_players room) (created_at room)
    (match new_state with LOCKED => Some now | _ => locked_at room end)
    (match new_state with IN_PROGRESS => Some now | _ => started_at room end)
    (session_id room) (initial_state_hash room) (moves_log room) (move_sequence room)
    (server_seed room) (client_seeds room) (is_bot_match room) (ledger_entry_id room).

Definition with_matches (self : MatchManager) (m : gmap string MatchRoom) : MatchManager :=
  mkManager m (player_to_match self) (sid_to_user self) (_locks self).

Definition transition_state (now : float) (self : MatchManager) (mid : UUID)
    (new_state : MatchState) : bool * MatchManager :=
  match active_matches self !! mid with
  | None => (false, self)
  | Some room =>
      if negb (existsb (MatchState_eqb new_state) (valid_transitions (state room)))
      then (false, self)
      else (true, with_matches self (<[mid := enter_state now room new_state]>
                                       (active_matches self)))
  end.

Definition cleanup_match (self : MatchManager) (mid : UUID) : MatchManager :=
  match active_matches self !! mid with
  | None => self
  | Some room =>
      mkManager (delete mid (active_matches self))
        (fold_left (fun m p => delete (fst p) m) (players room) (player_to_match self))
        (fold_left (fun m p => delete (sid (snd p)) m) (players room) (sid_to_user self))
        (_locks self)
  end.

(** The process-wide objects the handler works on, and the names of the events
    it emits to the room. *)
Record World : Type := mkWorld {
  match_manager : MatchManager;
  treasury_ledger : GameEngine.TreasuryLedger;
  ludo_games : gset string;
  emitted : list string
}.

(** [_settle_escrow] as the source has it: the database transaction is still
    to be written, and the function reports success. *)
Definition _settle_escrow (mid winner_id loser_id : UUID) (prize fee : Dec.t) : bool := true.

Definition set_ledger_entry_id (room : MatchRoom) (eid : string) : MatchRoom :=
  mkRoom (match_id room) (game_type room) (bet_amount room) (state room) (players room)
    (max_players room) (created_at room) (locked_at room) (started_at room)
    (session_id room) (initial_state_hash room) (moves_log room) (move_sequence room)
    (server_seed room) (client_seeds room) (is_bot_match room) (Some eid).

Fixpoint conn_of (uid : UUID) (ps : list (UUID * PlayerConnection)) : res PlayerConnection :=
  match ps with
  | [] => Raise KeyError
  | (k, c) :: r => if String.eqb k uid then Ok c else conn_of uid r
  end.

Record HandlerClock : Type := mkHandlerClock {
  t_settlement : float;      (* [transition_state(.., SETTLEMENT)] *)
  t_entry_int : Z;           (* [int(time.time())] in the entry id *)
  t_entry : float;           (* the entry's timestamp *)
  t_completed : float        (* [transition_state(.., COMPLETED)] *)
}.

Section GameOver.

(** The escrow settlement step; the source passes [_settle_escrow]. *)
Variable settle_escrow : UUID -> UUID -> UUID -> Dec.t -> Dec.t -> bool.

(** [UUID(hex)], from the Python library: the id the string denotes, or
    [ValueError] when it denotes none. *)
Variable UUID_of_hex : string -> res UUID.

(** [UUID(result['winner']) if result.get('winner') else None]: an absent or
    empty winner is no winner, any other is parsed. *)
Definition winner_of (winner : option string) : res (option UUID) :=
  match winner with
  | None => Ok None
  | Some s =>
      if String.eqb s "" then Ok None
      else winner_id <- UUID_of_hex s ;; Ok (Some winner_id)
  end.

(** The [try] block: the ledger entry is created, the escrow settled, and the
    entry committed, or rolled back and [Exception("Settlement failed")]
    raised.  The room and the ledger keep what was done before the raise. *)
Definition try_settlement (clk : HandlerClock) (w : World) (mid winner_id loser_id : UUID)
    (room : MatchRoom) (rake_result : GameEngine.FeeResult)
    (winner_balance loser_balance : Dec.t) : option exn * World :=
  match GameEngine.create_match_settlement (t_entry_int clk) (t_entry clk)
          (treasury_ledger w) mid winner_id loser_id (bet_amount room)
          winner_balance loser_balance with
  | Raise e => (Some e, w)
  | Ok (ledger_entry, ledger) =>
      let eid := GameEngine.entry_id ledger_entry in
      let mgr :=
        with_matches (match_manager w)
          (alter (fun r => set_ledger_entry_id r eid) mid
                 (active_matches (match_manager w))) in
      if settle_escrow mid winner_id loser_id (GameEngine.winner_prize rake_result)
                       (GameEngine.fee_per_player rake_result)
      then (None, mkWorld mgr (snd (GameEngine.commit_entry ledger eid))
                          (ludo_games w) (emitted w))
      else (Some SettlementFailed,
            mkWorld mgr (snd (GameEngine.rollback_entry ledger eid))
                    (ludo_games w) (emitted w))
  end.

(** [_handle_ludo_game_over(match_id, room, result)], where [room] is the
    object [match_manager.get_match(match_id)] returned to the caller and
    [winner] is [result.get('winner')]; the caller returns before the call when
    there is no such room.  The winner is parsed first: when [UUID] raises, the
    handler is left before any transition.  The result carries the room object
    as the handler leaves it (it is no longer in [active_matches] by then).  The
    [print] calls, which only format the fee table again, are left out. *)
Definition _handle_ludo_game_over (clk : HandlerClock) (w : World) (mid : UUID)
    (winner : option string) : res (MatchRoom * World) :=
  match active_matches (match_manager w) !! mid with
  | None => Raise KeyError
  | Some room0 =>
      winner_id <- winner_of winner ;;
      let upd m := mkWorld m (treasury_ledger w) (ludo_games w) (emitted w) in
      let w := upd (snd (transition_state (t_settlement clk) (match_manager w) mid SETTLEMENT)) in
      rake_result <- GameEngine.calculate_fee (bet_amount room0) 2 ;;
      let player_ids := map fst (players room0) in
      w <- match winner_id, player_ids with
           | Some winner_id, [p0; p1] =>
               let loser_id := if String.eqb p1 winner_id then p0 else p1 in
               wc <- conn_of winner_id (players room0) ;;
               lc <- conn_of loser_id (players room0) ;;
               match try_settlement clk w mid winner_id loser_id room0 rake_result
                       (balance_at_lock wc) (balance_at_lock lc) with
               | (None, w') => Ok w'
               | (Some _, w') =>
                   Ok (mkWorld (match_manager w') (treasury_ledger w') (ludo_games w')
                               (emitted w' ++ ["error"%string]))
               end
           | _, _ => Ok w
           end ;;
      let w := mkWorld (match_manager w) (treasury_ledger w)
                       (ludo_games w ∖ {[mid]}) (emitted w ++ ["ludo:game_over"%string]) in
      let mgr := snd (transition_state (t_completed clk) (match_manager w) mid COMPLETED) in
      Ok (default room0 (active_matches mgr !! mid),
          mkWorld (cleanup_match mgr mid) (treasury_ledger w) (ludo_games w) (emitted w))
  end.

End GameOver.

(** *** The rest of the match manager *)

Definition get_match (self : MatchManager) (mid : UUID) : option MatchRoom :=
  active_matches self !! mid.

Definition get_match_by_player (self : MatchManager) (uid : UUID) : option MatchRoom :=
  match player_to_match self !! uid with
  | Some mid => active_matches self !! mid
  | None => None
  end.

Definition get_user_by_sid (self : MatchManager) (s : string) : option UUID :=
  sid_to_user self !! s.

(** [record_move]: the next sequence number, or -1 when there is no room.
    [payload] stands for the dictionary of the move. *)
Definition record_move (now : float) (self : MatchManager) (mid uid : UUID)
    (payload : string) : Z * MatchManager :=
  match active_matches self !! mid with
  | None => (-1, self)
  | Some room =>
      let n := move_sequence room + 1 in
      let room' :=
        mkRoom (match_id room) (game_type room) (bet_amount room) (state room)
          (players room) (max_players room) (created_at room) (locked_at room)
          (started_at room) (session_id room) (initial_state_hash room)
          (moves_log room ++ [mkMoveEntry n uid now payload]) n
          (server_seed room) (client_seeds room) (is_bot_match room)
          (ledger_entry_id room) in
      (n, with_matches self (<[mid := room']> (active_matches self)))
  end.

Definition is_full (room : MatchRoom) : bool :=
  max_players room <=? Z.of_nat (length (players room)).

(** The bot is skipped: it is always ready and always confirms. *)
Definition all_players_ready (room : MatchRoom) : bool :=
  forallb (fun p => GameEngine.is_bot_user (fst p) || is_ready (snd p)) (players room).

Definition all_escrow_confirmed (room : MatchRoom) : bool :=
  forallb (fun p => GameEngine.is_bot_user (fst p) || escrow_confirmed (snd p))
          (players room).

Definition acquire_lock (self : MatchManager) (key : string) : bool * MatchManager :=
  let lock_key := ("lock:" ++ key)%string in
  if bool_decide (lock_key ∈ _locks self) then (false, self)
  else (true, mkManager (active_matches self) (player_to_match self) (sid_to_user self)
                        ({[lock_key]} ∪ _locks self)).

Definition release_lock (self : MatchManager) (key : string) : MatchManager :=
  mkManager (active_matches self) (player_to_match self) (sid_to_user self)
            (_locks self ∖ {[("lock:" ++ key)%string]}).

(** *** Matchmaking *)

Record MatchmakingEntry : Type := mkMatchmakingEntry {
  e_user_id : UUID;
  e_sid : string;
  e_game_type : string;
  e_bet_amount : Dec.t;
  e_security_profile : Security.PlayerSecurityProfile;
  queued_at : float
}.

(** The [matchmaking_queue] of the manager, kept beside the record. *)
Abbreviation MatchmakingQueue := (gmap string (list MatchmakingEntry)).

(** [f"{game_type}:{bet_amount}"] *)
Definition _get_queue_key (game_type : string) (bet : Dec.t) : string :=
  (game_type ++ ":" ++ Dec.to_str bet)%string.

Definition ENABLE_BOT_MATCHMAKING : bool := true.

Fixpoint put_conn (ps : list (UUID * PlayerConnection)) (uid : UUID) (c : PlayerConnection)
  : list (UUID * PlayerConnection) :=
  match ps with
  | [] => [(uid, c)]
  | (k, c') :: r => if String.eqb k uid then (k, c) :: r else (k, c') :: put_conn r uid c
  end.

(** [new_id] is the value of [uuid4()], [session] and [seed] the two values of
    [secrets.token_hex(32)], [now] the clock. *)
Definition _create_match (new_id : UUID) (session seed : string) (now : float)
    (self : MatchManager) (game_type : string) (bet : Dec.t)
    (entries : list MatchmakingEntry) (bot : bool) : MatchRoom * MatchManager :=
  let conn e :=
    mkConnection (e_user_id e) (e_sid e) now now false true
      (Security.current_ip (e_security_profile e))
      (default "" (Security.device_fingerprint (e_security_profile e)))
      false (Dec.Dc 0 0) in
  let room :=
    mkRoom new_id game_type bet MATCHMAKING
      (fold_left (fun ps e => put_conn ps (e_user_id e) (conn e)) entries [])
      2 now None None session "" [] 0 seed ∅ bot None in
  (room,
   mkManager (<[new_id := room]> (active_matches self))
     (fold_left (fun m e => <[e_user_id e := new_id]> m) entries (player_to_match self))
     (fold_left (fun m e => <[e_sid e := e_user_id e]> m) entries (sid_to_user self))
     (_locks self)).

(** What a call of [add_to_matchmaking] comes to. *)
Inductive Matchmaking : Type :=
| LockBusy                       (* returns None: the queue is locked *)
| Matched (room : MatchRoom)     (* returns the new room *)
| Queued                         (* returns None: the entry waits in the queue *)
| BotTypeError.                  (* raises TypeError while building the bot entry *)

(** [_create_bot_entry] never returns: it builds a [PlayerSecurityProfile] with
    a [username] keyword, which the dataclass does not have, and without its
    required [trust_level], [kyc_status] and [is_frozen]; Python raises
    [TypeError] there.  (The [MatchmakingEntry] it would build next is given a
    [joined_at] keyword the dataclass does not have either.) *)
Inductive or_type_error (A : Type) : Type :=
| Returns (a : A)
| RaisesTypeError.
Arguments Returns {A} a.
Arguments RaisesTypeError {A}.

Definition _create_bot_entry (game_type : string) (bet : Dec.t)
  : or_type_error (option MatchmakingEntry) :=
  RaisesTypeError.

(** The first queued entry of another user, with the queue without it. *)
Fixpoint find_opponent (uid : UUID) (queue : list MatchmakingEntry)
  : option (MatchmakingEntry * list MatchmakingEntry) :=
  match queue with
  | [] => None
  | o :: r =>
      if String.eqb (e_user_id o) uid
      then option_map (fun '(x, r') => (x, o :: r')) (find_opponent uid r)
      else Some (o, r)
  end.

(** [add_to_matchmaking]; the lock is released on every way out ([finally]). *)
Definition add_to_matchmaking (new_id : UUID) (session seed : string) (now : float)
    (self : MatchManager) (queues : MatchmakingQueue) (entry : MatchmakingEntry)
  : Matchmaking * MatchManager * MatchmakingQueue :=
  let queue_key := _get_queue_key (e_game_type entry) (e_bet_amount entry) in
  let '(got, self1) := acquire_lock self queue_key in
  if negb got then (LockBusy, self, queues)
  else
    let queue := default [] (queues !! queue_key) in
    let queues1 := <[queue_key := queue]> queues in
    match find_opponent (e_user_id entry) queue with
    | Some (opponent, rest) =>
        let '(room, self2) :=
          _create_match new_id session seed now self1 (e_game_type entry)
                        (e_bet_amount entry) [entry; opponent] false in
        (Matched room, release_lock self2 queue_key, <[queue_key := rest]> queues1)
    | None =>
        let queued :=
          (Queued, release_lock self1 queue_key,
           <[queue_key := queue ++ [entry]]> queues1) in
        if ENABLE_BOT_MATCHMAKING then
          match _create_bot_entry (e_game_type entry) (e_bet_amount entry) with
          | Returns (Some bot_entry) =>
              let '(room, self2) :=
                _create_match new_id session seed now self1 (e_game_type entry)
                              (e_bet_amount entry) [entry; bot_entry] true in
              (Matched room, release_lock self2 queue_key, queues1)
          | Returns None => queued
          | RaisesTypeError => (BotTypeError, release_lock self1 queue_key, queues1)
          end
        else queued
    end.

Definition remove_from_matchmaking (queues : MatchmakingQueue) (uid : UUID)
    (game_type : string) (bet : Dec.t) : MatchmakingQueue :=
  let queue_key := _get_queue_key game_type bet in
  match queues !! queue_key with
  | Some queue =>
      <[queue_key := List.filter (fun e => negb (String.eqb (e_user_id e) uid)) queue]> queues
  | None => queues
  end.

(** *** Locking the escrow and starting the match *)

(** The balance and the lock as the source has them: the database is still to
    be connected. *)
Definition _get_user_balance (uid : UUID) : Dec.t := Dec.Dc 10000 (-2).     (* "100.00" *)
Definition _lock_user_balance (uid : UUID) (amount : Dec.t) (mid : UUID) : bool := true.
Definition _unlock_user_balance (uid : UUID) (amount : Dec.t) (mid : UUID) : bool := true.

Definition with_balance_at_lock (c : PlayerConnection) (b : Dec.t) : PlayerConnection :=
  mkConnection (user_id c) (sid c) (connected_at c) (last_heartbeat c) (is_ready c)
    (is_connected c) (ip_address c) (device_fingerprint c) (escrow_confirmed c) b.

(** The loop of [_execute_soft_lock]: it stops at the first player whose
    balance is below the bet or whose lock fails; the players before keep the
    balance recorded for them. *)
Fixpoint soft_lock_players (mid : UUID) (bet : Dec.t) (ps : list (UUID * PlayerConnection))
  : bool * list (UUID * PlayerConnection) :=
  match ps with
  | [] => (true, [])
  | (uid, c) :: r =>
      let user_balance := _get_user_balance uid in
      if Dec.ltb user_balance bet then (false, (uid, c) :: r)
      else if negb (_lock_user_balance uid bet mid) then (false, (uid, c) :: r)
      else
        let '(ok, r') := soft_lock_players mid bet r in
        (ok, (uid, with_balance_at_lock c user_balance) :: r')
  end.

Definition with_players (room : MatchRoom) (ps : list (UUID * PlayerConnection)) : MatchRoom :=
  mkRoom (match_id room) (game_type room) (bet_amount room) (state room) ps
    (max_players room) (created_at room) (locked_at room) (started_at room)
    (session_id room) (initial_state_hash room) (moves_log room) (move_sequence room)
    (server_seed room) (client_seeds room) (is_bot_match room) (ledger_entry_id room).

Definition _execute_soft_lock (room : MatchRoom) : bool * MatchRoom :=
  let '(ok, ps) := soft_lock_players (match_id room) (bet_amount room) (players room) in
  (ok, with_players room ps).

Section Handlers.

(** The SHA-256 of the JSON dump that [generate_initial_hash] builds of a room. *)
Variable snapshot_hash : MatchRoom -> string.

Definition generate_initial_hash (self : MatchManager) (mid : UUID) : string * MatchManager :=
  match active_matches self !! mid with
  | None => (""%string, self)
  | Some room =>
      let h := snapshot_hash room in
      (h, with_matches self
            (<[mid := mkRoom (match_id room) (game_type room) (bet_amount room) (state room)
                        (players room) (max_players room) (created_at room)
                        (locked_at room) (started_at room) (session_id room) h
                        (moves_log room) (move_sequence room) (server_seed room)
                        (client_seeds room) (is_bot_match room) (ledger_entry_id room)]>
               (active_matches self)))
  end.

(** [_transition_to_locked(room)] for the room registered under [mid]: the new
    manager and the events emitted. *)
Definition _transition_to_locked (now : float) (self : MatchManager) (mid : UUID)
  : MatchManager * list string :=
  let '(success, self1) := transition_state now self mid LOCKED in
  if negb success then (self1, ["error"%string])
  else
    match active_matches self1 !! mid with
    | None => (self1, [])
    | Some room =>
        let '(ok, room') := _execute_soft_lock room in
        let self2 := with_matches self1 (<[mid := room']> (active_matches self1)) in
        if negb ok then
          (snd (transition_state now self2 mid CANCELLED), ["error"; "error"]%string)
        else
          (snd (generate_initial_hash self2 mid), ["match_locked"%string])
    end.

Definition _start_match (now : float) (self : MatchManager) (mid : UUID)
  : MatchManager * list string :=
  let '(success, self1) := transition_state now self mid IN_PROGRESS in
  if negb success then (self1, []) else (self1, ["match_started"%string]).

Fixpoint update_conn (ps : list (UUID * PlayerConnection)) (uid : UUID)
    (f : PlayerConnection -> PlayerConnection) : list (UUID * PlayerConnection) :=
  match ps with
  | [] => []
  | (k, c) :: r => if String.eqb k uid then (k, f c) :: r else (k, c) :: update_conn r uid f
  end.

Definition has_player (room : MatchRoom) (uid : UUID) : bool :=
  existsb (fun p => String.eqb (fst p) uid) (players room).

Definition mark_ready (c : PlayerConnection) : PlayerConnection :=
  mkConnection (user_id c) (sid c) (connected_at c) (last_heartbeat c) true
    (is_connected c) (ip_address c) (device_fingerprint c) (escrow_confirmed c)
    (balance_at_lock c).

Definition mark_escrow (c : PlayerConnection) : PlayerConnection :=
  mkConnection (user_id c) (sid c) (connected_at c) (last_heartbeat c) (is_ready c)
    (is_connected c) (ip_address c) (device_fingerprint c) true (balance_at_lock c).

(** The [player_ready] event; [client_seed] is the seed of the message, or the
    random one drawn when the message has none. *)
Definition player_ready (now : float) (self : MatchManager) (s : string) (mid : UUID)
    (client_seed : string) : MatchManager * list string :=
  match get_user_by_sid self s with
  | None => (self, [])
  | Some uid =>
      match get_match self mid with
      | None => (self, ["error"%string])
      | Some room =>
          if negb (has_player room uid) then (self, ["error"%string])
          else
            let room' :=
              mkRoom (match_id room) (game_type room) (bet_amount room) (state room)
                (update_conn (players room) uid mark_ready)
                (max_players room) (created_at room) (locked_at room) (started_at room)
                (session_id room) (initial_state_hash room) (moves_log room)
                (move_sequence room) (server_seed room)
                (<[uid := client_seed]> (client_seeds room))
                (is_bot_match room) (ledger_entry_id room) in
            let self1 := with_matches self (<[mid := room']> (active_matches self)) in
            if all_players_ready room' then
              let '(self2, evs) := _transition_to_locked now self1 (match_id room') in
              (self2, "player_ready_update"%string :: evs)
            else (self1, ["player_ready_update"%string])
      end
  end.

(** The [confirm_escrow] event; [KeyError] when the sender is not a player of
    the room. *)
Definition confirm_escrow (now : float) (self : MatchManager) (s : string) (mid : UUID)
  : res (MatchManager * list string) :=
  match get_user_by_sid self s with
  | None => Ok (self, [])
  | Some uid =>
      match get_match self mid with
      | None => Ok (self, [])
      | Some room =>
          if negb (MatchState_eqb (state room) LOCKED) then Ok (self, [])
          else if negb (has_player room uid) then Raise KeyError
          else
            let room' := with_players room (update_conn (players room) uid mark_escrow) in
            let self1 := with_matches self (<[mid := room']> (active_matches self)) in
            if all_escrow_confirmed room' then Ok (_start_match now self1 (match_id room'))
            else Ok (self1, [])
      end
  end.

End Handlers.

(** [MatchManager.__init__] *)
Definition MatchManager_init : MatchManager := mkManager ∅ ∅ ∅ ∅.

(** A client of the state machine: transitions requested one after another on
    the room [mid], each with the reading of the clock at the request. *)
Fixpoint transition_all (self : MatchManager) (mid : UUID)
    (requests : list (float * MatchState)) : list bool * MatchManager :=
  match requests with
  | [] => ([], self)
  | (now, s) :: rest =>
      let '(ok, self1) := transition_state now self mid s in
      let '(oks, self2) := transition_all self1 mid rest in
      (ok :: oks, self2)
  end.

(** One call of [add_to_matchmaking] with what it draws: the identifier of the
    room it may create, the two random tokens and the clock. *)
Record JoinRequest : Type := mkJoinRequest {
  j_new_id : UUID;
  j_session : string;
  j_seed : string;
  j_now : float;
  j_entry : MatchmakingEntry
}.

Fixpoint matchmaking_run (joins : list JoinRequest) (self : MatchManager)
    (queues : MatchmakingQueue) : list Matchmaking * MatchManager * MatchmakingQueue :=
  match joins with
  | [] => ([], self, queues)
  | j :: rest =>
      let '(out, self1, queues1) :=
        add_to_matchmaking (j_new_id j) (j_session j) (j_seed j) (j_now j)
                           self queues (j_entry j) in
      let '(outs, self2, queues2) := matchmaking_run rest self1 queues1 in
      (out :: outs, self2, queues2)
  end.

(** The profile [_handle_match_found] builds of a connected player. *)
Definition profile_of_connection (c : PlayerConnection) : Security.PlayerSecurityProfile :=
  Security.mkSecurityProfile (user_id c) 100 "GREEN" "VERIFIED" false
    (Some (device_fingerprint c)) (ip_address c) (balance_at_lock c) 0 0 0 None false None.

(** [_handle_match_found(room)]: the manager it leaves and the event it emits
    to the room. *)
Definition _handle_match_found (store : Security.SecurityMemoryStore)
    (h : Security.EncounterHistory) (self : MatchManager) (room : MatchRoom)
  : MatchManager * list string :=
  match map snd (players room) with
  | [c0; c1] =>
      if Security.refuses_match
           (Security.check_collusion store h (profile_of_connection c0)
                                     (profile_of_connection c1))
      then (cleanup_match self (match_id room), ["match_cancelled"%string])
      else (self, ["match_found"%string])
  | _ => (self, ["match_found"%string])
  end.

End WebsocketHandler.

(* ===================================================================== *)
(** ** What the specification states, and the data of the worked examples *)
(* ===================================================================== *)

Module Spec.
Import WebsocketHandler.

(** The room life cycle as the specification draws it. *)
Inductive allowed_transition : MatchState -> MatchState -> Prop :=
| matchmaking_locked : allowed_transition MATCHMAKING LOCKED
| matchmaking_cancelled : allowed_transition MATCHMAKING CANCELLED
| locked_in_progress : allowed_transition LOCKED IN_PROGRESS
| locked_cancelled : allowed_transition LOCKED CANCELLED
| in_progress_validation : allowed_transition IN_PROGRESS VALIDATION
| in_progress_disputed : allowed_transition IN_PROGRESS DISPUTED
| validation_settlement : allowed_transition VALIDATION SETTLEMENT
| validation_disputed : allowed_transition VALIDATION DISPUTED
| settlement_completed : allowed_transition SETTLEMENT COMPLETED
| settlement_disputed : allowed_transition SETTLEMENT DISPUTED
| disputed_completed : allowed_transition DISPUTED COMPLETED
| disputed_cancelled : allowed_transition DISPUTED CANCELLED.

(** A two-player room, both players with 100.00 locked. *)
Definition sample_connection (uid : UUID) : PlayerConnection :=
  mkConnection uid ("sid-" ++ uid) 0 0 true true "10.0.0.1" "device" true (Dec.Dc 10000 (-2)).

Definition sample_match_id : UUID := "3f2c1a9e-0000-4000-8000-000000000001".

Definition sample_room (st : MatchState) (bet : Dec.t) : MatchRoom :=
  mkRoom sample_match_id "LUDO" bet st
    [("alice"%string, sample_connection "alice"); ("bob"%string, sample_connection "bob")]
    2 0 None None "session" "" [] 0 "seed" ∅ false None.

Definition sample_manager (st : MatchState) (bet : Dec.t) : MatchManager :=
  mkManager {[ sample_match_id := sample_room st bet ]}
            {[ "alice"%string := sample_match_id; "bob"%string := sample_match_id ]}
            {[ "sid-alice"%string := "alice"%string; "sid-bob"%string := "bob"%string ]} ∅.

Definition sample_clock : HandlerClock := mkHandlerClock 0 1700000000 0 0.

(** The room of a board game, its two players under the ids the match manager
    keys them by, which the engine reports as the strings [str(user_id)]. *)
Definition alice_id : UUID := "a11ce000-0000-4000-8000-00000000000a".
Definition bob_id : UUID := "b0b00000-0000-4000-8000-00000000000b".

Definition game_room (st : MatchState) (bet : Dec.t) : MatchRoom :=
  mkRoom sample_match_id "LUDO" bet st
    [(alice_id, sample_connection alice_id); (bob_id, sample_connection bob_id)]
    2 0 None None "session" "" [] 0 "seed" ∅ false None.

Definition game_world (st : MatchState) (bet : Dec.t) : World :=
  mkWorld
    (mkManager {[ sample_match_id := game_room st bet ]}
               {[ alice_id := sample_match_id; bob_id := sample_match_id ]}
               {[ sid (sample_connection alice_id) := alice_id;
                  sid (sample_connection bob_id) := bob_id ]} ∅)
    GameEngine.TreasuryLedger_init {[ sample_match_id ]} [].

(** [UUID(hex)] on the strings of the worked examples.  A string in the
    canonical form, 32 lower-case hex digits in groups of 8-4-4-4-12, denotes
    the id written that way; a string such as ["alice"], which does not hold 32
    characters once the hyphens are taken out, raises [ValueError].  The other
    spellings the library accepts (upper case, braces, a [urn:uuid:] prefix) do
    not occur in the examples and are refused here. *)
Definition is_hex_lower (c : ascii) : bool :=
  let n := N_of_ascii c in
  (((48 <=? n) && (n <=? 57)) || ((97 <=? n) && (n <=? 102)))%N.

Fixpoint canonical_from (i : nat) (s : string) : bool :=
  match s with
  | EmptyString => Nat.eqb i 36
  | String c r =>
      (if Nat.eqb i 8 || Nat.eqb i 13 || Nat.eqb i 18 || Nat.eqb i 23
       then Ascii.eqb c "-" else is_hex_lower c)
      && canonical_from (S i) r
  end.

Definition uuid_of_canonical (s : string) : res UUID :=
  if canonical_from 0 s then Ok s else Raise ValueError.

(** A player whose only variable is the trust score. *)
Definition sample_profile (score : Z) : Security.PlayerSecurityProfile :=
  Security.mkSecurityProfile "alice" score "GREEN" "VERIFIED" false (Some "device"%string)
    "10.0.0.1" (Dec.Dc 10000 (-2)) 0 0 0 None false None.

Definition empty_store : Security.SecurityMemoryStore :=
  Security.mkStore ∅ ∅ ∅ ∅ ∅ ∅.

Definition sample_shield_clock : Security.Clock :=
  Security.mkClock 1700000000000000 1700000000000000
                   1700000000 1700000000 1700000000 1700000000 1700000000.

(** Whole seconds of a duration in microseconds, for durations of a few hours. *)
Definition whole_seconds (us : Z) : Z := Z.quot us 1000000.

(** A two-player board game in which Alice, with client seed "s53" against the
    server seed "seed", rolls 6 three times running: she brings out piece 0 on
    the first six and piece 1 on the second. *)
Definition keep {A : Type} (e : Ludo.LudoEngine) (r : res (A * Ludo.LudoEngine))
  : Ludo.LudoEngine :=
  match r with
  | Ok (_, e') => e'
  | Raise _ => e
  end.

Definition game_start : Ludo.LudoEngine :=
  snd (Ludo.start_game 0
         (Ludo.LudoEngine_init 0 "seed" sample_match_id ["alice"; "bob"]%string)).

Definition game_first_six : Ludo.LudoEngine :=
  keep game_start (Ludo.roll_dice 1 1 game_start "alice" (Some "s53"%string)).
Definition game_first_move : Ludo.LudoEngine :=
  keep game_first_six (Ludo.move_piece 2 2 game_first_six "alice" 0).
Definition game_second_six : Ludo.LudoEngine :=
  keep game_first_move (Ludo.roll_dice 3 3 game_first_move "alice" None).
Definition game_second_move : Ludo.LudoEngine :=
  keep game_second_six (Ludo.move_piece 4 4 game_second_six "alice" 1).

(** The third roll, as the dice produces it. *)
Definition third_roll : Ludo.DiceRoll :=
  Ludo.mkDiceRoll 6 (Sha256.hexdigest "seed") "s53" 3 5
    (Py.take_str 16 (Sha256.hexdigest "seed:s53:3")).
Definition third_dice : Ludo.ProvablyFairDice :=
  Ludo.mkDice "seed" (Sha256.hexdigest "seed") {[ "alice"%string := "s53"%string ]} 3.

(** Decimal arithmetic as the specification reads it: exact, with no rounding
    to the context precision.  [rounded_to_cents] is the rounding to two
    decimals, half to even. *)
Definition exact_mul (a b : Dec.t) : Dec.t :=
  Dec.Dc (Dec.coef a * Dec.coef b) (Dec.dexp a + Dec.dexp b).

Definition exact_sub (a b : Dec.t) : Dec.t :=
  let '(x, y, e) := Dec.align a b in Dec.Dc (x - y) e.

Definition rounded_to_cents (d : Dec.t) : Dec.t := Dec.rescale d (-2).

(** The value is written with at most 28 digits. *)
Definition fits (d : Dec.t) : Prop := Z.abs (Dec.coef d) < 10 ^ 28.

(** The value is one the context represents exactly: at most 28 digits, and an
    exponent within the limits. *)
Definition representable (d : Dec.t) : Prop := fits d /\ Dec.in_range d = true.

(** The fee table as the specification reads it, for [n] players. *)
Definition exact_fee (bet : Dec.t) (tier : GameEngine.RakeConfig) (n : Z)
  : GameEngine.FeeResult :=
  let fee := rounded_to_cents (exact_mul bet (GameEngine.rate tier)) in
  let pot := exact_mul bet (Dec.of_int n) in
  let tfee := exact_mul fee (Dec.of_int n) in
  GameEngine.mkFeeResult bet fee pot tfee (exact_sub pot tfee)
    (GameEngine.rate tier) (GameEngine.level tier).

(** Latency profiles for the worked examples; none has the five samples after
    which the trend consults [statistics.mean], for which [naive_mean] stands. *)
Definition naive_mean (l : list float) : float :=
  PrimFloat.div (fold_left PrimFloat.add l 0%float) (Py.float_of_Z (Z.of_nat (length l))).

Definition profile_with (baseline std : float) (spikes : list float) (crit_spikes crit : Z)
  : Jitter.LatencyProfile :=
  Jitter.mkProfile "alice" baseline std 0 [] spikes Jitter.GOOD false "" 0 0 crit_spikes crit.

Definition sample_at (now rtt : float) (tag : string) : Jitter.HeartbeatSample :=
  Jitter.mkSample now (PrimFloat.sub now (PrimFloat.div rtt 1000)) rtt 1 tag.

(** The spike timestamps of the window: a timestamp counts when it is later
    than [now - SPIKE_WINDOW], the test [_analyze_jitter] prunes the list
    with. *)
Definition in_spike_window (now ts : float) : bool :=
  PrimFloat.ltb (PrimFloat.sub now Jitter.JitterConfig.SPIKE_WINDOW) ts.

Definition spikes_in_window (now : float) (profile : Jitter.LatencyProfile) : Z :=
  Z.of_nat (length (List.filter (in_spike_window now) (Jitter.spike_timestamps profile))).

(** The settlement of a finished game fails: creating the entry raises, or the
    entry is created and the escrow step reports failure. *)
Definition settlement_fails (settle_escrow : UUID -> UUID -> UUID -> Dec.t -> Dec.t -> bool)
    (clk : HandlerClock) (ledger : GameEngine.TreasuryLedger)
    (mid winner_id loser_id : UUID) (bet winner_balance loser_balance : Dec.t)
    (fee : GameEngine.FeeResult) : Prop :=
  (exists e,
      GameEngine.create_match_settlement (t_entry_int clk) (t_entry clk) ledger mid
        winner_id loser_id bet winner_balance loser_balance = Raise e)
  \/ (exists entry ledger',
         GameEngine.create_match_settlement (t_entry_int clk) (t_entry clk) ledger mid
           winner_id loser_id bet winner_balance loser_balance = Ok (entry, ledger')
         /\ settle_escrow mid winner_id loser_id (GameEngine.winner_prize fee)
              (GameEngine.fee_per_player fee) = false).

(** The books of a ledger balance: the treasury holds the rakes of the entries
    in ledger order, every entry passes the balance equation and is COMMITTED,
    and so does every entry still pending. *)
Definition books_balance (l : GameEngine.TreasuryLedger) : Prop :=
  GameEngine.treasury_balance l = GameEngine.sum_of_rakes (GameEngine.entries l) /\
  GameEngine.invalid_ids (GameEngine.entries l) = [] /\
  Forall (fun e => GameEngine.status e = GameEngine.COMMITTED) (GameEngine.entries l) /\
  map_Forall (fun _ e => GameEngine.validate_balance_equation e = true)
             (GameEngine.pending_entries l).

(** A store in which Alice has made ten requests in the last ten seconds. *)
Definition busy_store : Security.SecurityMemoryStore :=
  Security.mkStore ∅ ∅ {[ "alice"%string := repeat 1699999990%float 10 ]} ∅ ∅ ∅.

(** How far a room is along its life cycle. *)
Definition stage (s : MatchState) : Z :=
  match s with
  | MATCHMAKING => 0
  | LOCKED => 1
  | IN_PROGRESS => 2
  | VALIDATION => 3
  | SETTLEMENT => 4
  | DISPUTED => 5
  | COMPLETED => 6
  | CANCELLED => 6
  end.

(** The sequence numbers of the move log are 1, 2, ... up to the counter. *)
Definition log_in_order (room : MatchRoom) : Prop :=
  map sequence (moves_log room)
  = map Z.of_nat (seq 1 (length (moves_log room))) /\
  move_sequence room = Z.of_nat (length (moves_log room)).

(** A detector that monitors two players; Alice is flagged for lag switching,
    was last heard of at time 100 and has missed two checks since. *)
Definition flagged_profile : Jitter.LatencyProfile :=
  Jitter.mkProfile "alice" 50 5 60 [] [95; 97; 99]%float Jitter.POOR true
    "Multiple latency spikes detected" 2 100 0 0.

Definition flagged_detector : Jitter.JitterDetector :=
  Jitter.mkDetector {[ "alice"%string := flagged_profile ]}
    {[ "alice"%string := 100%float; "bob"%string := 118%float ]} [].

(** A board game in good order: every player has the pieces 0 to 3, of the
    player's colour, each where its state says (at home, on one of the 52
    cells of the track, on one of the cells of the home stretch, or finished);
    the count of finished pieces of a player is the number of its pieces that
    are FINISHED; every player of the turn order has a seat, and the turn index
    points into the order; the move counter is the length of the history; and
    a pending roll shows 1 to 6. *)
Definition is_finished (p : Ludo.LudoPiece) : bool :=
  match Ludo.piece_state p with
  | Ludo.FINISHED => true
  | _ => false
  end.

Definition count_finished (ps : list Ludo.LudoPiece) : Z :=
  Z.of_nat (length (List.filter is_finished ps)).

Definition piece_ok (p : Ludo.LudoPiece) : Prop :=
  match Ludo.piece_state p with
  | Ludo.HOME => Ludo.position p = -1
  | Ludo.ACTIVE => 0 <= Ludo.position p < 52
  | Ludo.SAFE_ZONE => 0 <= Ludo.safe_zone_pos p <= 5
  | Ludo.FINISHED => Ludo.position p = -2
  end.

Definition player_ok (pl : Ludo.LudoPlayer) : Prop :=
  map Ludo.piece_id (Ludo.pieces pl) = [0; 1; 2; 3] /\
  Forall (fun p => Ludo.owner p = Ludo.color pl /\ piece_ok p) (Ludo.pieces pl) /\
  Ludo.pieces_finished pl = count_finished (Ludo.pieces pl).

Definition seat_ok (kv : UUID * Ludo.LudoPlayer) : Prop :=
  Ludo.user_id (snd kv) = fst kv /\ player_ok (snd kv).

Definition engine_ok (e : Ludo.LudoEngine) : Prop :=
  Forall seat_ok (Ludo.players e) /\
  Forall (fun uid => In uid (map fst (Ludo.players e))) (Ludo.player_order e) /\
  0 <= Ludo.current_player_index e < Z.of_nat (length (Ludo.player_order e)) /\
  Ludo.move_counter e = Z.of_nat (length (Ludo.moves_history e)) /\
  (forall r, Ludo.current_roll e = Some r -> 1 <= Ludo.value r <= 6).

(** A second player, on another address and another device. *)
Definition other_profile : Security.PlayerSecurityProfile :=
  Security.mkSecurityProfile "bob" 80 "GREEN" "VERIFIED" false (Some "device-b"%string)
    "10.0.0.2" (Dec.Dc 10000 (-2)) 0 0 0 None false None.

End Spec.

(* ===================================================================== *)
(** * Properties                                                          *)
(* ===================================================================== *)

(** ** SHA-256 against the published test vectors *)

Example sha256_abc :
  Sha256.hexdigest "abc"
  = "ba7816bf8f01cfea414140de5dae2223b00361a396177a9cb410ff61f20015ad"%string.
Proof. vm_compute. reflexivity. Qed.

Example sha256_empty :
  Sha256.hexdigest ""
  = "e3b0c44298fc1c149afbf4c8996fb92427ae41e4649b934ca495991b7852b855"%string.
Proof. vm_compute. reflexivity. Qed.

Example sha256_two_blocks :
  Sha256.hexdigest (String.concat "" (repeat "a"%string 100))
  = "2816597888e4a0d3a36b82b83316ab32680eb8f00f8cd3b904d681246d285a0e"%string.
Proof. vm_compute. reflexivity. Qed.

(** ** Provably fair dice (ludo_engine.py) *)

Section DiceFacts.
Import Ludo.

(** Every character the digest is written with is a base-16 digit. *)
Lemma hex_val_hex_char (x : Z) :
  exists v, Py.hex_val (Sha256.hex_char x) = Some v /\ 0 <= v <= 15.
Proof.
  unfold Sha256.hex_char.
  destruct (Z.land x 15) as [|p|p];
    repeat match goal with
           | |- context [match ?q with xI _ => _ | xO _ => _ | xH => _ end] => destruct q
           end;
    (vm_compute; eexists; split; [reflexivity | split; discriminate]).
Qed.

Lemma int16_acc_step (acc : Z) (x : Z) (rest : string) :
  0 <= acc ->
  exists v, 0 <= 16 * acc + v /\
    Py.int16_acc acc (String (Sha256.hex_char x) rest) = Py.int16_acc (16 * acc + v) rest.
Proof.
  intros Hacc. destruct (hex_val_hex_char x) as (v & Hv & Hr).
  exists v. split; [lia |]. simpl. rewrite Hv. reflexivity.
Qed.

(** [int(digest[:8], 16)] never raises and is not negative. *)
Lemma int16_digest_prefix (s : string) :
  exists N, Py.int16 (Py.take_str 8 (Sha256.hexdigest s)) = Some N /\ 0 <= N.
Proof.
  unfold Sha256.hexdigest, Sha256.hex_of_state.
  generalize (Sha256.digest (Sha256.bytes_of_string s)). intros st.
  unfold Sha256.hex8 at 1.
  unfold Py.take_str. cbn [String.substring].
  unfold Py.int16.
  repeat match goal with
         | |- exists N, Py.int16_acc ?a (String (Sha256.hex_char ?x) ?r) = _ /\ _ =>
             let v := fresh "v" in
             let Hv := fresh "Hv" in
             let E := fresh "E" in
             destruct (int16_acc_step a x r) as (v & Hv & E); [lia |]; rewrite E; clear E
         end.
  cbn [Py.int16_acc]. eexists. split; [reflexivity | lia].
Qed.

Lemma dice_value_total (h : string) :
  exists N, Py.int16 (Py.take_str 8 (Sha256.hexdigest h)) = Some N /\ 0 <= N /\
            dice_value_of_hash (Sha256.hexdigest h) = Ok (N mod 6 + 1).
Proof.
  destruct (int16_digest_prefix h) as (N & HN & Hpos).
  exists N. unfold dice_value_of_hash. rewrite HN. auto.
Qed.

(** One roll: it returns, the nonce moves by one, the value is [N mod 6 + 1],
    and the roll verifies against the seed the dice holds. *)
Lemma roll_one (now : float) (d : ProvablyFairDice) (p : string) :
  exists r d' N,
    roll now d p = Ok (r, d') /\
    nonce r = dice_nonce d + 1 /\
    dice_nonce d' = dice_nonce d + 1 /\
    dice_server_seed d' = dice_server_seed d /\
    Py.int16 (Py.take_str 8
      (Sha256.hexdigest (combined (dice_server_seed d) (client_seed r) (nonce r)))) = Some N /\
    0 <= N /\ value r = N mod 6 + 1 /\ 1 <= value r <= 6 /\
    verify_roll r (dice_server_seed d) = Ok true.
Proof.
  unfold roll.
  set (cs := default "default"%string (client_seeds d !! p)).
  destruct (dice_value_total (combined (dice_server_seed d) cs (dice_nonce d + 1)))
    as (N & HN & Hpos & Hv).
  rewrite Hv. cbn [bind].
  eexists _, _, N. split; [reflexivity |].
  cbn [nonce dice_nonce dice_server_seed client_seed value].
  repeat split; try assumption; try reflexivity.
  - pose proof (Z.mod_pos_bound N 6). lia.
  - pose proof (Z.mod_pos_bound N 6). lia.
  - unfold verify_roll. cbn [nonce client_seed value hash_proof].
    rewrite Hv. cbn [bind]. rewrite Z.eqb_refl, String.eqb_refl. reflexivity.
Qed.

End DiceFacts.

Section DiceRuns.
Import Ludo.



End DiceRuns.

(** ** The room state machine (websocket_handler.py) *)

Section RoomFSM.
Import WebsocketHandler Spec.

Lemma allowed_transition_table (s n : MatchState) :
  existsb (MatchState_eqb n) (valid_transitions s) = true <-> allowed_transition s n.
Proof.
  split.
  - destruct s, n; cbn; intros H; try discriminate H; constructor.
  - intros H. destruct H; reflexivity.
Qed.

(** C5. On a room that exists, [transition_state] returns [True] exactly for
    the twelve transitions of the life cycle; it then sets the room's state to
    the requested one, and otherwise returns [False] and changes nothing (in
    particular out of COMPLETED and CANCELLED). *)
Theorem transition_state_follows_table (now : float) (mgr : MatchManager)
    (mid : UUID) (room : MatchRoom) (new_state : MatchState) :
  active_matches mgr !! mid = Some room ->
  (fst (transition_state now mgr mid new_state) = true
   <-> allowed_transition (state room) new_state) /\
  (fst (transition_state now mgr mid new_state) = true ->
   exists room',
     active_matches (snd (transition_state now mgr mid new_state)) !! mid = Some room' /\
     state room' = new_state) /\
  (fst (transition_state now mgr mid new_state) = false ->
   snd (transition_state now mgr mid new_state) = mgr) /\
  (state room = COMPLETED \/ state room = CANCELLED ->
   fst (transition_state now mgr mid new_state) = false).
Proof.
  intros Hroom. unfold transition_state. rewrite Hroom.
  pose proof (allowed_transition_table (state room) new_state) as Htab.
  destruct (existsb (MatchState_eqb new_state) (valid_transitions (state room))) eqn:E;
    cbn [negb fst snd].
  - repeat split.
    + intros _. apply Htab. reflexivity.
    + intros _. eexists. split.
      * cbn [active_matches with_matches]. apply lookup_insert_eq.
      * reflexivity.
    + discriminate.
    + intros [Hs | Hs]; rewrite Hs in E; discriminate E.
  - repeat split.
    + discriminate.
    + intros Ha. apply Htab in Ha. discriminate Ha.
    + discriminate.
Qed.

Lemma transition_state_follows_table_witness :
  active_matches (sample_manager MATCHMAKING (Dec.Dc 25 0)) !! sample_match_id
    = Some (sample_room MATCHMAKING (Dec.Dc 25 0)) /\
  fst (transition_state 0 (sample_manager MATCHMAKING (Dec.Dc 25 0))
         sample_match_id LOCKED) = true.
Proof.
  assert (H : active_matches (sample_manager MATCHMAKING (Dec.Dc 25 0)) !! sample_match_id
              = Some (sample_room MATCHMAKING (Dec.Dc 25 0))) by reflexivity.
  split; [exact H |].
  apply (transition_state_follows_table 0 _ _ _ LOCKED H).
  constructor.
Defined.

End RoomFSM.

(** ** The pre-match shield (security.py) *)

Section Shield.
Import Security.

Variable whole_seconds : Z -> Z.

(** C9. For a profile that is not frozen and for which the quarantine check of
    the store reports nothing, [verify_player] answers DENIED_LOW_TRUST with
    [can_proceed = False] if and only if [trust_score < 30]; so a score of 30
    is not refused for low trust and a score of 29 is. *)
Theorem low_trust_denied_iff_below_30 (clk : Clock) (store : SecurityMemoryStore)
    (profile : PlayerSecurityProfile) (bet_amount : Dec.t) :
  is_frozen profile = false ->
  fst (is_in_quarantine (utc_check clk) store (user_id profile)) = None ->
  (verdict (fst (verify_player whole_seconds clk store profile bet_amount)) = DENIED_LOW_TRUST /\
   can_proceed (fst (verify_player whole_seconds clk store profile bet_amount)) = false)
  <-> trust_score profile < 30.
Proof.
  intros Hfrozen Hq. unfold verify_player. rewrite Hfrozen.
  destruct (is_in_quarantine (utc_check clk) store (user_id profile)) as [until store1].
  cbn [fst] in Hq. subst until.
  unfold SecurityConfig.MIN_TRUST_SCORE_FOR_MATCH.
  destruct (Z.ltb_spec (trust_score profile) 30) as [Hlt | Hge].
  - cbn. split; [intros _; exact Hlt | intros _; split; reflexivity].
  - split; [| lia]. intros [Hv _]. exfalso. revert Hv.
    repeat match goal with
           | |- context [if ?b then _ else _] => destruct b
           | |- context [match ?o with Some _ => _ | None => _ end] => destruct o
           end; cbn; discriminate.
Qed.

End Shield.

Lemma low_trust_denied_iff_below_30_witness :
  Security.is_frozen (Spec.sample_profile 29) = false /\
  fst (Security.is_in_quarantine (Security.utc_check Spec.sample_shield_clock)
         Spec.empty_store (Security.user_id (Spec.sample_profile 29))) = None /\
  ((Security.verdict
      (fst (Security.verify_player Spec.whole_seconds Spec.sample_shield_clock
              Spec.empty_store (Spec.sample_profile 29) (Dec.Dc 25 0)))
    = Security.DENIED_LOW_TRUST /\
    Security.can_proceed
      (fst (Security.verify_player Spec.whole_seconds Spec.sample_shield_clock
              Spec.empty_store (Spec.sample_profile 29) (Dec.Dc 25 0)))
    = false)
   <-> Security.trust_score (Spec.sample_profile 29) < 30).
Proof.
  split; [reflexivity |]. split; [reflexivity |].
  apply (low_trust_denied_iff_below_30 Spec.whole_seconds Spec.sample_shield_clock
           Spec.empty_store (Spec.sample_profile 29) (Dec.Dc 25 0)); reflexivity.
Defined.

(** The two boundary profiles, run through the whole check. *)
Example trust_29_is_refused :
  let r := fst (Security.verify_player Spec.whole_seconds Spec.sample_shield_clock
                  Spec.empty_store (Spec.sample_profile 29) (Dec.Dc 25 0)) in
  Security.verdict r = Security.DENIED_LOW_TRUST /\ Security.can_proceed r = false.
Proof. vm_compute. split; reflexivity. Qed.

Example trust_30_is_admitted :
  let r := fst (Security.verify_player Spec.whole_seconds Spec.sample_shield_clock
                  Spec.empty_store (Spec.sample_profile 30) (Dec.Dc 25 0)) in
  Security.verdict r = Security.APPROVED /\ Security.can_proceed r = true.
Proof. vm_compute. split; reflexivity. Qed.

(** ** Three sixes in a row (ludo_engine.py) *)

Section ThreeSixes.
Import Ludo.

Lemma py_index_in_range {A : Type} (l : list A) (i : Z) :
  0 <= i < Z.of_nat (length l) -> exists x, py_index l i = Ok x.
Proof.
  intros Hi. unfold py_index.
  destruct (Z.ltb_spec i 0) as [Hneg | _]; [lia |].
  destruct (Z.leb_spec 0 i) as [_ | Hneg]; [| lia].
  destruct (Z.ltb_spec i (Z.of_nat (length l))) as [_ | Hbig]; [| lia].
  cbn [andb].
  destruct (nth_error l (Z.to_nat i)) as [x |] eqn:E.
  - exists x. reflexivity.
  - apply nth_error_None in E. lia.
Qed.

Lemma py_index_nonempty {A : Type} (l : list A) (i : Z) (x : A) :
  py_index l i = Ok x -> 0 < Z.of_nat (length l).
Proof.
  unfold py_index. intros H.
  destruct ((0 <=? (if i <? 0 then i + Z.of_nat (length l) else i))
            && ((if i <? 0 then i + Z.of_nat (length l) else i) <? Z.of_nat (length l)))
    eqn:E; [| discriminate H].
  apply andb_true_iff in E. destruct E as [E1 E2].
  apply Z.leb_le in E1. apply Z.ltb_lt in E2. lia.
Qed.

(** C8. In state ROLLING, when the current player rolls a 6 and already has two
    consecutive sixes in the turn, [roll_dice] reports the three-sixes penalty:
    the turn index moves to the next player of [player_order], who is the one
    announced; no piece and no player record changes; nothing is appended to
    [moves_history]; the six counter is back to 0 and the game is in state
    ROLLING with no pending roll. *)
Theorem third_six_forfeits_turn (t_roll t_turn : float) (e : LudoEngine) (uid : UUID)
    (seed : option string) (r : DiceRoll) (d' : ProvablyFairDice) :
  state e = ROLLING ->
  current_user_id e = Ok uid ->
  roll t_roll (register_seed (dice e) uid seed) uid = Ok (r, d') ->
  value r = 6 ->
  2 <= consecutive_sixes e ->
  exists e' next,
    roll_dice t_roll t_turn e uid seed = Ok (RollPenalty r next, e') /\
    current_player_index e'
      = (current_player_index e + 1) mod Z.of_nat (length (player_order e)) /\
    current_user_id e' = Ok next /\
    players e' = players e /\
    moves_history e' = moves_history e /\
    move_counter e' = move_counter e /\
    consecutive_sixes e' = 0 /\
    can_roll_again e' = false /\
    current_roll e' = None /\
    state e' = ROLLING.
Proof.
  intros Hst Hcur Hroll Hsix Hcount.
  pose proof (py_index_nonempty _ _ _ Hcur) as Hlen.
  set (n := Z.of_nat (length (player_order e))) in *.
  destruct (py_index_in_range (player_order e) ((current_player_index e + 1) mod n))
    as [next Hnext].
  { apply Z.mod_pos_bound. exact Hlen. }
  unfold roll_dice. rewrite Hst. cbn [state_eqb negb].
  rewrite Hcur. cbn [bind]. rewrite String.eqb_refl. cbn [negb].
  rewrite Hroll. cbn [bind]. rewrite Hsix. cbn [Z.eqb Pos.eqb andb].
  unfold LudoConfig.MAX_CONSECUTIVE_SIXES.
  destruct (Z.leb_spec 3 (consecutive_sixes e + 1)) as [_ | Hlt]; [| lia].
  unfold _next_turn, with_roll. cbn [player_order]. fold n.
  destruct (Z.eqb_spec n 0) as [Hz | _]; [lia |].
  cbn [bind]. unfold current_user_id at 1. cbn [player_order current_player_index].
  fold n. rewrite Hnext. cbn [bind].
  eexists _, next. split; [reflexivity |].
  cbn [current_player_index players moves_history move_counter consecutive_sixes
       can_roll_again current_roll state].
  repeat split; try reflexivity.
  unfold current_user_id. cbn [player_order current_player_index]. exact Hnext.
Qed.

Lemma third_six_forfeits_turn_witness :
  state Spec.game_second_move = ROLLING /\
  current_user_id Spec.game_second_move = Ok "alice"%string /\
  roll 5 (register_seed (dice Spec.game_second_move) "alice" None) "alice"
    = Ok (Spec.third_roll, Spec.third_dice) /\
  value Spec.third_roll = 6 /\
  2 <= consecutive_sixes Spec.game_second_move /\
  exists e' next,
    roll_dice 5 6 Spec.game_second_move "alice" None
      = Ok (RollPenalty Spec.third_roll next, e') /\
    current_player_index e'
      = (current_player_index Spec.game_second_move + 1)
        mod Z.of_nat (length (player_order Spec.game_second_move)) /\
    current_user_id e' = Ok next /\
    players e' = players Spec.game_second_move /\
    moves_history e' = moves_history Spec.game_second_move /\
    move_counter e' = move_counter Spec.game_second_move /\
    consecutive_sixes e' = 0 /\
    can_roll_again e' = false /\
    current_roll e' = None /\
    state e' = ROLLING.
Proof.
  split; [vm_compute; reflexivity |].
  split; [vm_compute; reflexivity |].
  split; [vm_compute; reflexivity |].
  split; [vm_compute; reflexivity |].
  split; [vm_compute; discriminate |].
  apply (third_six_forfeits_turn 5 6 Spec.game_second_move "alice" None
           Spec.third_roll Spec.third_dice).
  - vm_compute; reflexivity.
  - vm_compute; reflexivity.
  - vm_compute; reflexivity.
  - vm_compute; reflexivity.
  - vm_compute; discriminate.
Defined.

(** The whole turn of the example: two sixes, each followed by a move, then the
    third six.  Two moves are on record before the third roll and after it; the
    pieces are where the second move left them; Bob is to roll. *)
Example three_sixes_scenario :
  exists e',
    roll_dice 5 6 Spec.game_second_move "alice" None
      = Ok (RollPenalty Spec.third_roll "bob", e') /\
    length (moves_history Spec.game_second_move) = 2%nat /\
    moves_history e' = moves_history Spec.game_second_move /\
    players e' = players Spec.game_second_move /\
    current_user_id e' = Ok "bob"%string /\
    state e' = ROLLING.
Proof.
  eexists. split; [vm_compute; reflexivity |].
  repeat split; vm_compute; reflexivity.
Qed.

End ThreeSixes.

(** ** Rake tiers and fees (game_engine.py) *)

Section Rake.
Import GameEngine Spec.

Lemma fix_prec_fits (d : Dec.t) : fits d -> Dec.fix_prec d = d.
Proof.
  unfold fits, Dec.fix_prec, Dec.too_long, Dec.prec. intros H.
  destruct (Z.leb_spec (10 ^ 28) (Z.abs (Dec.coef d))); [lia | reflexivity].
Qed.

Lemma mul_exact (a b : Dec.t) : fits (exact_mul a b) -> Dec.mul a b = exact_mul a b.
Proof. intros H. unfold Dec.mul. apply (fix_prec_fits _ H). Qed.

Lemma sub_exact (a b : Dec.t) : fits (exact_sub a b) -> Dec.sub a b = exact_sub a b.
Proof.
  unfold Dec.sub, exact_sub. destruct (Dec.align a b) as [[x y] e].
  intros H. apply (fix_prec_fits _ H).
Qed.

Lemma quantize_exact (d : Dec.t) :
  fits (rounded_to_cents d) -> Dec.quantize d cent = Ok (rounded_to_cents d).
Proof.
  unfold fits, rounded_to_cents, Dec.quantize, cent. cbn [Dec.dexp]. intros H.
  destruct (Z.eqb_spec (Dec.coef d) 0) as [Hz | Hnz].
  - f_equal. unfold Dec.rescale, Dec.shift_round. rewrite Hz.
    destruct (-2 <=? Dec.dexp d); reflexivity.
  - unfold Dec.too_long, Dec.prec.
    destruct (Z.leb_spec (10 ^ 28) (Z.abs (Dec.coef (Dec.rescale d (-2)))));
      [lia | reflexivity].
Qed.

(** Comparing a decimal with whole numbers: both sides at a common scale. *)
Lemma compare_with_int (bet : Dec.t) :
  exists P X, 0 < P /\ forall k,
    Dec.leb (Dec.Dc k 0) bet = (k * P <=? X) /\
    Dec.leb bet (Dec.Dc k 0) = (X <=? k * P) /\
    Dec.ltb (Dec.Dc k 0) bet = (k * P <? X) /\
    Dec.ltb bet (Dec.Dc k 0) = (X <? k * P).
Proof.
  exists (10 ^ (0 - Z.min 0 (Dec.dexp bet))),
         (Dec.coef bet * 10 ^ (Dec.dexp bet - Z.min 0 (Dec.dexp bet))).
  split.
  - apply Z.pow_pos_nonneg; lia.
  - intros k. unfold Dec.leb, Dec.ltb, Dec.align. cbn [Dec.coef Dec.dexp].
    rewrite (Z.min_comm (Dec.dexp bet) 0). repeat split; reflexivity.
Qed.

Ltac by_scale bet :=
  let P := fresh "P" in
  let X := fresh "X" in
  let HP := fresh "HP" in
  let Hc := fresh "Hc" in
  destruct (compare_with_int bet) as (P & X & HP & Hc);
  unfold get_rake_tier, RAKE_TIERS, applies_to, tier_semilla, tier_competidor, tier_pro;
  cbn [List.find List.last min_bet max_bet rate level];
  repeat match goal with
         | H : context [Dec.leb _ _] |- _ =>
             first [ rewrite (proj1 (Hc _)) in H
                   | rewrite (proj1 (proj2 (Hc _))) in H ]
         | H : context [Dec.ltb _ _] |- _ =>
             first [ rewrite (proj1 (proj2 (proj2 (Hc _)))) in H
                   | rewrite (proj2 (proj2 (proj2 (Hc _)))) in H ]
         end;
  rewrite ?(proj1 (Hc 1)), ?(proj1 (Hc 11)), ?(proj1 (Hc 51)),
          ?(proj1 (proj2 (Hc 10))), ?(proj1 (proj2 (Hc 50))),
          ?(proj1 (proj2 (Hc 999999)));
  repeat match goal with
         | H : (_ <=? _) = true |- _ => apply Z.leb_le in H
         | H : (_ <? _) = true |- _ => apply Z.ltb_lt in H
         end;
  repeat match goal with
         | |- context [?a <=? ?b] => destruct (Z.leb_spec a b); try lia
         end;
  cbn [andb].

Lemma tier_of_small (bet : Dec.t) :
  Dec.leb (Dec.Dc 1 0) bet = true -> Dec.leb bet (Dec.Dc 10 0) = true ->
  get_rake_tier bet = tier_semilla.
Proof. intros H1 H2. by_scale bet; reflexivity. Qed.

Lemma tier_of_middle (bet : Dec.t) :
  Dec.leb (Dec.Dc 11 0) bet = true -> Dec.leb bet (Dec.Dc 50 0) = true ->
  get_rake_tier bet = tier_competidor.
Proof. intros H1 H2. by_scale bet; reflexivity. Qed.

Lemma tier_of_large (bet : Dec.t) :
  Dec.leb (Dec.Dc 51 0) bet = true -> get_rake_tier bet = tier_pro.
Proof. intros H1. by_scale bet; reflexivity. Qed.

Lemma calculate_fee_exact (bet : Dec.t) (n : Z) :
  let r := exact_fee bet (get_rake_tier bet) n in
  fits (exact_mul bet (rate (get_rake_tier bet))) ->
  fits (fee_per_player r) -> fits (total_pot r) -> fits (total_fee r) ->
  fits (winner_prize r) ->
  calculate_fee bet n = Ok r.
Proof.
  cbn zeta. unfold exact_fee. cbn [fee_per_player total_pot total_fee winner_prize].
  intros Hm Hf Hp Ht Hw. unfold calculate_fee.
  rewrite (mul_exact _ _ Hm), (quantize_exact _ Hf). cbn [bind].
  rewrite (mul_exact _ _ Hp), (mul_exact _ _ Ht), (sub_exact _ _ Hw). reflexivity.
Qed.

(** C4 (as the code has it). For every finite bet the rate is 8% on [1,10], 6%
    on [11,50] and 5% from 51 on; and whenever the exact values of bet * rate,
    of its rounding to two decimals (half to even), of bet * players, of
    fee * players and of pot - fee are each written with at most 28 digits and
    lie within the exponent limits of the context (exponent at least
    Etiny = -1000026, adjusted exponent at most Emax = 999999),
    [calculate_fee] returns exactly these values.  For a bet of 25 and two
    players: fee 1.50 each, pot 50, total fee 3.00, prize 47.00. *)
Theorem rake_rate_and_exact_fee (bet : Dec.t) (n : Z) :
  (Dec.leb (Dec.Dc 1 0) bet = true -> Dec.leb bet (Dec.Dc 10 0) = true ->
   rate (get_rake_tier bet) = Dec.Dc 8 (-2)) /\
  (Dec.leb (Dec.Dc 11 0) bet = true -> Dec.leb bet (Dec.Dc 50 0) = true ->
   rate (get_rake_tier bet) = Dec.Dc 6 (-2)) /\
  (Dec.leb (Dec.Dc 51 0) bet = true ->
   rate (get_rake_tier bet) = Dec.Dc 5 (-2)) /\
  (representable (exact_mul bet (rate (get_rake_tier bet))) ->
   representable (fee_per_player (exact_fee bet (get_rake_tier bet) n)) ->
   representable (total_pot (exact_fee bet (get_rake_tier bet) n)) ->
   representable (total_fee (exact_fee bet (get_rake_tier bet) n)) ->
   representable (winner_prize (exact_fee bet (get_rake_tier bet) n)) ->
   calculate_fee bet n = Ok (exact_fee bet (get_rake_tier bet) n)) /\
  calculate_fee (Dec.Dc 25 0) 2
  = Ok (mkFeeResult (Dec.Dc 25 0) (Dec.Dc 150 (-2)) (Dec.Dc 50 0) (Dec.Dc 300 (-2))
          (Dec.Dc 4700 (-2)) (Dec.Dc 6 (-2)) COMPETIDOR).
Proof.
  split; [intros H1 H2; rewrite (tier_of_small bet H1 H2); reflexivity |].
  split; [intros H1 H2; rewrite (tier_of_middle bet H1 H2); reflexivity |].
  split; [intros H1; rewrite (tier_of_large bet H1); reflexivity |].
  split; [| vm_compute; reflexivity].
  intros [Hm _] [Hf _] [Hp _] [Ht _] [Hw _].
  apply calculate_fee_exact; assumption.
Qed.

Lemma rake_rate_and_exact_fee_witness :
  representable (exact_mul (Dec.Dc 25 0) (rate (get_rake_tier (Dec.Dc 25 0)))) /\
  representable (fee_per_player (exact_fee (Dec.Dc 25 0) (get_rake_tier (Dec.Dc 25 0)) 2)) /\
  representable (total_pot (exact_fee (Dec.Dc 25 0) (get_rake_tier (Dec.Dc 25 0)) 2)) /\
  representable (total_fee (exact_fee (Dec.Dc 25 0) (get_rake_tier (Dec.Dc 25 0)) 2)) /\
  representable (winner_prize (exact_fee (Dec.Dc 25 0) (get_rake_tier (Dec.Dc 25 0)) 2)) /\
  Dec.leb (Dec.Dc 11 0) (Dec.Dc 25 0) = true /\
  Dec.leb (Dec.Dc 25 0) (Dec.Dc 50 0) = true /\
  rate (get_rake_tier (Dec.Dc 25 0)) = Dec.Dc 6 (-2) /\
  calculate_fee (Dec.Dc 25 0) 2
  = Ok (exact_fee (Dec.Dc 25 0) (get_rake_tier (Dec.Dc 25 0)) 2).
Proof.
  do 5 (split; [split; vm_compute; reflexivity |]).
  do 2 (split; [vm_compute; reflexivity |]).
  split.
  - apply (proj1 (proj2 (rake_rate_and_exact_fee (Dec.Dc 25 0) 2)));
      vm_compute; reflexivity.
  - apply (proj1 (proj2 (proj2 (proj2 (rake_rate_and_exact_fee (Dec.Dc 25 0) 2)))));
      split; vm_compute; reflexivity.
Defined.

(** The fee formulas do not hold on large bets: a bet of 1E+28 is in the 5% range,
    and rounding its fee to two decimals needs 29 digits. *)
Lemma fee_of_huge_bet_raises :
  Dec.leb (Dec.Dc 51 0) (Dec.Dc 1 28) = true /\
  rate (get_rake_tier (Dec.Dc 1 28)) = Dec.Dc 5 (-2) /\
  calculate_fee (Dec.Dc 1 28) 2 = Raise InvalidOperation.
Proof. vm_compute. repeat split; reflexivity. Qed.

(** Below that, a bet written with 29 digits is rounded: the pot of two bets of
    1.0000000000000000000000000001 is not twice the bet. *)
Example pot_of_long_bet_is_rounded :
  exists r,
    calculate_fee (Dec.Dc 10000000000000000000000000001 (-28)) 2 = Ok r /\
    total_pot r = Dec.Dc 2000000000000000000000000000 (-27) /\
    exact_mul (Dec.Dc 10000000000000000000000000001 (-28)) (Dec.of_int 2)
    = Dec.Dc 20000000000000000000000000002 (-28).
Proof. eexists. vm_compute. repeat split; reflexivity. Qed.

(** C10. A bet outside every declared range (below 1, strictly between 10 and
    11, or strictly between 50 and 51) fails the range check of each of the
    three tiers; [get_rake_tier] then returns the PRO tier, and [calculate_fee]
    computes the fee at 5% and reports rate 0.05 and level PRO. *)
Theorem gap_bets_fall_to_pro (bet : Dec.t) :
  Dec.ltb bet (Dec.Dc 1 0) = true
  \/ (Dec.ltb (Dec.Dc 10 0) bet = true /\ Dec.ltb bet (Dec.Dc 11 0) = true)
  \/ (Dec.ltb (Dec.Dc 50 0) bet = true /\ Dec.ltb bet (Dec.Dc 51 0) = true) ->
  Forall (fun tier => applies_to tier bet = false) RAKE_TIERS /\
  get_rake_tier bet = tier_pro /\
  forall n,
    calculate_fee bet n
    = (fee <- Dec.quantize (Dec.mul bet (Dec.Dc 5 (-2))) cent ;;
       Ok (mkFeeResult bet fee (Dec.mul bet (Dec.of_int n)) (Dec.mul fee (Dec.of_int n))
             (Dec.sub (Dec.mul bet (Dec.of_int n)) (Dec.mul fee (Dec.of_int n)))
             (Dec.Dc 5 (-2)) PRO)).
Proof.
  intros Hgap.
  assert (Hnone : Forall (fun tier => applies_to tier bet = false) RAKE_TIERS).
  { destruct Hgap as [H | [[H1 H2] | [H1 H2]]];
      (by_scale bet; repeat constructor; cbn [min_bet max_bet];
       rewrite ?(proj1 (Hc 1)), ?(proj1 (Hc 11)), ?(proj1 (Hc 51)),
               ?(proj1 (proj2 (Hc 10))), ?(proj1 (proj2 (Hc 50))),
               ?(proj1 (proj2 (Hc 999999)));
       apply andb_false_iff;
       first [ left; apply Z.leb_gt; lia | right; apply Z.leb_gt; lia ]). }
  assert (Htier : get_rake_tier bet = tier_pro).
  { unfold get_rake_tier, RAKE_TIERS in *.
    inversion Hnone as [| t1 l1 E1 Hr1]; subst.
    inversion Hr1 as [| t2 l2 E2 Hr2]; subst.
    inversion Hr2 as [| t3 l3 E3 Hr3]; subst.
    cbn [List.find]. rewrite E1, E2, E3. reflexivity. }
  split; [exact Hnone |]. split; [exact Htier |].
  intros n. unfold calculate_fee. rewrite Htier. reflexivity.
Qed.

Lemma gap_bets_fall_to_pro_witness :
  (Dec.ltb (Dec.Dc 105 (-1)) (Dec.Dc 1 0) = true
   \/ (Dec.ltb (Dec.Dc 10 0) (Dec.Dc 105 (-1)) = true
       /\ Dec.ltb (Dec.Dc 105 (-1)) (Dec.Dc 11 0) = true)
   \/ (Dec.ltb (Dec.Dc 50 0) (Dec.Dc 105 (-1)) = true
       /\ Dec.ltb (Dec.Dc 105 (-1)) (Dec.Dc 51 0) = true)) /\
  get_rake_tier (Dec.Dc 105 (-1)) = tier_pro.
Proof.
  assert (H : Dec.ltb (Dec.Dc 105 (-1)) (Dec.Dc 1 0) = true
              \/ (Dec.ltb (Dec.Dc 10 0) (Dec.Dc 105 (-1)) = true
                  /\ Dec.ltb (Dec.Dc 105 (-1)) (Dec.Dc 11 0) = true)
              \/ (Dec.ltb (Dec.Dc 50 0) (Dec.Dc 105 (-1)) = true
                  /\ Dec.ltb (Dec.Dc 105 (-1)) (Dec.Dc 51 0) = true)).
  { right. left. split; vm_compute; reflexivity. }
  split; [exact H |].
  exact (proj1 (proj2 (gap_bets_fall_to_pro (Dec.Dc 105 (-1)) H))).
Defined.

(** A bet of 10.5 for two players: 5% of 10.5 is 0.525, rounded half to even
    to 0.52. *)
Example fee_of_ten_and_a_half :
  calculate_fee (Dec.Dc 105 (-1)) 2
  = Ok (mkFeeResult (Dec.Dc 105 (-1)) (Dec.Dc 52 (-2)) (Dec.Dc 210 (-1)) (Dec.Dc 104 (-2))
          (Dec.Dc 1996 (-2)) (Dec.Dc 5 (-2)) PRO).
Proof. vm_compute. reflexivity. Qed.

(** ** The settlement entry (game_engine.py) *)

Lemma leb_whole (a b : Z) : Dec.leb (Dec.Dc a 0) (Dec.Dc b 0) = (a <=? b).
Proof.
  unfold Dec.leb, Dec.align. cbn [Dec.coef Dec.dexp].
  change (10 ^ (0 - Z.min 0 0)) with 1. rewrite !Z.mul_1_r. reflexivity.
Qed.

(** The fee table of a whole-number bet at a rate of [r] percent. *)
Lemma fee_of_whole_bet (n r : Z) :
  1 <= n <= 999999 -> 1 <= r <= 8 ->
  rate (get_rake_tier (Dec.Dc n 0)) = Dec.Dc r (-2) ->
  exists lv,
    calculate_fee (Dec.Dc n 0) 2
    = Ok (mkFeeResult (Dec.Dc n 0) (Dec.Dc (n * r) (-2)) (Dec.Dc (n * 2) 0)
            (Dec.Dc (n * r * 2) (-2)) (Dec.Dc (n * 2 * 100 - n * r * 2) (-2))
            (Dec.Dc r (-2)) lv).
Proof.
  intros Hn Hr Hrate. exists (level (get_rake_tier (Dec.Dc n 0))).
  assert (E : exact_fee (Dec.Dc n 0) (get_rake_tier (Dec.Dc n 0)) 2
              = mkFeeResult (Dec.Dc n 0) (Dec.Dc (n * r) (-2)) (Dec.Dc (n * 2) 0)
                  (Dec.Dc (n * r * 2) (-2)) (Dec.Dc (n * 2 * 100 - n * r * 2) (-2))
                  (Dec.Dc r (-2)) (level (get_rake_tier (Dec.Dc n 0)))).
  { unfold exact_fee, rounded_to_cents, exact_mul, exact_sub, Dec.rescale, Dec.align,
      Dec.of_int.
    rewrite Hrate. cbn [Dec.coef Dec.dexp].
    change (0 + -2) with (-2). change (-2 <=? -2) with true. cbv iota.
    change (-2 - -2) with 0. change (10 ^ 0) with 1.
    change (0 + 0) with 0. change (-2 + 0) with (-2).
    change (Z.min 0 (-2)) with (-2). change (0 - -2) with 2.
    change (10 ^ 2) with 100. change (-2 - -2) with 0. change (10 ^ 0) with 1.
    rewrite !Z.mul_1_r. reflexivity. }
  rewrite <- E. apply calculate_fee_exact; rewrite ?E, ?Hrate; unfold fits, exact_mul;
    cbn [Dec.coef Dec.dexp fee_per_player total_pot total_fee winner_prize]; nia.
Qed.

(** C1 (what the code does). For every whole-number bet from 1 to 999999
    [create_match_settlement] raises [ValueError]: the entry it builds debits
    one bet, while the prize credited plus the rake is the pot of two bets, so
    its own balance check fails and nothing is stored. *)
Theorem settlement_of_whole_bet_raises (now_int : Z) (now : float)
    (ledger : TreasuryLedger) (mid winner_id loser_id : string) (n : Z)
    (winner_balance loser_balance : Dec.t) :
  1 <= n <= 999999 ->
  create_match_settlement now_int now ledger mid winner_id loser_id (Dec.Dc n 0)
    winner_balance loser_balance = Raise ValueError.
Proof.
  intros Hn.
  assert (Hfee : exists r lv, 1 <= r <= 8 /\
            calculate_fee (Dec.Dc n 0) 2
            = Ok (mkFeeResult (Dec.Dc n 0) (Dec.Dc (n * r) (-2)) (Dec.Dc (n * 2) 0)
                    (Dec.Dc (n * r * 2) (-2)) (Dec.Dc (n * 2 * 100 - n * r * 2) (-2))
                    (Dec.Dc r (-2)) lv)).
  { destruct (Z.le_gt_cases n 10) as [H10 | H10].
    - destruct (fee_of_whole_bet n 8) as [lv E]; [lia | lia | | exists 8, lv; split; [lia | exact E]].
      rewrite tier_of_small; [reflexivity | |]; rewrite leb_whole; apply Z.leb_le; lia.
    - destruct (Z.le_gt_cases n 50) as [H50 | H50].
      + destruct (fee_of_whole_bet n 6) as [lv E]; [lia | lia | | exists 6, lv; split; [lia | exact E]].
        rewrite tier_of_middle; [reflexivity | |]; rewrite leb_whole; apply Z.leb_le; lia.
      + destruct (fee_of_whole_bet n 5) as [lv E]; [lia | lia | | exists 5, lv; split; [lia | exact E]].
        rewrite tier_of_large; [reflexivity |]; rewrite leb_whole; apply Z.leb_le; lia. }
  destruct Hfee as (r & lv & Hr & Hfee).
  unfold create_match_settlement. rewrite Hfee. cbn [bind winner_prize total_fee].
  match goal with
  | |- (if negb (validate_balance_equation ?e) then _ else _) = _ =>
      assert (Hv : validate_balance_equation e = false)
  end.
  { unfold validate_balance_equation.
    cbn [debit_amount credit_amount rake_amount].
    unfold Dec.add, Dec.align. cbn [Dec.coef Dec.dexp].
    change (Z.min (-2) (-2)) with (-2). change (-2 - -2) with 0. change (10 ^ 0) with 1.
    rewrite !Z.mul_1_r.
    rewrite fix_prec_fits by (unfold fits; cbn [Dec.coef]; nia).
    unfold Dec.eqb, Dec.align. cbn [Dec.coef Dec.dexp].
    change (Z.min 0 (-2)) with (-2). change (0 - -2) with 2. change (-2 - -2) with 0.
    change (10 ^ 2) with 100. change (10 ^ 0) with 1.
    apply Z.eqb_neq. nia. }
  rewrite Hv. reflexivity.
Qed.

Lemma settlement_of_whole_bet_raises_witness :
  1 <= 25 <= 999999 /\
  create_match_settlement 1700000000 0 TreasuryLedger_init sample_match_id "alice" "bob"
    (Dec.Dc 25 0) (Dec.Dc 10000 (-2)) (Dec.Dc 10000 (-2)) = Raise ValueError.
Proof.
  split; [lia |].
  apply (settlement_of_whole_bet_raises 1700000000 0 TreasuryLedger_init sample_match_id
           "alice" "bob" 25 (Dec.Dc 10000 (-2)) (Dec.Dc 10000 (-2))).
  lia.
Defined.

(** The same call on the happy-path figures of the specification, evaluated:
    bet 25, both balances 100.00.  Debit 25 against credit 47.00 plus rake
    3.00. *)
Example settlement_of_25_raises :
  create_match_settlement 1700000000 0 TreasuryLedger_init sample_match_id "alice" "bob"
    (Dec.Dc 25 0) (Dec.Dc 10000 (-2)) (Dec.Dc 10000 (-2)) = Raise ValueError
  /\ Dec.add (Dec.Dc 4700 (-2)) (Dec.Dc 300 (-2)) = Dec.Dc 5000 (-2)
  /\ Dec.eqb (Dec.Dc 25 0) (Dec.Dc 5000 (-2)) = false.
Proof. vm_compute. repeat split; reflexivity. Qed.

End Rake.

(** ** Game over and settlement (websocket_handler.py) *)

Section GameOverFacts.
Import WebsocketHandler Spec.

Variable settle_escrow : UUID -> UUID -> UUID -> Dec.t -> Dec.t -> bool.
Variable UUID_of_hex : string -> res UUID.

(** The [try] block never changes the state of the room. *)
Lemma try_settlement_keeps_state (clk : HandlerClock) (w : World)
    (mid winner_id loser_id : UUID) (room0 : MatchRoom) (fee : GameEngine.FeeResult)
    (wb lb : Dec.t) (room : MatchRoom) :
  active_matches (match_manager w) !! mid = Some room ->
  exists room',
    active_matches (match_manager
      (snd (try_settlement settle_escrow clk w mid winner_id loser_id room0 fee wb lb)))
      !! mid = Some room' /\
    state room' = state room.
Proof.
  intros Hroom. unfold try_settlement.
  destruct (GameEngine.create_match_settlement _ _ _ _ _ _ _ _ _) as [[entry ledger] | e].
  - destruct (settle_escrow _ _ _ _ _); cbn [snd match_manager with_matches active_matches];
      rewrite lookup_alter_eq, Hroom; cbn; eexists; split; reflexivity.
  - cbn [snd]. exists room. split; [exact Hroom | reflexivity].
Qed.

(** A winner that [UUID] refuses ends the handler before anything is done. *)
Lemma unparsed_winner_raises (clk : HandlerClock) (w : World) (mid : UUID)
    (room : MatchRoom) (winner : string) (e : exn) :
  active_matches (match_manager w) !! mid = Some room ->
  winner <> ""%string ->
  UUID_of_hex winner = Raise e ->
  _handle_ludo_game_over settle_escrow UUID_of_hex clk w mid (Some winner) = Raise e.
Proof.
  intros Hroom Hne Hparse. unfold _handle_ludo_game_over, winner_of. rewrite Hroom.
  destruct (String.eqb_spec winner "") as [E | _]; [contradiction |].
  rewrite Hparse. reflexivity.
Qed.

(** Whatever the settlement did, a room that entered the handler in VALIDATION
    or SETTLEMENT leaves it COMPLETED. *)
Lemma game_over_always_completes (clk : HandlerClock) (w : World) (mid : UUID)
    (winner : option string) (room r : MatchRoom) (w' : World) :
  active_matches (match_manager w) !! mid = Some room ->
  state room = VALIDATION \/ state room = SETTLEMENT ->
  _handle_ludo_game_over settle_escrow UUID_of_hex clk w mid winner = Ok (r, w') ->
  state r = COMPLETED.
Proof.
  intros Hroom Hst. unfold _handle_ludo_game_over. rewrite Hroom.
  destruct (winner_of UUID_of_hex winner) as [parsed | e]; cbn [bind]; [| discriminate].
  set (m1 := snd (transition_state (t_settlement clk) (match_manager w) mid SETTLEMENT)).
  assert (H1 : exists room1, active_matches m1 !! mid = Some room1
                             /\ state room1 = SETTLEMENT).
  { subst m1. unfold transition_state. rewrite Hroom.
    destruct Hst as [Hs | Hs]; rewrite Hs; cbn.
    - eexists. split; [apply lookup_insert_eq | reflexivity].
    - exists room. split; [exact Hroom | exact Hs]. }
  destruct H1 as (room1 & Hroom1 & Hst1).
  destruct (GameEngine.calculate_fee (bet_amount room) 2) as [fee | e];
    cbn [bind]; [| discriminate].
  match goal with
  | |- bind ?m _ = _ -> _ =>
      assert (H2 : forall w2, m = Ok w2 ->
                     exists room2, active_matches (match_manager w2) !! mid = Some room2
                                   /\ state room2 = SETTLEMENT);
      [| destruct m as [w2 | e]; cbn [bind]; [| discriminate];
         destruct (H2 w2 eq_refl) as (room2 & Hroom2 & Hst2); clear H2 ]
  end.
  { intros w2.
    destruct parsed as [winner_id |];
      [| intros E; injection E as <-; exists room1; split; assumption].
    destruct (map fst (players room)) as [| p0 [| p1 [| p2 rest]]];
      try (intros E; injection E as <-; exists room1; split; assumption).
    destruct (conn_of winner_id (players room)) as [wc | e]; cbn [bind]; [| discriminate].
    destruct (conn_of _ (players room)) as [lc | e]; cbn [bind]; [| discriminate].
    match goal with
    | |- context [try_settlement ?s ?c ?w0 ?i ?a ?b ?rm ?f ?x ?y] =>
        destruct (try_settlement_keeps_state c w0 i a b rm f x y room1 Hroom1)
          as (room2 & Hroom2 & Hst2);
        destruct (try_settlement s c w0 i a b rm f x y) as [[e |] w3]
    end; cbn [snd] in Hroom2; intros E; injection E as <-;
      exists room2; cbn [match_manager]; split; congruence. }
  cbn [match_manager].
  unfold transition_state. rewrite Hroom2, Hst2. cbn.
  rewrite lookup_insert_eq. cbn. intros E. injection E as <- _. reflexivity.
Qed.

Lemma create_keeps_committed (now_int : Z) (now : float) (l l' : GameEngine.TreasuryLedger)
    (mid wi li : string) (bet wb lb : Dec.t) (entry : GameEngine.LedgerEntry) :
  GameEngine.create_match_settlement now_int now l mid wi li bet wb lb = Ok (entry, l') ->
  GameEngine.entries l' = GameEngine.entries l /\
  GameEngine.treasury_balance l' = GameEngine.treasury_balance l.
Proof.
  unfold GameEngine.create_match_settlement.
  destruct (GameEngine.calculate_fee bet 2) as [fee | e]; cbn [bind]; [| discriminate].
  match goal with
  | |- (if ?c then _ else _) = _ -> _ => destruct c; [discriminate |]
  end.
  intros E. injection E as _ <-. split; reflexivity.
Qed.

Lemma rollback_keeps_committed (l : GameEngine.TreasuryLedger) (eid : string) :
  GameEngine.entries (snd (GameEngine.rollback_entry l eid)) = GameEngine.entries l /\
  GameEngine.treasury_balance (snd (GameEngine.rollback_entry l eid))
  = GameEngine.treasury_balance l.
Proof.
  unfold GameEngine.rollback_entry.
  destruct (GameEngine.pending_entries l !! eid); split; reflexivity.
Qed.

(** C2 (what the code does). Take a room that reaches the game-over handler in
    VALIDATION or SETTLEMENT, with its two players, a result whose winner is a
    string that [UUID] parses to the id of one of them, and a fee that can be
    computed.  Whenever the settlement fails (the entry cannot be created, or
    the escrow step reports failure and the entry is rolled back), the handler
    emits the error, then the final result, and leaves the room COMPLETED and
    removed from the active matches, with nothing added to the committed
    entries or to the treasury balance. *)
Theorem failed_settlement_still_completes (clk : HandlerClock) (w : World) (mid : UUID)
    (room : MatchRoom) (winner : string) (winner_id loser_id p0 p1 : UUID)
    (wc lc : PlayerConnection) (fee : GameEngine.FeeResult) :
  active_matches (match_manager w) !! mid = Some room ->
  state room = VALIDATION \/ state room = SETTLEMENT ->
  winner <> ""%string ->
  UUID_of_hex winner = Ok winner_id ->
  GameEngine.calculate_fee (bet_amount room) 2 = Ok fee ->
  map fst (players room) = [p0; p1] ->
  loser_id = (if String.eqb p1 winner_id then p0 else p1) ->
  conn_of winner_id (players room) = Ok wc ->
  conn_of loser_id (players room) = Ok lc ->
  settlement_fails settle_escrow clk (treasury_ledger w) mid winner_id loser_id
    (bet_amount room) (balance_at_lock wc) (balance_at_lock lc) fee ->
  exists r w',
    _handle_ludo_game_over settle_escrow UUID_of_hex clk w mid (Some winner) = Ok (r, w') /\
    state r = COMPLETED /\
    active_matches (match_manager w') !! mid = None /\
    emitted w' = emitted w ++ ["error"; "ludo:game_over"]%string /\
    GameEngine.entries (treasury_ledger w') = GameEngine.entries (treasury_ledger w) /\
    GameEngine.treasury_balance (treasury_ledger w')
    = GameEngine.treasury_balance (treasury_ledger w).
Proof.
  intros Hroom Hst Hne Hparse Hfee Hplayers Hloser Hwc Hlc Hfail.
  unfold _handle_ludo_game_over, winner_of. rewrite Hroom.
  destruct (String.eqb_spec winner "") as [E | _]; [contradiction |].
  rewrite Hparse. cbn [bind].
  set (m1 := snd (transition_state (t_settlement clk) (match_manager w) mid SETTLEMENT)).
  assert (H1 : exists room1, active_matches m1 !! mid = Some room1
                             /\ state room1 = SETTLEMENT).
  { subst m1. unfold transition_state. rewrite Hroom.
    destruct Hst as [Hs | Hs]; rewrite Hs; cbn.
    - eexists. split; [apply lookup_insert_eq | reflexivity].
    - exists room. split; [exact Hroom | exact Hs]. }
  destruct H1 as (room1 & Hroom1 & Hst1).
  rewrite Hfee. cbn [bind]. rewrite Hplayers. rewrite <- Hloser.
  rewrite Hwc. cbn [bind]. rewrite Hlc. cbn [bind].
  unfold try_settlement. cbn [treasury_ledger match_manager ludo_games emitted].
  destruct Hfail as [[e Hraise] | (entry & ledger' & Hcreate & Hescrow)].
  - rewrite Hraise. cbn [bind match_manager treasury_ledger ludo_games emitted].
    unfold transition_state. rewrite Hroom1, Hst1. cbn.
    rewrite lookup_insert_eq. cbn.
    eexists _, _. split; [reflexivity |].
    split; [reflexivity |].
    split. { unfold cleanup_match. cbn. rewrite lookup_insert_eq. cbn.
             apply lookup_delete_eq. }
    split. { rewrite <- app_assoc. reflexivity. }
    split; reflexivity.
  - rewrite Hcreate, Hescrow.
    cbn [bind match_manager treasury_ledger ludo_games emitted with_matches active_matches].
    unfold transition_state. cbn [active_matches with_matches].
    rewrite lookup_alter_eq, Hroom1. cbn [fmap option_fmap option_map state set_ledger_entry_id].
    rewrite Hst1. cbn.
    rewrite lookup_insert_eq. cbn.
    destruct (create_keeps_committed _ _ _ _ _ _ _ _ _ _ _ Hcreate) as [He Hb].
    destruct (rollback_keeps_committed ledger' (GameEngine.entry_id entry)) as [He' Hb'].
    eexists _, _. split; [reflexivity |].
    split; [reflexivity |].
    split. { unfold cleanup_match. cbn. rewrite lookup_insert_eq. cbn.
             apply lookup_delete_eq. }
    split. { rewrite <- app_assoc. reflexivity. }
    cbn [treasury_ledger]. split; congruence.
Qed.

End GameOverFacts.

Lemma failed_settlement_still_completes_witness :
  WebsocketHandler.state (Spec.game_room WebsocketHandler.VALIDATION (Dec.Dc 25 0))
    = WebsocketHandler.VALIDATION /\
  Spec.uuid_of_canonical "a11ce000-0000-4000-8000-00000000000a" = Ok Spec.alice_id /\
  Spec.settlement_fails WebsocketHandler._settle_escrow Spec.sample_clock
    GameEngine.TreasuryLedger_init Spec.sample_match_id Spec.alice_id Spec.bob_id
    (Dec.Dc 25 0) (Dec.Dc 10000 (-2)) (Dec.Dc 10000 (-2))
    (GameEngine.mkFeeResult (Dec.Dc 25 0) (Dec.Dc 150 (-2)) (Dec.Dc 50 0) (Dec.Dc 300 (-2))
       (Dec.Dc 4700 (-2)) (Dec.Dc 6 (-2)) GameEngine.COMPETIDOR) /\
  exists r w',
    WebsocketHandler._handle_ludo_game_over WebsocketHandler._settle_escrow
      Spec.uuid_of_canonical Spec.sample_clock
      (Spec.game_world WebsocketHandler.VALIDATION (Dec.Dc 25 0))
      Spec.sample_match_id (Some "a11ce000-0000-4000-8000-00000000000a"%string)
    = Ok (r, w') /\
    WebsocketHandler.state r = WebsocketHandler.COMPLETED /\
    WebsocketHandler.active_matches (WebsocketHandler.match_manager w')
      !! Spec.sample_match_id = None /\
    WebsocketHandler.emitted w'
    = WebsocketHandler.emitted
        (Spec.game_world WebsocketHandler.VALIDATION (Dec.Dc 25 0))
      ++ ["error"; "ludo:game_over"]%string /\
    GameEngine.entries (WebsocketHandler.treasury_ledger w')
    = GameEngine.entries
        (WebsocketHandler.treasury_ledger
           (Spec.game_world WebsocketHandler.VALIDATION (Dec.Dc 25 0))) /\
    GameEngine.treasury_balance (WebsocketHandler.treasury_ledger w')
    = GameEngine.treasury_balance
        (WebsocketHandler.treasury_ledger
           (Spec.game_world WebsocketHandler.VALIDATION (Dec.Dc 25 0))).
Proof.
  assert (Hfail : Spec.settlement_fails WebsocketHandler._settle_escrow
            Spec.sample_clock GameEngine.TreasuryLedger_init Spec.sample_match_id
            Spec.alice_id Spec.bob_id (Dec.Dc 25 0) (Dec.Dc 10000 (-2)) (Dec.Dc 10000 (-2))
            (GameEngine.mkFeeResult (Dec.Dc 25 0) (Dec.Dc 150 (-2)) (Dec.Dc 50 0)
               (Dec.Dc 300 (-2)) (Dec.Dc 4700 (-2)) (Dec.Dc 6 (-2))
               GameEngine.COMPETIDOR)).
  { left. exists ValueError. vm_compute. reflexivity. }
  split; [reflexivity |]. split; [vm_compute; reflexivity |]. split; [exact Hfail |].
  apply (failed_settlement_still_completes WebsocketHandler._settle_escrow
           Spec.uuid_of_canonical Spec.sample_clock
           (Spec.game_world WebsocketHandler.VALIDATION (Dec.Dc 25 0))
           Spec.sample_match_id
           (Spec.game_room WebsocketHandler.VALIDATION (Dec.Dc 25 0))
           "a11ce000-0000-4000-8000-00000000000a"
           Spec.alice_id Spec.bob_id Spec.alice_id Spec.bob_id
           (Spec.sample_connection Spec.alice_id) (Spec.sample_connection Spec.bob_id)
           (GameEngine.mkFeeResult (Dec.Dc 25 0) (Dec.Dc 150 (-2)) (Dec.Dc 50 0)
              (Dec.Dc 300 (-2)) (Dec.Dc 4700 (-2)) (Dec.Dc 6 (-2))
              GameEngine.COMPETIDOR)).
  - reflexivity.
  - left. reflexivity.
  - discriminate.
  - vm_compute. reflexivity.
  - vm_compute. reflexivity.
  - reflexivity.
  - reflexivity.
  - reflexivity.
  - reflexivity.
  - exact Hfail.
Defined.

(** The happy-path figures of the specification, evaluated.  A room in
    VALIDATION whose game ends with a bet of 25, the engine reporting the
    winner under her id: the settlement entry cannot be created (the ledger
    raises), the handler reports the error to the room, and the room is
    nevertheless moved to COMPLETED and removed, with nothing committed or
    pending in the ledger. *)
Example game_over_completes_after_failed_settlement :
  exists r w',
    WebsocketHandler._handle_ludo_game_over WebsocketHandler._settle_escrow
      Spec.uuid_of_canonical Spec.sample_clock
      (Spec.game_world WebsocketHandler.VALIDATION (Dec.Dc 25 0))
      Spec.sample_match_id (Some "a11ce000-0000-4000-8000-00000000000a"%string)
    = Ok (r, w') /\
    WebsocketHandler.state r = WebsocketHandler.COMPLETED /\
    WebsocketHandler.ledger_entry_id r = None /\
    GameEngine.entries (WebsocketHandler.treasury_ledger w') = [] /\
    GameEngine.pending_entries (WebsocketHandler.treasury_ledger w') = ∅ /\
    WebsocketHandler.emitted w' = ["error"; "ludo:game_over"]%string /\
    WebsocketHandler.active_matches (WebsocketHandler.match_manager w')
      !! Spec.sample_match_id = None.
Proof.
  eexists _, _. split; [vm_compute; reflexivity |].
  repeat split; vm_compute; reflexivity.
Qed.

(** The other failure: the entry is created (a bet of 0 balances), the escrow
    step reports failure, the entry is rolled back, and the room is COMPLETED
    all the same. *)
Example game_over_completes_after_failed_escrow :
  exists r w',
    WebsocketHandler._handle_ludo_game_over (fun _ _ _ _ _ => false)
      Spec.uuid_of_canonical Spec.sample_clock
      (Spec.game_world WebsocketHandler.VALIDATION (Dec.Dc 0 0))
      Spec.sample_match_id (Some "a11ce000-0000-4000-8000-00000000000a"%string)
    = Ok (r, w') /\
    WebsocketHandler.state r = WebsocketHandler.COMPLETED /\
    WebsocketHandler.ledger_entry_id r = Some "LED-3f2c1a9e-1700000000"%string /\
    GameEngine.entries (WebsocketHandler.treasury_ledger w') = [] /\
    GameEngine.pending_entries (WebsocketHandler.treasury_ledger w') = ∅ /\
    WebsocketHandler.emitted w' = ["error"; "ludo:game_over"]%string.
Proof.
  eexists _, _. split; [vm_compute; reflexivity |].
  repeat split; vm_compute; reflexivity.
Qed.

(** A winner that is not the string of an id, such as a bare name, makes
    [UUID] raise [ValueError]: the handler is left at its first line and the
    room is not touched. *)
Example game_over_with_a_name_for_winner :
  WebsocketHandler._handle_ludo_game_over WebsocketHandler._settle_escrow
    Spec.uuid_of_canonical Spec.sample_clock
    (Spec.game_world WebsocketHandler.VALIDATION (Dec.Dc 25 0))
    Spec.sample_match_id (Some "alice"%string)
  = Raise ValueError.
Proof. vm_compute. reflexivity. Qed.

(** From IN_PROGRESS, the state in which board games are played, both
    transitions of the handler are refused: the room is removed while still
    IN_PROGRESS. *)
Example game_over_from_in_progress :
  exists r w',
    WebsocketHandler._handle_ludo_game_over WebsocketHandler._settle_escrow
      Spec.uuid_of_canonical Spec.sample_clock
      (Spec.game_world WebsocketHandler.IN_PROGRESS (Dec.Dc 25 0))
      Spec.sample_match_id (Some "a11ce000-0000-4000-8000-00000000000a"%string)
    = Ok (r, w') /\
    WebsocketHandler.state r = WebsocketHandler.IN_PROGRESS /\
    WebsocketHandler.active_matches (WebsocketHandler.match_manager w')
      !! Spec.sample_match_id = None.
Proof.
  eexists _, _. split; [vm_compute; reflexivity |].
  split; vm_compute; reflexivity.
Qed.

(** ** Spikes and the jitter score (jitter_detector.py) *)

Section JitterFacts.
Import Jitter Spec.

Variable upper : string -> string.
Variable mean : list float -> float.

(** What [_analyze_jitter] leaves in the profile and reports, once a baseline
    exists and the deviation could be computed. *)
Lemma analyze_jitter_established (p : LatencyProfile) (s : HeartbeatSample) (nd : float) :
  PrimFloat.eqb (baseline_rtt p) 0 = false ->
  normalized_deviation_of p s = Ok nd ->
  exists a p',
    _analyze_jitter upper mean p s = Ok (a, p') /\
    current_jitter a = nd /\
    spike_timestamps p' = spike_timestamps (record_sample upper p s (is_spike s nd)) /\
    spikes_during_critical p'
      = spikes_during_critical (record_sample upper p s (is_spike s nd)) /\
    total_critical_moments p'
      = total_critical_moments (record_sample upper p s (is_spike s nd)) /\
    jitter_score a
      = (if timing_pattern p'
         then Py.fmin 100 (PrimFloat.add (_calculate_jitter_score p' nd) 30)
         else _calculate_jitter_score p' nd).
Proof.
  intros Hbase Hnd. unfold _analyze_jitter. rewrite Hbase, Hnd. cbn [bind].
  eexists _, _. split; [reflexivity |].
  cbn [current_jitter jitter_score].
  set (p1 := record_sample upper p s (is_spike s nd)).
  match goal with
  | |- context [if ?c then mkProfile _ _ _ _ _ _ _ true _ _ _ _ _ else _] => destruct c
  end; cbn [spike_timestamps spikes_during_critical total_critical_moments];
    repeat split; reflexivity.
Qed.

(** C6 (as the code has it). With a baseline established, a sample is a spike
    exactly when its RTT is strictly above 500 ms or its normalised deviation is
    strictly above 2.5.  At an RTT of exactly 500 the deviation alone decides,
    and at a deviation of exactly 2.5 the RTT alone decides.  The spike list of
    the profile receives the sample's timestamp exactly when it is a spike. *)
Theorem spike_iff_strictly_above (p : LatencyProfile) (s : HeartbeatSample) (nd : float) :
  PrimFloat.eqb (baseline_rtt p) 0 = false ->
  normalized_deviation_of p s = Ok nd ->
  (is_spike s nd = true
   <-> PrimFloat.ltb 500 (round_trip_time s) = true \/ PrimFloat.ltb 2.5 nd = true) /\
  (round_trip_time s = 500%float -> is_spike s nd = PrimFloat.ltb 2.5 nd) /\
  (nd = 2.5%float -> is_spike s nd = PrimFloat.ltb 500 (round_trip_time s)) /\
  exists a p',
    _analyze_jitter upper mean p s = Ok (a, p') /\
    spike_timestamps p'
    = if is_spike s nd
      then List.filter (fun ts => PrimFloat.ltb (PrimFloat.sub (timestamp s) 60) ts)
                       (spike_timestamps p ++ [timestamp s])
      else spike_timestamps p.
Proof.
  intros Hbase Hnd.
  split; [unfold is_spike; apply orb_true_iff |].
  split.
  { intros E. unfold is_spike. rewrite E.
    change (PrimFloat.ltb JitterConfig.LATENCY_SPIKE_THRESHOLD 500) with false.
    reflexivity. }
  split.
  { intros E. unfold is_spike. rewrite E.
    change (PrimFloat.ltb JitterConfig.JITTER_THRESHOLD_STD 2.5) with false.
    apply orb_false_r. }
  destruct (analyze_jitter_established p s nd Hbase Hnd)
    as (a & p' & Hrun & _ & Hspikes & _).
  exists a, p'. split; [exact Hrun |].
  rewrite Hspikes. unfold record_sample. cbn [spike_timestamps].
  destruct (is_spike s nd); reflexivity.
Qed.

Lemma filter_keeps_all {A : Type} (f : A -> bool) (l : list A) :
  Forall (fun x => f x = true) l -> List.filter f l = l.
Proof.
  induction l as [| x l IH]; intros H; [reflexivity |].
  inversion H as [| y l' Hx Hl]; subst. cbn [List.filter]. rewrite Hx, (IH Hl).
  reflexivity.
Qed.

Lemma filter_twice {A : Type} (f : A -> bool) (l : list A) :
  List.filter f (List.filter f l) = List.filter f l.
Proof.
  induction l as [| x l IH]; [reflexivity |].
  cbn [List.filter]. destruct (f x) eqn:E; [| exact IH].
  cbn [List.filter]. rewrite E, IH. reflexivity.
Qed.

(** C7 (as the code has it). Take a profile with a baseline established whose
    spike list holds no timestamp older than the 60 s window that ends at the
    sample, or a sample that is itself a spike.  The score reported for the
    sample is, before the +30 of the timing pattern,
    [min(100, min(30, |nd|*10) + min(30, 5*spikes) + (crit_spikes/crit_total)*40)],
    the last term only when there was a critical moment; [spikes] is the number
    of spike timestamps in the 60 s window, which is then all the profile
    holds, and the two counters are those after the sample. *)
Theorem jitter_score_is_capped_sum (p : LatencyProfile) (s : HeartbeatSample) (nd : float) :
  PrimFloat.eqb (baseline_rtt p) 0 = false ->
  normalized_deviation_of p s = Ok nd ->
  is_spike s nd = true
  \/ Forall (fun ts => in_spike_window (timestamp s) ts = true) (spike_timestamps p) ->
  exists a p',
    _analyze_jitter upper mean p s = Ok (a, p') /\
    total_critical_moments p'
    = (if _is_critical_moment upper (game_state s)
       then total_critical_moments p + 1 else total_critical_moments p) /\
    spikes_during_critical p'
    = (if is_spike s nd && _is_critical_moment upper (game_state s)
       then spikes_during_critical p + 1 else spikes_during_critical p) /\
    Z.of_nat (length (spike_timestamps p')) = spikes_in_window (timestamp s) p' /\
    let spike_count := spikes_in_window (timestamp s) p' in
    let deviation_term := Py.fmin 30 (PrimFloat.mul (PrimFloat.abs nd) 10) in
    let spike_term := Py.float_of_Z (Z.min 30 (spike_count * 5)) in
    let sum := PrimFloat.add (PrimFloat.add 0 deviation_term) spike_term in
    let before_adjustment :=
      Py.fmin 100
        (if 0 <? total_critical_moments p'
         then PrimFloat.add sum
                (PrimFloat.mul (int_div (spikes_during_critical p')
                                        (total_critical_moments p')) 40)
         else sum) in
    _calculate_jitter_score p' nd = before_adjustment /\
    jitter_score a
    = (if timing_pattern p' then Py.fmin 100 (PrimFloat.add before_adjustment 30)
       else before_adjustment).
Proof.
  intros Hbase Hnd Hfresh.
  destruct (analyze_jitter_established p s nd Hbase Hnd)
    as (a & p' & Hrun & _ & Hspikes & Hcrit & Htotal & Hscore).
  exists a, p'. split; [exact Hrun |].
  split. { rewrite Htotal. reflexivity. }
  split. { rewrite Hcrit. reflexivity. }
  assert (Hcount : Z.of_nat (length (spike_timestamps p'))
                   = spikes_in_window (timestamp s) p').
  { unfold spikes_in_window. rewrite Hspikes. unfold record_sample.
    cbn [spike_timestamps].
    destruct (is_spike s nd) eqn:Hspike.
    - fold (in_spike_window (timestamp s)).
      change (fun ts => in_spike_window (timestamp s) ts)
        with (in_spike_window (timestamp s)).
      rewrite filter_twice. reflexivity.
    - destruct Hfresh as [Hs | Hall]; [discriminate |].
      rewrite (filter_keeps_all _ _ Hall). reflexivity. }
  split; [exact Hcount |].
  cbn zeta. rewrite <- Hcount. split.
  - unfold _calculate_jitter_score.
    destruct (0 <? total_critical_moments p'); reflexivity.
  - rewrite Hscore. unfold _calculate_jitter_score.
    destruct (0 <? total_critical_moments p'); reflexivity.
Qed.

End JitterFacts.

Lemma spike_iff_strictly_above_witness :
  PrimFloat.eqb (Jitter.baseline_rtt (Spec.profile_with 80 10 [] 0 0)) 0 = false /\
  Jitter.normalized_deviation_of (Spec.profile_with 80 10 [] 0 0)
    (Spec.sample_at 1000 800 "match_point") = Ok (PrimFloat.div 720 11) /\
  (Jitter.is_spike (Spec.sample_at 1000 800 "match_point") (PrimFloat.div 720 11) = true
   <-> PrimFloat.ltb 500 (Jitter.round_trip_time (Spec.sample_at 1000 800 "match_point"))
       = true
       \/ PrimFloat.ltb 2.5 (PrimFloat.div 720 11) = true).
Proof.
  split; [vm_compute; reflexivity |].
  split; [vm_compute; reflexivity |].
  apply (spike_iff_strictly_above Jitter.ascii_upper Spec.naive_mean
           (Spec.profile_with 80 10 [] 0 0) (Spec.sample_at 1000 800 "match_point")
           (PrimFloat.div 720 11)); vm_compute; reflexivity.
Defined.

(** Neither boundary value is a spike.  With baseline 490 and
    deviation 9, a sample at exactly 500 ms has normalised deviation 1 and is
    not a spike; with baseline 95 and deviation 1, a sample at 100 ms has
    normalised deviation exactly 2.5 and is not a spike.  Neither is recorded. *)
Lemma boundary_samples_are_not_spikes :
  (Jitter.round_trip_time (Spec.sample_at 1000 500 "") = 500%float /\
   Jitter.normalized_deviation_of (Spec.profile_with 490 9 [] 0 0)
     (Spec.sample_at 1000 500 "") = Ok 1%float /\
   Jitter.is_spike (Spec.sample_at 1000 500 "") 1 = false /\
   exists a p',
     Jitter._analyze_jitter Jitter.ascii_upper Spec.naive_mean
       (Spec.profile_with 490 9 [] 0 0) (Spec.sample_at 1000 500 "") = Ok (a, p') /\
     Jitter.spike_timestamps p' = []) /\
  (Jitter.normalized_deviation_of (Spec.profile_with 95 1 [] 0 0)
     (Spec.sample_at 1000 100 "") = Ok 2.5%float /\
   Jitter.is_spike (Spec.sample_at 1000 100 "") 2.5 = false /\
   exists a p',
     Jitter._analyze_jitter Jitter.ascii_upper Spec.naive_mean
       (Spec.profile_with 95 1 [] 0 0) (Spec.sample_at 1000 100 "") = Ok (a, p') /\
     Jitter.spike_timestamps p' = []).
Proof.
  split.
  - split; [vm_compute; reflexivity |]. split; [vm_compute; reflexivity |].
    split; [vm_compute; reflexivity |].
    eexists _, _. split; vm_compute; reflexivity.
  - split; [vm_compute; reflexivity |]. split; [vm_compute; reflexivity |].
    eexists _, _. split; vm_compute; reflexivity.
Qed.

Lemma jitter_score_is_capped_sum_witness :
  PrimFloat.eqb (Jitter.baseline_rtt (Spec.profile_with 80 10 [991; 994; 997]%float 3 3)) 0
    = false /\
  Jitter.normalized_deviation_of (Spec.profile_with 80 10 [991; 994; 997]%float 3 3)
    (Spec.sample_at 1000 800 "match_point") = Ok (PrimFloat.div 720 11) /\
  Forall (fun ts => Spec.in_spike_window
                      (Jitter.timestamp (Spec.sample_at 1000 800 "match_point")) ts = true)
         (Jitter.spike_timestamps (Spec.profile_with 80 10 [991; 994; 997]%float 3 3)) /\
  exists a p',
    Jitter._analyze_jitter Jitter.ascii_upper Spec.naive_mean
      (Spec.profile_with 80 10 [991; 994; 997]%float 3 3)
      (Spec.sample_at 1000 800 "match_point") = Ok (a, p') /\
    Z.of_nat (length (Jitter.spike_timestamps p'))
    = Spec.spikes_in_window (Jitter.timestamp (Spec.sample_at 1000 800 "match_point")) p'.
Proof.
  assert (Hfresh : Forall (fun ts => Spec.in_spike_window
                      (Jitter.timestamp (Spec.sample_at 1000 800 "match_point")) ts = true)
         (Jitter.spike_timestamps (Spec.profile_with 80 10 [991; 994; 997]%float 3 3))).
  { repeat constructor. }
  split; [vm_compute; reflexivity |].
  split; [vm_compute; reflexivity |].
  split; [exact Hfresh |].
  destruct (jitter_score_is_capped_sum Jitter.ascii_upper Spec.naive_mean
              (Spec.profile_with 80 10 [991; 994; 997]%float 3 3)
              (Spec.sample_at 1000 800 "match_point") (PrimFloat.div 720 11))
    as (a & p' & Hrun & _ & _ & Hcount & _);
    [vm_compute; reflexivity | vm_compute; reflexivity | right; exact Hfresh |].
  exists a, p'. split; [exact Hrun | exact Hcount].
Defined.

(** The uncapped sum of the specification is not what the code computes.  Baseline 100 with no
    deviation, a sample at 105 ms: normalised deviation 5, one spike.  The code
    reports min(30, 50) + 5 = 35; the uncapped sum is 50 + 5 = 55.
    No timing-pattern adjustment is involved. *)
Lemma jitter_score_differs_from_uncapped_sum :
  exists a p',
    Jitter._analyze_jitter Jitter.ascii_upper Spec.naive_mean
      (Spec.profile_with 100 0 [] 0 0) (Spec.sample_at 1000 105 "") = Ok (a, p') /\
    Jitter.current_jitter a = 5%float /\
    Jitter.timing_pattern p' = false /\
    Jitter.jitter_score a = 35%float /\
    Jitter.spec_jitter_score p' 5 = 55%float /\
    PrimFloat.eqb (Jitter.jitter_score a) (Jitter.spec_jitter_score p' 5) = false.
Proof.
  eexists _, _. split; [vm_compute; reflexivity |].
  repeat split; vm_compute; reflexivity.
Qed.

(** The lag-switch scenario of the specification: baseline 80, deviation 10,
    the fourth sample at 800 ms in a row, all tagged match_point.  The code
    reports 30 + 20 + 40 = 90 and flags the player; the uncapped sum would be
    clamped to 100. *)
Example lag_switch_scenario :
  exists a p',
    Jitter._analyze_jitter Jitter.ascii_upper Spec.naive_mean
      (Spec.profile_with 80 10 [991; 994; 997]%float 3 3)
      (Spec.sample_at 1000 800 "match_point") = Ok (a, p') /\
    Jitter.jitter_score a = 90%float /\
    Jitter.is_suspicious a = true /\
    Jitter.details a
    = Jitter.Measured 800 80 720 4 Jitter.CRITICAL 1 /\
    Jitter.spec_jitter_score p' (Jitter.current_jitter a) = 100%float.
Proof.
  eexists _, _. split; [vm_compute; reflexivity |].
  repeat split; vm_compute; reflexivity.
Qed.

(** The list is pruned only when a spike is recorded, so that between spikes
    it can hold timestamps older than the window, against the comments of the
    source ("spikes recientes"): three spikes from a quarter of an hour ago
    still add 15 points to a calm sample and flag the player, while none lies
    in the window. *)
Example stale_spikes_are_counted :
  exists a p',
    Jitter._analyze_jitter Jitter.ascii_upper Spec.naive_mean
      (Spec.profile_with 80 10 [100; 103; 106]%float 0 0)
      (Spec.sample_at 1000 80 "") = Ok (a, p') /\
    Jitter.spike_timestamps p' = [100; 103; 106]%float /\
    Spec.spikes_in_window 1000 p' = 0 /\
    Jitter.jitter_score a = 15%float /\
    Jitter.is_suspicious a = true.
Proof.
  eexists _, _. split; [vm_compute; reflexivity |].
  repeat split; vm_compute; reflexivity.
Qed.

(** ** The dice cannot be tampered with (ludo_engine.py) *)

Section DiceTamper.
Import Ludo.

(** X1. A roll verifies only as it was made.  For a roll [r] that the dice
    produced, any record with the client seed and the nonce of [r] passes
    [verify_roll] against the seed of the dice exactly when it shows the value
    and the proof of [r]; a record with another value or another proof is
    answered [False]; and the verification never raises.  (The time stamp and
    the public seed hash of the record are not looked at.) *)
Theorem tampered_roll_is_rejected (now : float) (d d' : ProvablyFairDice) (p : string)
    (r r' : DiceRoll) :
  roll now d p = Ok (r, d') ->
  client_seed r' = client_seed r ->
  nonce r' = nonce r ->
  exists ok,
    verify_roll r' (dice_server_seed d) = Ok ok /\
    (ok = true <-> value r' = value r /\ hash_proof r' = hash_proof r).
Proof.
  unfold roll, verify_roll. intros Hroll Hseed Hnonce.
  set (cs := default "default"%string (client_seeds d !! p)) in *.
  destruct (dice_value_total (combined (dice_server_seed d) cs (dice_nonce d + 1)))
    as (N & _ & _ & Hv).
  rewrite Hv in Hroll. cbn [bind] in Hroll. injection Hroll as <- _.
  cbn [client_seed nonce value hash_proof] in *. rewrite Hseed, Hnonce, Hv. cbn [bind].
  eexists. split; [reflexivity |].
  rewrite andb_true_iff, Z.eqb_eq, String.eqb_eq.
  split; intros [H1 H2]; split; congruence.
Qed.

End DiceTamper.

Lemma tampered_roll_is_rejected_witness :
  exists r d',
    Ludo.roll 0 (Ludo.ProvablyFairDice_init (Some "seed"%string) "token") "alice" = Ok (r, d') /\
    Ludo.verify_roll
      (Ludo.mkDiceRoll 6 (Ludo.server_seed r) (Ludo.client_seed r) (Ludo.nonce r) 0
         (Ludo.hash_proof r))
      "seed" = Ok false.
Proof.
  destruct (Ludo.roll 0 (Ludo.ProvablyFairDice_init (Some "seed"%string) "token") "alice")
    as [[r d'] | e] eqn:H.
  - exists r, d'. split; [reflexivity |].
    destruct (tampered_roll_is_rejected 0 _ d' "alice" r
                (Ludo.mkDiceRoll 6 (Ludo.server_seed r) (Ludo.client_seed r) (Ludo.nonce r) 0
                   (Ludo.hash_proof r)) H eq_refl eq_refl) as (ok & Hv & Hok).
    change (Ludo.dice_server_seed (Ludo.ProvablyFairDice_init (Some "seed"%string) "token"))
      with "seed"%string in Hv.
    rewrite Hv. f_equal. destruct ok; [| reflexivity].
    destruct (proj1 Hok eq_refl) as [Hval _]. cbn in Hval.
    vm_compute in H. injection H as <- _. discriminate Hval.
  - vm_compute in H. discriminate H.
Defined.

(** ** Which pieces can move (ludo_engine.py) *)

Section PieceMoves.
Import Ludo Spec.

(** X2. A piece on the track can always move.  For a roll of 1 to 6 an ACTIVE
    piece on a cell of the track is never refused: it advances on the track
    when the roll does not take it past the cell before its start; otherwise
    it enters the home stretch, at a cell from 0 to 4, or finishes at once
    when it stands on that last cell and rolls a 6.  A piece at HOME moves
    with a 6 only, to the start cell of its colour, and a FINISHED piece never
    moves; so a player with a piece on the track always has a move on
    offer. *)
Theorem piece_on_track_always_moves (piece : LudoPiece) (dice_value : Z) :
  1 <= dice_value <= 6 ->
  (piece_state piece = ACTIVE -> 0 <= position piece < 52 ->
   let steps := (get_safe_zone_entry (owner piece) - position piece) mod 52 in
   _can_move_piece piece dice_value
   = Some (if dice_value <=? steps
           then mkMoveInfo ((position piece + dice_value) mod 52) Move
           else if dice_value - steps - 1 =? 5 then mkMoveInfo (-2) Finish
                else mkMoveInfo (dice_value - steps - 1) EnterSafe) /\
   (steps < dice_value -> 0 <= dice_value - steps - 1 <= 5) /\
   (dice_value - steps - 1 = 5 <->
    position piece = get_safe_zone_entry (owner piece) /\ dice_value = 6) /\
   forall ps, In piece ps -> moves_of_pieces ps dice_value <> []) /\
  (piece_state piece = HOME ->
   _can_move_piece piece dice_value
   = if dice_value =? 6 then Some (mkMoveInfo (get_start_position (owner piece)) Exit)
     else None) /\
  (piece_state piece = FINISHED -> _can_move_piece piece dice_value = None).
Proof.
  intros Hd. split; [| split].
  - intros Hact Hpos. cbn zeta.
    set (steps := (get_safe_zone_entry (owner piece) - position piece) mod 52).
    assert (Hsteps : 0 <= steps < 52) by (apply Z.mod_pos_bound; lia).
    assert (Hcan : _can_move_piece piece dice_value
                   = Some (if dice_value <=? steps
                           then mkMoveInfo ((position piece + dice_value) mod 52) Move
                           else if dice_value - steps - 1 =? 5 then mkMoveInfo (-2) Finish
                                else mkMoveInfo (dice_value - steps - 1) EnterSafe)).
    { unfold _can_move_piece. rewrite Hact.
      unfold LudoConfig.BOARD_SIZE, LudoConfig.HOME_STRETCH. fold steps.
      destruct (Z.ltb_spec steps dice_value) as [Hlt | Hge];
        destruct (Z.leb_spec 0 steps) as [_ | Hneg]; try lia; cbn [andb].
      - destruct (Z.leb_spec dice_value steps) as [Hle | _]; [lia |].
        destruct (Z.leb_spec (dice_value - steps - 1) 5) as [_ | Hbig]; [| lia].
        destruct (Z.eqb_spec (dice_value - steps - 1) 5); reflexivity.
      - destruct (Z.leb_spec dice_value steps) as [_ | Hgt]; [reflexivity | lia]. }
    split; [exact Hcan |]. split; [intros; lia |]. split.
    + split.
      * intros H5. assert (Hs0 : steps = 0) by lia. split; [| lia].
        unfold steps in Hs0.
        assert (Hentry : 0 <= get_safe_zone_entry (owner piece) < 52)
          by (unfold get_safe_zone_entry, LudoConfig.BOARD_SIZE; apply Z.mod_pos_bound; lia).
        apply Z.mod_divide in Hs0; [| lia]. destruct Hs0 as [q Hq]. lia.
      * intros [Hp H6]. unfold steps. rewrite Hp, Z.sub_diag.
        change (0 mod 52) with 0. lia.
    + intros ps Hin. unfold moves_of_pieces.
      induction ps as [| p0 ps IH]; [destruct Hin |].
      cbn [flat_map]. destruct Hin as [-> | Hin].
      * rewrite Hcan. discriminate.
      * destruct (_can_move_piece p0 dice_value); [discriminate |].
        cbn [app]. apply IH. exact Hin.
  - intros Hhome. unfold _can_move_piece. rewrite Hhome. reflexivity.
  - intros Hfin. unfold _can_move_piece. rewrite Hfin. reflexivity.
Qed.

Lemma piece_on_track_always_moves_witness :
  1 <= 6 <= 6 /\
  _can_move_piece (mkLudoPiece 0 RED ACTIVE 51 (-1)) 6 = Some (mkMoveInfo (-2) Finish).
Proof.
  split; [lia |].
  exact (proj1 (proj1 (piece_on_track_always_moves (mkLudoPiece 0 RED ACTIVE 51 (-1)) 6
                         ltac:(lia)) eq_refl ltac:(cbn; lia))).
Defined.

End PieceMoves.

(** ** The board game in good order (ludo_engine.py) *)

Section EngineFacts.
Import Ludo Spec.

Lemma lookup_nth_error {A : Type} (l : list A) (n : nat) : l !! n = nth_error l n.
Proof. revert n. induction l as [| a l IH]; intros [| n]; cbn; auto. Qed.

Lemma py_index_lookup {A : Type} (l : list A) (i : Z) (x : A) :
  py_index l i = Ok x -> 0 <= i -> l !! Z.to_nat i = Some x /\ In x l.
Proof.
  unfold py_index. intros H Hi.
  destruct (Z.ltb_spec i 0) as [Hneg | _]; [lia |].
  destruct ((0 <=? i) && (i <? Z.of_nat (length l))); [| discriminate H].
  destruct (nth_error l (Z.to_nat i)) as [y |] eqn:E; [| discriminate H].
  injection H as ->. split.
  - rewrite lookup_nth_error. exact E.
  - eapply nth_error_In. exact E.
Qed.

Lemma py_index_member {A : Type} (l : list A) (i : Z) (x : A) :
  py_index l i = Ok x -> In x l.
Proof.
  unfold py_index. intros H.
  destruct ((0 <=? (if i <? 0 then i + Z.of_nat (length l) else i))
            && ((if i <? 0 then i + Z.of_nat (length l) else i) <? Z.of_nat (length l)));
    [| discriminate H].
  destruct (nth_error l (Z.to_nat (if i <? 0 then i + Z.of_nat (length l) else i)))
    as [y |] eqn:E; [| discriminate H].
  injection H as ->. eapply nth_error_In. exact E.
Qed.

Lemma dict_get_in {V : Type} (d : list (UUID * V)) (k : UUID) :
  In k (map fst d) -> exists v, dict_get d k = Ok v.
Proof.
  induction d as [| [k' v'] d IH]; [intros [] |].
  cbn [map fst In dict_get]. intros [-> | H].
  - rewrite String.eqb_refl. eexists. reflexivity.
  - destruct (String.eqb k' k); [eexists; reflexivity | apply IH; exact H].
Qed.

Lemma dict_get_forall {V : Type} (P : UUID * V -> Prop) (d : list (UUID * V))
    (k : UUID) (v : V) :
  Forall P d -> dict_get d k = Ok v -> P (k, v).
Proof.
  induction 1 as [| [k' v'] d Hx _ IH]; [discriminate |].
  cbn [dict_get]. destruct (String.eqb_spec k' k) as [-> | _].
  - intros H. injection H as <-. exact Hx.
  - exact IH.
Qed.

Lemma dict_set_keys {V : Type} (d : list (UUID * V)) (k : UUID) (v : V) :
  In k (map fst d) -> map fst (dict_set d k v) = map fst d.
Proof.
  induction d as [| [k' v'] d IH]; [intros [] |].
  cbn [map fst In dict_set]. intros H.
  destruct (String.eqb_spec k' k) as [-> | Hne]; [reflexivity |].
  cbn [map fst]. f_equal. apply IH. destruct H as [H | H]; [contradiction | exact H].
Qed.

Lemma dict_set_keeps_keys {V : Type} (d : list (UUID * V)) (k x : UUID) (v : V) :
  In x (map fst d) \/ x = k -> In x (map fst (dict_set d k v)).
Proof.
  induction d as [| [k' v'] d IH]; cbn [map fst In dict_set].
  - intros [[] | ->]. left. reflexivity.
  - intros H. destruct (String.eqb_spec k' k) as [-> | Hne]; cbn [map fst In].
    + destruct H as [[H | H] | H]; auto.
    + destruct H as [[H | H] | H]; auto.
Qed.

Lemma dict_set_forall {V : Type} (P : UUID * V -> Prop) (d : list (UUID * V))
    (k : UUID) (v : V) :
  Forall P d -> P (k, v) -> Forall P (dict_set d k v).
Proof.
  intros Hd Hv. induction Hd as [| [k' v'] d Hx Hd' IH]; cbn [dict_set].
  - constructor; [exact Hv | constructor].
  - destruct (String.eqb_spec k' k) as [-> | _]; constructor; assumption.
Qed.

Lemma dict_get_set {V : Type} (d : list (UUID * V)) (k : UUID) (v : V) :
  dict_get (dict_set d k v) k = Ok v.
Proof.
  induction d as [| [k' v'] d IH]; cbn [dict_set dict_get].
  - rewrite String.eqb_refl. reflexivity.
  - destruct (String.eqb k' k) eqn:E; cbn [dict_get]; rewrite E; [reflexivity | exact IH].
Qed.

Lemma insert_keeps_map {A B : Type} (f : A -> B) (l : list A) (i : nat) (x y : A) :
  l !! i = Some y -> f x = f y -> map f (<[i := x]> l) = map f l.
Proof.
  revert i. induction l as [| a l IH]; intros [| i]; cbn; try discriminate.
  - intros H E. injection H as ->. rewrite E. reflexivity.
  - intros H E. f_equal. apply IH; assumption.
Qed.

Lemma count_finished_insert (ps : list LudoPiece) (i : nat) (p q : LudoPiece) :
  ps !! i = Some p ->
  count_finished (<[i := q]> ps)
  = count_finished ps - (if is_finished p then 1 else 0) + (if is_finished q then 1 else 0).
Proof.
  unfold count_finished. revert i.
  induction ps as [| a ps IH]; intros [| i]; try discriminate.
  - intros H. injection H as ->. simpl.
    destruct (is_finished p), (is_finished q); simpl length; lia.
  - intros H. specialize (IH i H). simpl in *.
    destruct (is_finished a); simpl length; lia.
Qed.

Lemma all_finished (ps : list LudoPiece) :
  Z.of_nat (length ps) <= count_finished ps ->
  Forall (fun p => piece_state p = FINISHED) ps.
Proof.
  unfold count_finished. induction ps as [| a ps IH]; [constructor |].
  intros H. pose proof (List.filter_length_le is_finished ps) as Hle.
  change (List.filter is_finished (a :: ps))
    with (if is_finished a then a :: List.filter is_finished ps
          else List.filter is_finished ps) in H.
  destruct (is_finished a) eqn:E; cbn [length] in H; [| lia].
  constructor; [| apply IH; lia].
  unfold is_finished in E. destruct (piece_state a); try discriminate E. reflexivity.
Qed.

Lemma capture_piece_ok (pos : Z) (ps ps' : list LudoPiece) (i : Z) :
  capture_piece pos ps = Some (i, ps') ->
  map piece_id ps' = map piece_id ps /\
  count_finished ps' = count_finished ps /\
  forall c, Forall (fun p => owner p = c /\ piece_ok p) ps ->
            Forall (fun p => owner p = c /\ piece_ok p) ps'.
Proof.
  revert i ps'. induction ps as [| p r IH]; intros i ps'; [discriminate |].
  cbn [capture_piece].
  assert (Hrec : option_map (fun '(i, r') => (i, p :: r')) (capture_piece pos r)
                 = Some (i, ps') ->
                 map piece_id ps' = map piece_id (p :: r) /\
                 count_finished ps' = count_finished (p :: r) /\
                 forall c, Forall (fun p => owner p = c /\ piece_ok p) (p :: r) ->
                           Forall (fun p => owner p = c /\ piece_ok p) ps').
  { destruct (capture_piece pos r) as [[i' r'] |]; [| discriminate].
    cbn [option_map]. intros H. injection H as <- <-.
    destruct (IH i' r' eq_refl) as (Hid & Hc & Hf).
    split; [cbn [map]; rewrite Hid; reflexivity |].
    split.
    - unfold count_finished in *. cbn [List.filter].
      destruct (is_finished p); cbn [length]; lia.
    - intros c H. inversion H; subst. constructor; [assumption | apply Hf; assumption]. }
  destruct (piece_state p) eqn:Est; try exact Hrec.
  destruct (position p =? pos); [| exact Hrec].
  intros H. injection H as <- <-.
  split; [reflexivity |]. split.
  - unfold count_finished, is_finished. simpl. rewrite Est. reflexivity.
  - intros c H. inversion H as [| x l Hx Hr]; subst. destruct Hx as [Ho Hp].
    constructor; [| exact Hr]. split; [exact Ho | reflexivity].
Qed.

Lemma capture_player_ok (pos : Z) (attacker : PlayerColor)
    (pls pls' : list (UUID * LudoPlayer)) (c : PlayerColor * Z) :
  capture_player pos attacker pls = Some (c, pls') ->
  map fst pls' = map fst pls /\ (Forall seat_ok pls -> Forall seat_ok pls').
Proof.
  revert c pls'. induction pls as [| [uid pl] r IH]; intros c pls'; [discriminate |].
  cbn [capture_player].
  assert (Hrec : option_map (fun '(c, r') => (c, (uid, pl) :: r'))
                            (capture_player pos attacker r) = Some (c, pls') ->
                 map fst pls' = map fst ((uid, pl) :: r) /\
                 (Forall seat_ok ((uid, pl) :: r) -> Forall seat_ok pls')).
  { destruct (capture_player pos attacker r) as [[c' r'] |]; [| discriminate].
    cbn [option_map]. intros H. injection H as <- <-.
    destruct (IH c' r' eq_refl) as (Hk & Hf).
    split; [cbn [map fst]; rewrite Hk; reflexivity |].
    intros H. inversion H; subst. constructor; [assumption | apply Hf; assumption]. }
  destruct (color_eqb (color pl) attacker); [exact Hrec |].
  destruct (capture_piece pos (pieces pl)) as [[i ps] |] eqn:Ecap; [| exact Hrec].
  intros H. injection H as <- <-. split; [reflexivity |].
  intros H. inversion H as [| x l Hx Hr]; subst.
  destruct Hx as [Hu (Hid & Hall & Hfin)].
  destruct (capture_piece_ok _ _ _ _ Ecap) as (Hid' & Hc' & Hf').
  constructor; [| exact Hr].
  split; [exact Hu |]. cbn [snd] in *. unfold player_ok, with_pieces.
  cbn [pieces color pieces_finished].
  split; [rewrite Hid'; exact Hid |].
  split; [apply Hf'; exact Hall | rewrite Hc'; exact Hfin].
Qed.

Lemma forall_in {A : Type} (P : A -> Prop) (l : list A) (x : A) :
  Forall P l -> In x l -> P x.
Proof.
  induction 1 as [| a l Ha _ IH]; [intros [] |].
  intros [-> | H]; [exact Ha | apply IH; exact H].
Qed.

Lemma dict_get_key_in {V : Type} (d : list (UUID * V)) (k : UUID) (v : V) :
  dict_get d k = Ok v -> In k (map fst d).
Proof.
  induction d as [| [k' v'] d IH]; [discriminate |].
  cbn [dict_get map fst In]. destruct (String.eqb_spec k' k) as [-> | _].
  - intros _. left. reflexivity.
  - intros H. right. apply IH. exact H.
Qed.

Lemma current_player_ok (e : LudoEngine) :
  engine_ok e ->
  exists cur pl,
    current_user_id e = Ok cur /\ current_player e = Ok pl /\
    dict_get (players e) cur = Ok pl /\ user_id pl = cur /\ player_ok pl.
Proof.
  intros (Hseats & Horder & Hidx & _).
  destruct (py_index_in_range (player_order e) (current_player_index e) Hidx) as [cur Hcur].
  pose proof (forall_in _ _ _ Horder (py_index_member _ _ _ Hcur)) as Hin. cbn beta in Hin.
  destruct (dict_get_in _ _ Hin) as [pl Hpl].
  destruct (dict_get_forall _ _ _ _ Hseats Hpl) as [Hu Hok]. cbn [fst snd] in *.
  exists cur, pl. unfold current_player, current_user_id in *. rewrite Hcur. cbn [bind].
  split; [reflexivity |]. split; [exact Hpl |]. split; [exact Hpl |].
  split; [exact Hu | exact Hok].
Qed.

Lemma next_turn_ok (t : float) (e : LudoEngine) :
  engine_ok e ->
  exists e' next,
    _next_turn t e = Ok e' /\ current_user_id e' = Ok next /\ engine_ok e' /\
    state e' = ROLLING /\ players e' = players e /\ moves_history e' = moves_history e /\
    winner e' = winner e.
Proof.
  intros (Hseats & Horder & Hidx & Hcount & Hroll).
  unfold _next_turn.
  set (n := Z.of_nat (length (player_order e))) in *.
  destruct (Z.eqb_spec n 0) as [Hz | Hnz]; [lia |].
  assert (Hnext : 0 <= (current_player_index e + 1) mod n < n)
    by (apply Z.mod_pos_bound; lia).
  destruct (py_index_in_range (player_order e) ((current_player_index e + 1) mod n) Hnext)
    as [next Hn].
  eexists _, next. split; [reflexivity |].
  split; [unfold current_user_id; cbn [player_order current_player_index]; exact Hn |].
  split; [| repeat split].
  unfold engine_ok. cbn [players player_order current_player_index move_counter
                         moves_history current_roll].
  repeat split; try assumption; try (fold n; lia); congruence.
Qed.

Lemma with_roll_ok (e : LudoEngine) (d : ProvablyFairDice) (r : DiceRoll) (sixes : Z)
    (again : bool) (st : LudoGameState) :
  engine_ok e -> 1 <= value r <= 6 -> engine_ok (with_roll e d r sixes again st).
Proof.
  intros (Hseats & Horder & Hidx & Hcount & _) Hr. unfold engine_ok, with_roll.
  cbn [players player_order current_player_index move_counter moves_history current_roll].
  split; [exact Hseats |]. split; [exact Horder |]. split; [exact Hidx |].
  split; [exact Hcount |]. intros r' H. injection H as <-. exact Hr.
Qed.

(** [roll_dice] on a game in good order. *)
Lemma roll_dice_ok (t_roll t_turn : float) (e : LudoEngine) (uid : UUID)
    (seed : option string) :
  engine_ok e ->
  exists out e',
    roll_dice t_roll t_turn e uid seed = Ok (out, e') /\ engine_ok e' /\
    (forall msg, out = RollError msg -> e' = e) /\
    (forall r available again,
        out = RollMoves r available again ->
        state e' = MOVING /\ current_user_id e' = Ok uid /\ current_roll e' = Some r /\
        available <> [] /\
        exists pl, current_player e' = Ok pl /\
                   available = moves_of_pieces (pieces pl) (value r)).
Proof.
  intros Hok. unfold roll_dice.
  destruct (state_eqb (state e) ROLLING); cbn [negb];
    [| eexists _, _; split; [reflexivity |]; split; [exact Hok |];
       split; [reflexivity | discriminate]].
  destruct (current_player_ok e Hok) as (cur & pl & Hcur & Hpl & Hget & Hu & Hplok).
  rewrite Hcur. cbn [bind].
  destruct (String.eqb_spec uid cur) as [-> | Hne]; cbn [negb];
    [| eexists _, _; split; [reflexivity |]; split; [exact Hok |];
       split; [reflexivity | discriminate]].
  destruct (roll_one t_roll (register_seed (dice e) cur seed) cur)
    as (r & d' & N & Hroll & _ & _ & _ & _ & _ & _ & Hrange & _).
  rewrite Hroll. cbn [bind].
  destruct ((value r =? 6)
            && (LudoConfig.MAX_CONSECUTIVE_SIXES
                <=? (if value r =? 6 then consecutive_sixes e + 1 else 0))).
  - set (e1 := with_roll e d' r (if value r =? 6 then consecutive_sixes e + 1 else 0)
                 (can_roll_again e) (state e)).
    destruct (next_turn_ok t_turn e1 (with_roll_ok _ _ _ _ _ _ Hok Hrange))
      as (e' & next & Hnt & Hnext & Hok' & _).
    rewrite Hnt. cbn [bind]. rewrite Hnext. cbn [bind].
    eexists _, _. split; [reflexivity |]. split; [exact Hok' |].
    split; discriminate.
  - set (e1 := with_roll e d' r (if value r =? 6 then consecutive_sixes e + 1 else 0)
                 (value r =? 6) (state e)).
    assert (Hpl1 : current_player e1 = Ok pl) by exact Hpl.
    unfold _get_available_moves. rewrite Hpl1. cbn [bind].
    destruct (moves_of_pieces (pieces pl) (value r)) as [| m ms] eqn:Emoves.
    + destruct (next_turn_ok t_turn e1 (with_roll_ok _ _ _ _ _ _ Hok Hrange))
        as (e' & next & Hnt & Hnext & Hok' & _).
      rewrite Hnt. cbn [bind]. rewrite Hnext. cbn [bind].
      eexists _, _. split; [reflexivity |]. split; [exact Hok' |].
      split; discriminate.
    + eexists _, _. split; [reflexivity |].
      split; [apply with_roll_ok; assumption |].
      split; [discriminate |].
      intros r0 av ag H. injection H as <- <- <-.
      split; [reflexivity |]. split; [exact Hcur |]. split; [reflexivity |].
      split; [discriminate |].
      exists pl. split; [exact Hpl | symmetry; exact Emoves].
Qed.

Lemma moved_piece_ok (piece : LudoPiece) (dice_value : Z) (mi : MoveInfo) :
  piece_ok piece -> 1 <= dice_value <= 6 ->
  _can_move_piece piece dice_value = Some mi ->
  is_finished piece = false /\
  match mi_action mi with
  | Exit => 0 <= mi_to mi < 52
  | Move => piece_state piece = ACTIVE /\ 0 <= mi_to mi < 52
  | EnterSafe => 0 <= mi_to mi <= 5
  | SafeMove => piece_state piece = SAFE_ZONE /\ 0 <= mi_to mi <= 5
  | Finish => True
  end.
Proof.
  unfold piece_ok, _can_move_piece, is_finished. intros Hp Hd.
  unfold LudoConfig.EXIT_ROLL, LudoConfig.HOME_STRETCH, LudoConfig.BOARD_SIZE.
  destruct (piece_state piece).
  - destruct (dice_value =? 6); [| discriminate].
    intros H. injection H as <-. cbn [mi_action mi_to]. split; [reflexivity |].
    destruct (owner piece); cbn; lia.
  - destruct (Z.ltb_spec ((get_safe_zone_entry (owner piece) - position piece) mod 52)
                         dice_value) as [Hlt | Hge];
      destruct (Z.leb_spec 0 ((get_safe_zone_entry (owner piece) - position piece) mod 52))
        as [Hpos | Hneg]; cbn [andb].
    + destruct (Z.leb_spec
                  (dice_value
                   - (get_safe_zone_entry (owner piece) - position piece) mod 52 - 1) 5)
        as [Hle | Hgt]; [| discriminate].
      destruct (Z.eqb_spec
                  (dice_value
                   - (get_safe_zone_entry (owner piece) - position piece) mod 52 - 1) 5)
        as [He | He];
        intros H; injection H as <-; cbn [mi_action mi_to]; split; try reflexivity;
        try exact I; lia.
    + intros H. injection H as <-. cbn [mi_action mi_to].
      split; [reflexivity |]. split; [reflexivity |]. apply Z.mod_pos_bound. lia.
    + intros H. injection H as <-. cbn [mi_action mi_to].
      split; [reflexivity |]. split; [reflexivity |]. apply Z.mod_pos_bound. lia.
    + intros H. injection H as <-. cbn [mi_action mi_to].
      split; [reflexivity |]. split; [reflexivity |]. apply Z.mod_pos_bound. lia.
  - destruct (Z.eqb_spec (safe_zone_pos piece + dice_value) (5 + 1)) as [He | He].
    + intros H. injection H as <-. cbn [mi_action]. split; [reflexivity | exact I].
    + destruct (Z.ltb_spec (5 + 1) (safe_zone_pos piece + dice_value)) as [Hl | Hl];
        [discriminate |].
      intros H. injection H as <-. cbn [mi_action mi_to].
      split; [reflexivity |]. split; [reflexivity | lia].
  - discriminate.
Qed.

Lemma put_piece_ok (pl : LudoPlayer) (idx : nat) (piece pc : LudoPiece) (fin : Z) :
  player_ok pl -> pieces pl !! idx = Some piece ->
  piece_id pc = piece_id piece -> owner pc = owner piece -> piece_ok pc ->
  is_finished piece = false -> fin = (if is_finished pc then 1 else 0) ->
  player_ok (mkLudoPlayer (user_id pl) (color pl) (<[idx := pc]> (pieces pl))
               (pieces_finished pl + fin) (captures_made pl) (sixes_rolled pl)
               (is_connected pl) (last_action pl)).
Proof.
  intros (Hid & Hall & Hfin) Hlook Hpid Hown Hok Hnf ->.
  unfold player_ok. cbn [pieces color pieces_finished].
  split; [rewrite (insert_keeps_map piece_id _ _ _ _ Hlook Hpid); exact Hid |].
  split.
  - apply Forall_insert; [exact Hall |]. split; [| exact Hok].
    rewrite Hown. exact (proj1 (Forall_lookup_1 _ _ _ _ Hall Hlook)).
  - rewrite (count_finished_insert _ _ _ _ Hlook), Hnf, Hfin. lia.
Qed.

Lemma check_capture_ok (e : LudoEngine) (pos : Z) (attacker : PlayerColor) (cur : UUID) :
  Forall seat_ok (players e) -> current_user_id e = Ok cur ->
  In cur (map fst (players e)) ->
  exists c pls,
    _check_capture e pos attacker = Ok (c, with_players e pls) /\
    Forall seat_ok pls /\ map fst pls = map fst (players e).
Proof.
  intros Hseats Hcur Hin. unfold _check_capture.
  destruct (existsb (Z.eqb pos) LudoConfig.SAFE_POSITIONS).
  { exists None, (players e). destruct e; repeat split; assumption. }
  destruct (capture_player pos attacker (players e)) as [[c pls] |] eqn:Ecap.
  2:{ exists None, (players e). destruct e; repeat split; assumption. }
  destruct (capture_player_ok _ _ _ _ _ Ecap) as (Hkeys & Hseats').
  specialize (Hseats' Hseats).
  assert (Hcur' : current_user_id (with_players e pls) = Ok cur) by exact Hcur.
  rewrite Hcur'. cbn [bind].
  rewrite <- Hkeys in Hin. destruct (dict_get_in _ _ Hin) as [pl Hpl].
  rewrite Hpl. cbn [bind].
  destruct (dict_get_forall _ _ _ _ Hseats' Hpl) as [Hu Hplok]. cbn [fst snd] in *.
  eexists (Some c), _. split; [reflexivity |]. split.
  - apply dict_set_forall; [exact Hseats' |]. split; [exact Hu | exact Hplok].
  - rewrite dict_set_keys by exact Hin. exact Hkeys.
Qed.

(** [_validate_and_execute_move] on a game in good order: it refuses the piece
    and changes nothing, or it moves it and only the players change. *)
Lemma validate_ok (e : LudoEngine) (cur : UUID) (pl : LudoPlayer) (idx : nat)
    (piece : LudoPiece) (dice_value : Z) :
  engine_ok e -> current_user_id e = Ok cur -> current_player e = Ok pl ->
  dict_get (players e) cur = Ok pl ->
  pieces pl !! idx = Some piece -> 1 <= dice_value <= 6 ->
  (_can_move_piece piece dice_value = None /\
   _validate_and_execute_move e cur idx piece dice_value = Ok (None, e))
  \/ (exists mr pls,
         _can_move_piece piece dice_value <> None /\
         _validate_and_execute_move e cur idx piece dice_value
         = Ok (Some mr, with_players e pls) /\
         Forall seat_ok pls /\ map fst pls = map fst (players e)).
Proof.
  intros Hok Hcur Hpl Hget Hlook Hd.
  destruct Hok as (Hseats & Horder & Hidx & Hcount & Hroll).
  destruct (dict_get_forall _ _ _ _ Hseats Hget) as [Hu Hplok]. cbn [fst snd] in *.
  pose proof (dict_get_key_in _ _ _ Hget) as Hin.
  pose proof (proj2 (Forall_lookup_1 _ _ _ _ (proj1 (proj2 Hplok)) Hlook)) as Hpiece.
  cbn beta in Hpiece.
  unfold _validate_and_execute_move.
  destruct (_can_move_piece piece dice_value) as [mi |] eqn:Ecan;
    [right | left; split; reflexivity].
  destruct (moved_piece_ok _ _ _ Hpiece Hd Ecan) as [Hnf Hact].
  rewrite Hpl. cbn [bind].
  assert (Hput : forall pc fin,
             piece_id pc = piece_id piece -> owner pc = owner piece -> piece_ok pc ->
             fin = (if is_finished pc then 1 else 0) ->
             Forall seat_ok
               (dict_set (players e) cur
                  (mkLudoPlayer (user_id pl) (color pl) (<[idx := pc]> (pieces pl))
                     (pieces_finished pl + fin) (captures_made pl) (sixes_rolled pl)
                     (is_connected pl) (last_action pl))) /\
             map fst
               (dict_set (players e) cur
                  (mkLudoPlayer (user_id pl) (color pl) (<[idx := pc]> (pieces pl))
                     (pieces_finished pl + fin) (captures_made pl) (sixes_rolled pl)
                     (is_connected pl) (last_action pl)))
             = map fst (players e)).
  { intros pc fin H1 H2 H3 H4. split.
    - apply dict_set_forall; [exact Hseats |]. split; [exact Hu |].
      cbn [snd]. eapply put_piece_ok; eassumption.
    - apply dict_set_keys. exact Hin. }
  assert (Hcap : forall pc,
             piece_id pc = piece_id piece -> owner pc = owner piece -> piece_ok pc ->
             is_finished pc = false ->
             exists c pls,
               _check_capture
                 (with_players e
                    (dict_set (players e) cur
                       (mkLudoPlayer (user_id pl) (color pl) (<[idx := pc]> (pieces pl))
                          (pieces_finished pl + 0) (captures_made pl) (sixes_rolled pl)
                          (is_connected pl) (last_action pl))))
                 (mi_to mi) (color pl)
               = Ok (c, with_players e pls) /\
               Forall seat_ok pls /\ map fst pls = map fst (players e)).
  { intros pc H1 H2 H3 H4.
    destruct (Hput pc 0 H1 H2 H3) as [Hs Hk]; [rewrite H4; reflexivity |].
    match goal with
    | |- context [_check_capture ?e0 _ _] =>
        destruct (check_capture_ok e0 (mi_to mi) (color pl) cur) as (c & pls & Hc & Hs' & Hk')
    end.
    - exact Hs.
    - exact Hcur.
    - cbn [players with_players]. rewrite Hk. exact Hin.
    - exists c, pls. split; [exact Hc |]. split; [exact Hs' |].
      cbn [players with_players] in Hk'. rewrite Hk'. exact Hk. }
  destruct (mi_action mi).
  - destruct (Hcap (mkLudoPiece (piece_id piece) (owner piece) ACTIVE (mi_to mi)
                      (safe_zone_pos piece)))
      as (c & pls & Hc & Hs & Hk); try reflexivity; [exact Hact |].
    rewrite Hc. cbn [bind fst snd].
    eexists _, pls. split; [discriminate |]. split; [reflexivity |]. split; assumption.
  - destruct Hact as [Hst Hto].
    destruct (Hcap (mkLudoPiece (piece_id piece) (owner piece) (piece_state piece)
                      (mi_to mi) (safe_zone_pos piece)))
      as (c & pls & Hc & Hs & Hk); try reflexivity.
    + unfold piece_ok. cbn [piece_state position]. rewrite Hst. exact Hto.
    + unfold is_finished. cbn [piece_state]. rewrite Hst. reflexivity.
    + rewrite Hc. cbn [bind fst snd].
      eexists _, pls. split; [discriminate |]. split; [reflexivity |]. split; assumption.
  - destruct (Hput (mkLudoPiece (piece_id piece) (owner piece) SAFE_ZONE (-1) (mi_to mi)) 0)
      as [Hs Hk]; try reflexivity; [exact Hact |].
    eexists _, _. split; [discriminate |]. split; [reflexivity |]. split; assumption.
  - destruct Hact as [Hst Hto].
    destruct (Hput (mkLudoPiece (piece_id piece) (owner piece) (piece_state piece)
                      (position piece) (mi_to mi)) 0)
      as [Hs Hk]; try reflexivity.
    + unfold piece_ok. cbn [piece_state safe_zone_pos]. rewrite Hst. exact Hto.
    + unfold is_finished. cbn [piece_state]. rewrite Hst. reflexivity.
    + eexists _, _. split; [discriminate |]. split; [reflexivity |]. split; assumption.
  - destruct (Hput (mkLudoPiece (piece_id piece) (owner piece) FINISHED (-2) (-1)) 1)
      as [Hs Hk]; try reflexivity.
    eexists _, _. split; [discriminate |]. split; [reflexivity |]. split; assumption.
Qed.

Lemma four_pieces (pl : LudoPlayer) : player_ok pl -> length (pieces pl) = 4%nat.
Proof.
  intros (Hid & _). apply (f_equal (@length Z)) in Hid.
  rewrite length_map in Hid. exact Hid.
Qed.

Lemma count_finished_le (ps : list LudoPiece) :
  count_finished ps <= Z.of_nat (length ps).
Proof.
  unfold count_finished. pose proof (List.filter_length_le is_finished ps). lia.
Qed.

(** [move_piece] on a game in good order. *)
Lemma move_piece_ok (t_move t_turn : float) (e : LudoEngine) (uid : UUID) (pid : Z) :
  engine_ok e ->
  exists out e',
    move_piece t_move t_turn e uid pid = Ok (out, e') /\ engine_ok e' /\
    (forall msg, out = MoveError msg -> e' = e) /\
    (state e = MOVING -> current_user_id e = Ok uid ->
     forall r pl piece,
       current_roll e = Some r -> current_player e = Ok pl -> 0 <= pid ->
       pieces pl !! Z.to_nat pid = Some piece ->
       _can_move_piece piece (value r) <> None ->
       forall msg, out <> MoveError msg) /\
    (forall w c rk n,
        out = GameOver w c rk n ->
        w = uid /\ state e' = COMPLETED /\ winner e' = Some uid /\
        exists plw, dict_get (players e') uid = Ok plw /\
                    Forall (fun p => piece_state p = FINISHED) (pieces plw)) /\
    (forall m, out = MoveRollAgain m \/ (exists next, out = MoveNext m next) ->
               state e' = ROLLING /\ winner e' = winner e /\
               exists plm, dict_get (players e') uid = Ok plm /\
                           count_finished (pieces plm) < 4).
Proof.
  intros Hok. unfold move_piece.
  destruct (state e) eqn:Est; cbn [state_eqb negb];
    try (eexists _, _; split; [reflexivity |]; split; [exact Hok |];
         split; [reflexivity |]; split; [discriminate |];
         split; [discriminate |]; intros m [Hm | [next Hm]]; discriminate Hm).
  destruct (current_player_ok e Hok) as (cur & pl & Hcur & Hpl & Hget & Hu & Hplok).
  rewrite Hcur. cbn [bind].
  destruct (String.eqb_spec uid cur) as [-> | Hne]; cbn [negb].
  2:{ eexists _, _. split; [reflexivity |]. split; [exact Hok |].
      split; [reflexivity |]. split; [intros _ H; congruence |].
      split; [discriminate |]. intros m [Hm | [next Hm]]; discriminate Hm. }
  destruct (current_roll e) as [r |] eqn:Eroll.
  2:{ eexists _, _. split; [reflexivity |]. split; [exact Hok |].
      split; [reflexivity |]. split; [intros _ _ r0 pl0 pc0 H; discriminate H |].
      split; [discriminate |]. intros m [Hm | [next Hm]]; discriminate Hm. }
  rewrite Hpl. cbn [bind].
  pose proof (four_pieces pl Hplok) as Hfour. rewrite Hfour.
  destruct (Z.ltb_spec pid 0) as [Hneg | Hnn]; cbn [orb].
  { eexists _, _. split; [reflexivity |]. split; [exact Hok |].
    split; [reflexivity |]. split; [intros _ _ r0 pl0 pc0 _ _ H; lia |].
    split; [discriminate |]. intros m [Hm | [next Hm]]; discriminate Hm. }
  destruct (Z.leb_spec (Z.of_nat 4) pid) as [Hbig | Hsmall].
  { eexists _, _. split; [reflexivity |]. split; [exact Hok |].
    split; [reflexivity |]. split.
    - intros _ _ r0 pl0 pc0 _ Hpl0 _ Hlook _.
      injection Hpl0 as <-.
      apply lookup_lt_Some in Hlook. lia.
    - split; [discriminate |]. intros m [Hm | [next Hm]]; discriminate Hm. }
  destruct (py_index_in_range (pieces pl) pid) as [piece Hpiece]; [lia |].
  rewrite Hpiece. cbn [bind].
  destruct (py_index_lookup _ _ _ Hpiece Hnn) as [Hlook _].
  assert (Hrange : 1 <= value r <= 6)
    by (destruct Hok as (_ & _ & _ & _ & Hr); apply Hr; exact Eroll).
  destruct (validate_ok e cur pl (Z.to_nat pid) piece (value r) Hok Hcur Hpl Hget Hlook Hrange)
    as [(Hnone & Hval) | (mr & pls & Hsome & Hval & Hseats & Hkeys)];
    rewrite Hval; cbn [bind].
  { eexists _, _. split; [reflexivity |]. split; [exact Hok |].
    split; [reflexivity |]. split.
    - intros _ _ r0 pl0 pc0 Hr0 Hpl0 _ Hlook0 Hcan.
      injection Hr0 as <-. injection Hpl0 as <-.
      rewrite Hlook in Hlook0. injection Hlook0 as <-. contradiction.
    - split; [discriminate |]. intros m [Hm | [next Hm]]; discriminate Hm. }
  destruct Hok as (Hseats0 & Horder & Hidx & Hcount & Hroll).
  set (move := mkLudoMove (move_counter (with_players e pls) + 1) (color pl) pid r
                 (mr_from mr) (mr_to mr) (mr_capture mr) (mr_entered_safe_zone mr)
                 (mr_finished mr) t_move).
  set (e2 := mkEngine (match_id (with_players e pls)) (state (with_players e pls))
               (players (with_players e pls)) (player_order (with_players e pls))
               (dice (with_players e pls)) (current_player_index (with_players e pls))
               (current_roll (with_players e pls)) (consecutive_sixes (with_players e pls))
               (can_roll_again (with_players e pls))
               (moves_history (with_players e pls) ++ [move])
               (move_counter (with_players e pls) + 1)
               (started_at (with_players e pls)) (turn_started_at (with_players e pls))
               (winner (with_players e pls)) (rankings (with_players e pls))).
  assert (Hok2 : engine_ok e2).
  { unfold engine_ok, e2. cbn [players player_order current_player_index move_counter
                               moves_history current_roll with_players].
    split; [exact Hseats |]. split; [rewrite Hkeys; exact Horder |].
    split; [exact Hidx |]. split; [rewrite length_app; cbn [length]; lia |].
    exact Hroll. }
  destruct (current_player_ok e2 Hok2) as (cur2 & pl2 & Hcur2 & Hpl2 & Hget2 & Hu2 & Hplok2).
  assert (Hc2 : cur2 = cur)
    by (change (current_user_id e2) with (current_user_id e) in Hcur2; congruence).
  rewrite Hc2 in Hu2, Hget2. clear Hc2 Hcur2. rewrite Hpl2. cbn [bind].
  change (players e2) with pls in Hget2.
  unfold LudoConfig.PIECES_PER_PLAYER.
  destruct (Z.leb_spec 4 (pieces_finished pl2)) as [Hwin | Hnot].
  - unfold _handle_victory. eexists _, _. split; [reflexivity |].
    split.
    { destruct Hok2 as (H1 & H2 & H3 & H4 & H5). unfold engine_ok.
      split; [exact H1 |]. split; [exact H2 |]. split; [exact H3 |].
      split; [exact H4 | exact H5]. }
    split; [discriminate |]. split; [discriminate |].
    split; [| intros m [Hm | [next Hm]]; discriminate Hm].
    intros w c rk n Hw. injection Hw as <- _ _ _.
    split; [exact Hu2 |]. split; [reflexivity |].
    split; [cbn [winner]; rewrite Hu2; reflexivity |].
    exists pl2. cbn [players]. split; [exact Hget2 |].
    apply all_finished. rewrite (four_pieces pl2 Hplok2).
    destruct Hplok2 as (_ & _ & Hfin). rewrite <- Hfin. exact Hwin.
  - assert (Hless : count_finished (pieces pl2) < 4)
      by (destruct Hplok2 as (_ & _ & Hfin); rewrite <- Hfin; exact Hnot).
    destruct (can_roll_again e2
              || match mr_capture mr with
                 | Some _ => true
                 | None => mr_finished mr
                 end).
    + eexists _, _. split; [reflexivity |].
      split.
      { destruct Hok2 as (H1 & H2 & H3 & H4 & H5). unfold engine_ok.
        split; [exact H1 |]. split; [exact H2 |]. split; [exact H3 |].
        split; [exact H4 |]. discriminate. }
      split; [discriminate |]. split; [discriminate |].
      split; [discriminate |].
      intros m _. split; [reflexivity |]. split; [reflexivity |].
      exists pl2. split; [exact Hget2 | exact Hless].
    + destruct (next_turn_ok t_turn e2 Hok2)
        as (e3 & next & Hnt & Hnext & Hok3 & Hst3 & Hpl3 & _ & Hw3).
      rewrite Hnt. cbn [bind]. rewrite Hnext. cbn [bind].
      eexists _, _. split; [reflexivity |]. split; [exact Hok3 |].
      split; [discriminate |]. split; [discriminate |].
      split; [discriminate |].
      intros m _. split; [exact Hst3 |]. split; [exact Hw3 |].
      exists pl2. rewrite Hpl3. split; [exact Hget2 | exact Hless].
Qed.

Lemma new_player_ok (uid : UUID) (c : PlayerColor) (now : float) :
  seat_ok (uid, new_player uid c now).
Proof.
  split; [reflexivity |]. cbn [snd]. unfold player_ok, new_player.
  cbn [pieces color pieces_finished map piece_id].
  split; [reflexivity |]. split; [| reflexivity].
  repeat constructor.
Qed.

Lemma seat_in_order (uids : list UUID) (colors : list PlayerColor) (now : float)
    (acc : list (UUID * LudoPlayer) * list UUID) :
  Forall seat_ok (fst acc) ->
  Forall (fun uid => In uid (map fst (fst acc))) (snd acc) ->
  Forall seat_ok (fst (seat uids colors now acc)) /\
  Forall (fun uid => In uid (map fst (fst (seat uids colors now acc))))
         (snd (seat uids colors now acc)) /\
  (length (snd acc) <= length (snd (seat uids colors now acc)))%nat /\
  (uids <> [] -> colors <> [] ->
   (length (snd acc) < length (snd (seat uids colors now acc)))%nat).
Proof.
  revert colors acc. induction uids as [| uid us IH]; intros colors acc Hs Ho.
  - cbn [seat]. repeat split; try assumption; try lia. intros H. contradiction H. reflexivity.
  - destruct colors as [| c cs].
    + cbn [seat]. repeat split; try assumption; try lia.
      intros _ H. contradiction H. reflexivity.
    + cbn [seat].
      destruct (IH cs (dict_set (fst acc) uid (new_player uid c now), snd acc ++ [uid]))
        as (H1 & H2 & H3 & _).
      * cbn [fst]. apply dict_set_forall; [exact Hs | apply new_player_ok].
      * cbn [fst snd]. apply Forall_app. split.
        -- eapply Forall_impl; [exact Ho |]. intros x Hx. cbn beta in *.
           apply dict_set_keeps_keys. left. exact Hx.
        -- constructor; [| constructor]. apply dict_set_keeps_keys. right. reflexivity.
      * cbn [snd] in H3. rewrite length_app in H3. cbn [length] in H3.
        repeat split; try assumption; lia.
Qed.

Lemma init_ok (now : float) (token : string) (mid : UUID) (uids : list UUID) :
  uids <> [] -> engine_ok (LudoEngine_init now token mid uids).
Proof.
  intros Hne. unfold LudoEngine_init.
  destruct (seat_in_order uids [RED; BLUE; GREEN; YELLOW] now ([], []))
    as (H1 & H2 & _ & H4); [constructor | constructor |].
  specialize (H4 Hne ltac:(discriminate)).
  destruct (seat uids [RED; BLUE; GREEN; YELLOW] now ([], [])) as [pls order].
  cbn [fst snd length] in *. unfold engine_ok.
  cbn [players player_order current_player_index move_counter moves_history current_roll
       length].
  split; [exact H1 |]. split; [exact H2 |]. split; [lia |]. split; [reflexivity |].
  discriminate.
Qed.

Lemma encode_encodable (s : Unicode.str) :
  Unicode.encodable s = true -> exists bytes, Unicode.encode s = Ok bytes.
Proof.
  induction s as [| c rest IH]; cbn [Unicode.encodable forallb Unicode.encode].
  - intros _. eexists. reflexivity.
  - intros H. apply andb_true_iff in H. destruct H as [Hc Hrest].
    apply negb_true_iff in Hc. rewrite Hc.
    destruct (IH Hrest) as (bytes & ->). cbn [bind]. eexists. reflexivity.
Qed.

Lemma encode_raises (s : Unicode.str) (e : exn) :
  Unicode.encode s = Raise e -> e = UnicodeEncodeError /\ Unicode.encodable s = false.
Proof.
  induction s as [| c rest IH]; cbn [Unicode.encodable forallb Unicode.encode];
    [discriminate |].
  destruct (Unicode.is_surrogate c); cbn [negb andb].
  - intros E. injection E as <-. split; reflexivity.
  - destruct (Unicode.encode rest) as [bytes | e']; cbn [bind]; [discriminate |].
    intros E. injection E as <-. apply IH. reflexivity.
Qed.

Lemma game_step_ok (e : LudoEngine) (c : game_call) :
  engine_ok e -> seed_encodable c = true ->
  exists e', game_step e c = Ok e' /\ engine_ok e'.
Proof.
  intros Hok Henc.
  destruct c as [now | t1 t2 uid seed | t1 t2 uid pid]; cbn [game_step].
  - eexists. split; [reflexivity |]. unfold start_game.
    destruct (state_eqb (state e) WAITING); cbn [negb snd]; [| exact Hok].
    destruct Hok as (H1 & H2 & H3 & H4 & H5). unfold engine_ok.
    split; [exact H1 |]. split; [exact H2 |]. split; [exact H3 |].
    split; [exact H4 | exact H5].
  - assert (Hr : exists seed', roll_dice_str t1 t2 e uid seed = roll_dice t1 t2 e uid seed').
    { unfold roll_dice_str. destruct seed as [s |]; [| exists None; reflexivity].
      cbn [seed_encodable] in Henc.
      destruct (encode_encodable s Henc) as (bytes & ->).
      exists (Some bytes). reflexivity. }
    destruct Hr as (seed' & ->).
    destruct (roll_dice_ok t1 t2 e uid seed' Hok) as (out & e' & Hr & Hok' & _).
    rewrite Hr. cbn [bind snd]. exists e'. split; [reflexivity | exact Hok'].
  - destruct (move_piece_ok t1 t2 e uid pid Hok) as (out & e' & Hm & Hok' & _).
    rewrite Hm. cbn [bind snd]. exists e'. split; [reflexivity | exact Hok'].
Qed.

(** A call raises only where a client seed cannot be encoded, and then it is
    [UnicodeEncodeError]. *)
Lemma game_step_raises (e : LudoEngine) (c : game_call) (x : exn) :
  engine_ok e -> game_step e c = Raise x ->
  x = UnicodeEncodeError /\ seed_encodable c = false.
Proof.
  intros Hok Hraise.
  destruct (seed_encodable c) eqn:Henc.
  - destruct (game_step_ok e c Hok Henc) as (e' & He' & _). congruence.
  - split; [| reflexivity].
    destruct c as [now | t1 t2 uid [s |] | t1 t2 uid pid]; try discriminate Henc.
    cbn [game_step] in Hraise. unfold roll_dice_str in Hraise.
    destruct (Unicode.encode s) as [bytes | e0] eqn:Hs.
    + destruct (roll_dice_ok t1 t2 e uid (Some bytes) Hok) as (out & e' & Hr & _).
      rewrite Hr in Hraise. discriminate Hraise.
    + destruct (encode_raises s e0 Hs) as [-> _].
      destruct (negb (state_eqb (state e) ROLLING)); [discriminate Hraise |].
      destruct (current_player_ok e Hok) as (cur & pl & Hcur & _).
      rewrite Hcur in Hraise. cbn [bind] in Hraise.
      destruct (negb (String.eqb uid cur)); [discriminate Hraise |].
      cbn [bind] in Hraise. congruence.
Qed.

(** X3. The engine never raises on seeds that can be encoded, and keeps the
    game in good order.  A game created for at least one player, then started,
    rolled and moved by any users, for any pieces, in any order and any number
    of times, the client seeds of the rolls being strings that UTF-8 can
    encode (no surrogate code point), answers every call (with a result or
    with an error message, never with an exception), and after every call each
    player still has the pieces 0 to 3 of its own colour, each at a place its
    state allows, the count of finished pieces of each player is the number of
    its FINISHED pieces, the turn is on a seated player, the move counter is
    the length of the history, and a pending roll shows 1 to 6. *)
Theorem game_never_raises_and_stays_in_order (now : float) (token : string) (mid : UUID)
    (uids : list UUID) (calls : list game_call) :
  uids <> [] ->
  Forall (fun c => seed_encodable c = true) calls ->
  exists e, game_run calls (LudoEngine_init now token mid uids) = Ok e /\ engine_ok e.
Proof.
  intros Hne Henc. pose proof (init_ok now token mid uids Hne) as Hok.
  generalize dependent (LudoEngine_init now token mid uids). clear Hne.
  induction Henc as [| c rest Hc _ IH]; intros e Hok.
  - exists e. split; [reflexivity | exact Hok].
  - cbn [game_run]. destruct (game_step_ok e c Hok Hc) as (e' & Hs & Hok').
    rewrite Hs. cbn [bind]. apply IH. exact Hok'.
Qed.

Lemma count_of_all_finished (ps : list LudoPiece) :
  Forall (fun p => piece_state p = FINISHED) ps ->
  count_finished ps = Z.of_nat (length ps).
Proof.
  unfold count_finished. induction 1 as [| p ps Hp _ IH]; [reflexivity |].
  change (List.filter is_finished (p :: ps))
    with (if is_finished p then p :: List.filter is_finished ps
          else List.filter is_finished ps).
  unfold is_finished at 1. rewrite Hp. cbn [length]. lia.
Qed.

(** X4. The game is won by finishing four pieces, and only so.  On a game in
    good order, when [move_piece] announces the end of the game, the winner is
    the player who moved, all four pieces of that player are FINISHED, and the
    game is COMPLETED with that winner; when it answers with a move instead,
    the player who moved still has a piece that is not FINISHED, no winner is
    set by the call, and the game is ROLLING; and when it answers with an
    error, nothing has changed. *)
Theorem game_is_won_by_four_finished_pieces (t_move t_turn : float) (e e' : LudoEngine)
    (uid : UUID) (pid : Z) (out : MoveOutcome) :
  engine_ok e ->
  move_piece t_move t_turn e uid pid = Ok (out, e') ->
  match out with
  | GameOver w _ _ _ =>
      w = uid /\ state e' = COMPLETED /\ winner e' = Some uid /\
      exists pl, dict_get (players e') uid = Ok pl /\
                 Forall (fun p => piece_state p = FINISHED) (pieces pl)
  | MoveRollAgain _ | MoveNext _ _ =>
      state e' = ROLLING /\ winner e' = winner e /\
      exists pl, dict_get (players e') uid = Ok pl /\
                 ~ Forall (fun p => piece_state p = FINISHED) (pieces pl)
  | MoveError _ => e' = e
  end.
Proof.
  intros Hok Hmove.
  destruct (move_piece_ok t_move t_turn e uid pid Hok)
    as (out0 & e0 & Hm & Hok' & Herr & _ & Hwin & Hgo).
  rewrite Hmove in Hm. injection Hm as <- <-.
  assert (Hnot : forall m, out = MoveRollAgain m \/ (exists next, out = MoveNext m next) ->
                 state e' = ROLLING /\ winner e' = winner e /\
                 exists pl, dict_get (players e') uid = Ok pl /\
                            ~ Forall (fun p => piece_state p = FINISHED) (pieces pl)).
  { intros m Hm. destruct (Hgo m Hm) as (H1 & H2 & pl & Hget & Hless).
    split; [exact H1 |]. split; [exact H2 |]. exists pl. split; [exact Hget |].
    intros Hall. rewrite (count_of_all_finished _ Hall) in Hless.
    destruct Hok' as (Hseats & _).
    destruct (dict_get_forall _ _ _ _ Hseats Hget) as [_ Hplok]. cbn [snd] in Hplok.
    rewrite (four_pieces pl Hplok) in Hless. lia. }
  destruct out as [msg | m | m next | w c rk n].
  - apply (Herr msg). reflexivity.
  - apply (Hnot m). left. reflexivity.
  - apply (Hnot m). right. exists next. reflexivity.
  - apply (Hwin w c rk n). reflexivity.
Qed.

Lemma offered_move_has_a_piece (ps : list LudoPiece) (dice_value : Z) (m : AvailableMove) :
  In m (moves_of_pieces ps dice_value) ->
  exists piece, In piece ps /\ am_piece_id m = piece_id piece /\
                _can_move_piece piece dice_value <> None.
Proof.
  unfold moves_of_pieces. induction ps as [| p ps IH]; [intros [] |].
  cbn [flat_map]. intros H. apply in_app_or in H. destruct H as [H | H].
  - destruct (_can_move_piece p dice_value) as [mi |] eqn:E; [| destruct H].
    destruct H as [<- | []]. exists p. cbn [am_piece_id].
    split; [left; reflexivity |]. split; [reflexivity |]. rewrite E. discriminate.
  - destruct (IH H) as (piece & Hin & Hid & Hcan).
    exists piece. split; [right; exact Hin |]. split; assumption.
Qed.

Lemma piece_is_at_its_number (ps : list LudoPiece) (p : LudoPiece) :
  map piece_id ps = [0; 1; 2; 3] -> In p ps ->
  0 <= piece_id p /\ ps !! Z.to_nat (piece_id p) = Some p.
Proof.
  destruct ps as [| p0 [| p1 [| p2 [| p3 [| p4 ps]]]]]; try discriminate.
  cbn [map]. intros H. injection H as H0 H1 H2 H3.
  intros [<- | [<- | [<- | [<- | []]]]];
    [rewrite H0 | rewrite H1 | rewrite H2 | rewrite H3]; split; try lia; reflexivity.
Qed.

(** X5. Every move the roll offers is accepted.  On a game in good order,
    when [roll_dice] answers with a list of available moves, the game is
    MOVING, and [move_piece] called by the same player for the piece of any
    move of that list returns and does not answer with an error. *)
Theorem offered_moves_are_accepted (t_roll t_turn t_move t_next : float)
    (e e1 : LudoEngine) (uid : UUID) (seed : option string) (r : DiceRoll)
    (available : list AvailableMove) (again : bool) (m : AvailableMove) :
  engine_ok e ->
  roll_dice t_roll t_turn e uid seed = Ok (RollMoves r available again, e1) ->
  In m available ->
  state e1 = MOVING /\
  exists out e2,
    move_piece t_move t_next e1 uid (am_piece_id m) = Ok (out, e2) /\
    forall msg, out <> MoveError msg.
Proof.
  intros Hok Hroll Hin.
  destruct (roll_dice_ok t_roll t_turn e uid seed Hok)
    as (out0 & e0 & Hr & Hok1 & _ & Hmoves).
  rewrite Hroll in Hr. injection Hr as <- <-.
  destruct (Hmoves r available again eq_refl)
    as (Hst & Hcur & Hcr & _ & pl & Hpl & Hav).
  split; [exact Hst |].
  subst available.
  destruct (offered_move_has_a_piece _ _ _ Hin) as (piece & Hpin & Hid & Hcan).
  destruct (current_player_ok e1 Hok1) as (cur & pl' & _ & Hpl' & _ & _ & Hplok).
  rewrite Hpl in Hpl'. injection Hpl' as <-.
  destruct (piece_is_at_its_number _ _ (proj1 Hplok) Hpin) as [Hnn Hlook].
  destruct (move_piece_ok t_move t_next e1 uid (am_piece_id m) Hok1)
    as (out & e2 & Hm & _ & _ & Hacc & _).
  exists out, e2. split; [exact Hm |].
  rewrite Hid in *. eapply Hacc; eassumption.
Qed.

(** The games of the worked examples are in good order. *)
Lemma example_games_ok :
  engine_ok game_start /\ engine_ok game_first_six.
Proof.
  assert (H0 : engine_ok game_start).
  { destruct (game_step_ok
                (LudoEngine_init 0 "seed" sample_match_id ["alice"; "bob"]%string)
                (CallStart 0)) as (e & He & Hok).
    - apply init_ok. discriminate.
    - reflexivity.
    - cbn [game_step] in He. injection He as <-. exact Hok. }
  split; [exact H0 |].
  unfold game_first_six, keep.
  destruct (roll_dice_ok 1 1 game_start "alice" (Some "s53"%string) H0)
    as (out & e & Hr & Hok & _).
  rewrite Hr. exact Hok.
Qed.

End EngineFacts.

Lemma game_never_raises_and_stays_in_order_witness :
  Forall (fun c => Ludo.seed_encodable c = true)
    [Ludo.CallStart 0; Ludo.CallRollDice 1 1 "alice" (Some [115; 53; 51; 233; 128512]);
     Ludo.CallMovePiece 2 2 "alice" 0; Ludo.CallMovePiece 2 2 "bob" 7] /\
  exists e,
    Ludo.game_run
      [Ludo.CallStart 0; Ludo.CallRollDice 1 1 "alice" (Some [115; 53; 51; 233; 128512]);
       Ludo.CallMovePiece 2 2 "alice" 0; Ludo.CallMovePiece 2 2 "bob" 7]
      (Ludo.LudoEngine_init 0 "seed" Spec.sample_match_id ["alice"; "bob"]%string) = Ok e /\
    Spec.engine_ok e.
Proof.
  assert (H : Forall (fun c => Ludo.seed_encodable c = true)
    [Ludo.CallStart 0; Ludo.CallRollDice 1 1 "alice" (Some [115; 53; 51; 233; 128512]);
     Ludo.CallMovePiece 2 2 "alice" 0; Ludo.CallMovePiece 2 2 "bob" 7]).
  { repeat constructor. }
  split; [exact H |].
  apply (game_never_raises_and_stays_in_order 0 "seed" Spec.sample_match_id
           ["alice"; "bob"]%string).
  - discriminate.
  - exact H.
Defined.

(** The seed is a [str] the client chooses: one that holds a lone surrogate
    makes the roll of the player whose turn it is raise [UnicodeEncodeError];
    sent by a player whose turn it is not, it is refused before it is looked
    at, and the game goes on. *)
Example surrogate_seed_raises_at_the_roll :
  Ludo.game_run
    [Ludo.CallStart 0; Ludo.CallRollDice 1 1 "alice" (Some [55357])]
    (Ludo.LudoEngine_init 0 "seed" Spec.sample_match_id ["alice"; "bob"]%string)
  = Raise UnicodeEncodeError /\
  Ludo.game_run
    [Ludo.CallStart 0; Ludo.CallRollDice 1 1 "bob" (Some [55357])]
    (Ludo.LudoEngine_init 0 "seed" Spec.sample_match_id ["alice"; "bob"]%string)
  = Ok Spec.game_start /\
  Unicode.encode [115; 53; 51] = Ok "s53"%string.
Proof. vm_compute. repeat split; reflexivity. Qed.

Lemma game_is_won_by_four_finished_pieces_witness :
  Spec.engine_ok Spec.game_first_six /\
  exists out e',
    Ludo.move_piece 2 2 Spec.game_first_six "alice" 0 = Ok (out, e') /\
    Ludo.state e' = Ludo.ROLLING.
Proof.
  split; [exact (proj2 example_games_ok) |].
  destruct (Ludo.move_piece 2 2 Spec.game_first_six "alice" 0) as [[out e'] | err] eqn:H.
  - exists out, e'. split; [reflexivity |].
    pose proof (game_is_won_by_four_finished_pieces 2 2 _ _ _ _ _
                  (proj2 example_games_ok) H) as Hthm.
    vm_compute in H. injection H as <- <-. exact (proj1 Hthm).
  - vm_compute in H. discriminate H.
Defined.

Lemma offered_moves_are_accepted_witness :
  Spec.engine_ok Spec.game_start /\
  exists r available again e1 m,
    Ludo.roll_dice 1 1 Spec.game_start "alice" (Some "s53"%string)
    = Ok (Ludo.RollMoves r available again, e1) /\
    In m available /\ Ludo.state e1 = Ludo.MOVING.
Proof.
  split; [exact (proj1 example_games_ok) |].
  destruct (Ludo.roll_dice 1 1 Spec.game_start "alice" (Some "s53"%string))
    as [[out e1] | err] eqn:H.
  - pose proof H as H'. vm_compute in H'. injection H' as Hout _. subst out.
    eexists _, _, _, e1, _. split; [reflexivity |].
    split; [left; reflexivity |].
    exact (proj1 (offered_moves_are_accepted 1 1 2 2 _ _ _ _ _ _ _ _
                    (proj1 example_games_ok) H (or_introl eq_refl))).
  - vm_compute in H. discriminate H.
Defined.

(** ** The treasury ledger over any sequence of calls (game_engine.py) *)

Section LedgerFacts.
Import GameEngine.

Lemma sub_self_is_zero (x : Dec.t) : Dec.eqb (Dec.sub x x) (Dec.Dc 0 0) = true.
Proof.
  unfold Dec.sub, Dec.align. rewrite Z.sub_diag.
  unfold Dec.fix_prec. cbn [Dec.coef Dec.dexp].
  change (Dec.too_long 0) with false. cbv iota.
  unfold Dec.eqb, Dec.align. cbn [Dec.coef Dec.dexp]. rewrite !Z.mul_0_l. reflexivity.
Qed.

Lemma sum_of_rakes_snoc (es : list LedgerEntry) (e : LedgerEntry) :
  sum_of_rakes (es ++ [e]) = Dec.add (sum_of_rakes es) (rake_amount e).
Proof. unfold sum_of_rakes. rewrite fold_left_app. reflexivity. Qed.

Lemma invalid_ids_snoc (es : list LedgerEntry) (e : LedgerEntry) :
  validate_balance_equation e = true -> invalid_ids (es ++ [e]) = invalid_ids es.
Proof.
  intros H. unfold invalid_ids. rewrite List.filter_app. cbn [List.filter].
  rewrite H. cbn [negb]. rewrite app_nil_r. reflexivity.
Qed.

(** What every ledger built through its own methods satisfies. *)
Lemma ledger_step_keeps_books (l : TreasuryLedger) (c : ledger_call) :
  Spec.books_balance l -> Spec.books_balance (ledger_step l c).
Proof.
  intros (Hbal & Hinv & Hst & Hpend).
  destruct c as [ni now mid w lo bet wb lb | eid | eid]; cbn [ledger_step].
  - unfold create_match_settlement.
    destruct (calculate_fee bet 2) as [fee | e]; cbn [bind]; [| repeat split; assumption].
    match goal with
    | |- Spec.books_balance (match (if negb (validate_balance_equation ?e) then _ else _) with _ => _ end) =>
        destruct (validate_balance_equation e) eqn:Hv; cbn [negb]
    end; [| repeat split; assumption].
    repeat split; cbn [entries treasury_balance pending_entries]; try assumption.
    apply map_Forall_insert_2; [| exact Hpend].
    exact Hv.
  - unfold commit_entry.
    destruct (pending_entries l !! eid) as [e |] eqn:He; cbn [snd]; [| repeat split; assumption].
    pose proof (Hpend _ _ He) as Hv. cbn beta in Hv.
    repeat split; cbn [entries treasury_balance pending_entries].
    + rewrite sum_of_rakes_snoc. rewrite Hbal. reflexivity.
    + rewrite invalid_ids_snoc; [exact Hinv |]. exact Hv.
    + apply Forall_app. split; [exact Hst |]. constructor; [reflexivity | constructor].
    + apply map_Forall_delete. exact Hpend.
  - unfold rollback_entry.
    destruct (pending_entries l !! eid) as [e |] eqn:He; cbn [snd]; [| repeat split; assumption].
    repeat split; cbn [entries treasury_balance pending_entries]; try assumption.
    apply map_Forall_delete. exact Hpend.
Qed.

Lemma ledger_run_keeps_books (calls : list ledger_call) (l : TreasuryLedger) :
  Spec.books_balance l -> Spec.books_balance (ledger_run calls l).
Proof.
  revert l. induction calls as [| c calls IH]; intros l H; [exact H |].
  apply IH. apply ledger_step_keeps_books. exact H.
Qed.

(** X6. Whatever settlements are created, committed and rolled back, in any
    order and with any arguments, on a ledger that starts empty, the audit of
    [verify_all_entries] reports integrity OK with no invalid entry, the
    recorded treasury balance is the recomputed one, and every entry on the
    books is COMMITTED. *)
Theorem audit_of_any_ledger_is_ok (calls : list ledger_call) :
  let report := verify_all_entries (ledger_run calls TreasuryLedger_init) in
  integrity_status report = "OK"%string /\
  invalid_entries report = [] /\
  recorded_balance report = calculated_balance report /\
  Forall (fun e => status e = COMMITTED) (entries (ledger_run calls TreasuryLedger_init)).
Proof.
  cbn zeta.
  destruct (ledger_run_keeps_books calls TreasuryLedger_init) as (Hbal & Hinv & Hst & _).
  { repeat split; try reflexivity; [constructor | apply map_Forall_empty]. }
  unfold verify_all_entries.
  cbn [integrity_status invalid_entries recorded_balance calculated_balance].
  rewrite Hinv, Hbal, sub_self_is_zero. repeat split; try reflexivity. exact Hst.
Qed.

(** X7. An entry is settled at most once: after [commit_entry] or
    [rollback_entry] has been called for an id, whatever it answered, a further
    commit or rollback of that id returns [False] and leaves the ledger, its
    treasury balance included, as it was. *)
Theorem entry_is_settled_once (l : TreasuryLedger) (eid : string) :
  (let l' := snd (commit_entry l eid) in
   commit_entry l' eid = (false, l') /\ rollback_entry l' eid = (false, l')) /\
  (let l' := snd (rollback_entry l eid) in
   commit_entry l' eid = (false, l') /\ rollback_entry l' eid = (false, l')).
Proof.
  cbn zeta. unfold commit_entry, rollback_entry.
  destruct (pending_entries l !! eid) as [e |] eqn:He; cbn [snd pending_entries].
  - rewrite lookup_delete_eq. repeat split; reflexivity.
  - rewrite He. repeat split; reflexivity.
Qed.

(** The one bet for which a settlement passes its own balance check is zero;
    such an entry goes through the books like any other. *)
Example zero_bet_is_booked :
  let l := ledger_run [CallCreate 1700000000 0 Spec.sample_match_id "alice" "bob"
                         (Dec.Dc 0 0) (Dec.Dc 10000 (-2)) (Dec.Dc 10000 (-2));
                       CallCommit "LED-3f2c1a9e-1700000000"] TreasuryLedger_init in
  length (entries l) = 1%nat /\
  integrity_status (verify_all_entries l) = "OK"%string.
Proof. vm_compute. split; reflexivity. Qed.

End LedgerFacts.

(** ** The pot is conserved (game_engine.py) *)

Section PotFacts.
Import GameEngine Spec.

Lemma rate_is_one_of_three (bet : Dec.t) :
  rate (get_rake_tier bet) = Dec.Dc 8 (-2) \/
  rate (get_rake_tier bet) = Dec.Dc 6 (-2) \/
  rate (get_rake_tier bet) = Dec.Dc 5 (-2).
Proof.
  unfold get_rake_tier, RAKE_TIERS. cbn [List.find].
  destruct (applies_to tier_semilla bet); [left; reflexivity |].
  destruct (applies_to tier_competidor bet); [right; left; reflexivity |].
  destruct (applies_to tier_pro bet); right; right; reflexivity.
Qed.

Lemma add_same_exp (a b e : Z) :
  Z.abs (a + b) < 10 ^ 28 -> Dec.add (Dec.Dc a e) (Dec.Dc b e) = Dec.Dc (a + b) e.
Proof.
  intros H. unfold Dec.add, Dec.align. cbn [Dec.coef Dec.dexp].
  rewrite Z.min_id, Z.sub_diag. change (10 ^ 0) with 1. rewrite !Z.mul_1_r.
  apply fix_prec_fits. exact H.
Qed.

Lemma eqb_same_exp (a b e : Z) : Dec.eqb (Dec.Dc a e) (Dec.Dc b e) = (a =? b).
Proof.
  unfold Dec.eqb, Dec.align. cbn [Dec.coef Dec.dexp].
  rewrite Z.min_id, Z.sub_diag. change (10 ^ 0) with 1. rewrite !Z.mul_1_r. reflexivity.
Qed.

Lemma leb_same_exp (a b e : Z) : Dec.leb (Dec.Dc a e) (Dec.Dc b e) = (a <=? b).
Proof.
  unfold Dec.leb, Dec.align. cbn [Dec.coef Dec.dexp].
  rewrite Z.min_id, Z.sub_diag. change (10 ^ 0) with 1. rewrite !Z.mul_1_r. reflexivity.
Qed.

Lemma ltb_same_exp (a b e : Z) : Dec.ltb (Dec.Dc a e) (Dec.Dc b e) = (a <? b).
Proof.
  unfold Dec.ltb, Dec.align. cbn [Dec.coef Dec.dexp].
  rewrite Z.min_id, Z.sub_diag. change (10 ^ 0) with 1. rewrite !Z.mul_1_r. reflexivity.
Qed.

(** Rounding a non-negative number of ten-thousandths to cents. *)
Lemma cents_of_fee (a : Z) :
  0 <= a ->
  a - 50 <= 100 * Dec.shift_round a 2 <= a + 50.
Proof.
  intros Ha. unfold Dec.shift_round, Dec.div_half_even.
  change (10 ^ 2) with 100.
  rewrite Z.abs_eq by exact Ha.
  pose proof (Z.div_mod a 100 ltac:(lia)) as Hdm.
  pose proof (Z.mod_pos_bound a 100 ltac:(lia)) as Hmod.
  destruct (Z.eq_dec a 0) as [-> | Hnz]; [vm_compute; split; discriminate |].
  rewrite (Z.sgn_pos a) by lia. rewrite Z.mul_1_l.
  destruct (Z.ltb_spec (2 * (a mod 100)) 100); [lia |].
  destruct (Z.ltb_spec 100 (2 * (a mod 100))); [lia |].
  destruct (Z.even (a / 100)); lia.
Qed.

(** X8. For every bet from 1.00 to 999999.00 written in cents and every table
    of 2 to 1000 players, [calculate_fee] returns; the prize plus the total fee
    is exactly the pot, no cent is created or lost by the rounding of the fee;
    the fee charged to a player is at most 8% of the bet plus half a cent; and
    the winner receives more than the stake. *)
Theorem pot_is_prize_plus_fees (c n : Z) :
  100 <= c <= 99999900 -> 2 <= n <= 1000 ->
  exists r,
    calculate_fee (Dec.Dc c (-2)) n = Ok r /\
    Dec.eqb (Dec.add (winner_prize r) (total_fee r)) (total_pot r) = true /\
    Dec.leb (Dec.Dc 0 0) (fee_per_player r) = true /\
    Dec.leb (Dec.mul (fee_per_player r) (Dec.Dc 100 0))
            (Dec.add (Dec.mul (Dec.Dc c (-2)) (Dec.Dc 8 0)) (Dec.Dc 50 (-2))) = true /\
    Dec.ltb (Dec.Dc c (-2)) (winner_prize r) = true.
Proof.
  intros Hc Hn.
  set (bet := Dec.Dc c (-2)).
  assert (Hr : exists r, 5 <= r <= 8 /\ rate (get_rake_tier bet) = Dec.Dc r (-2)).
  { destruct (rate_is_one_of_three bet) as [E | [E | E]]; rewrite E;
      [exists 8 | exists 6 | exists 5]; split; try lia; reflexivity. }
  destruct Hr as (r & Hr & Hrate).
  pose proof (cents_of_fee (c * r) ltac:(nia)) as Hf.
  set (f := Dec.shift_round (c * r) 2) in *.
  assert (E : exact_fee bet (get_rake_tier bet) n
              = mkFeeResult bet (Dec.Dc f (-2)) (Dec.Dc (c * n) (-2)) (Dec.Dc (f * n) (-2))
                  (Dec.Dc (c * n - f * n) (-2)) (Dec.Dc r (-2))
                  (level (get_rake_tier bet))).
  { unfold exact_fee, rounded_to_cents, exact_mul, exact_sub, Dec.rescale, Dec.align,
      Dec.of_int.
    rewrite Hrate. unfold bet at 1 2 3 4 5 6. cbn [Dec.coef Dec.dexp].
    change (-2 + -2) with (-4). change (-2 <=? -4) with false. cbv iota.
    change (-2 - -4) with 2. change (-2 + 0) with (-2).
    change (Z.min (-2) (-2)) with (-2). change (-2 - -2) with 0. change (10 ^ 0) with 1.
    rewrite !Z.mul_1_r. reflexivity. }
  exists (exact_fee bet (get_rake_tier bet) n).
  split.
  - apply calculate_fee_exact; rewrite ?E, ?Hrate; unfold fits, exact_mul, bet;
      cbn [Dec.coef Dec.dexp fee_per_player total_pot total_fee winner_prize]; nia.
  - rewrite E. cbn [fee_per_player total_pot total_fee winner_prize]. unfold bet.
    rewrite (add_same_exp (c * n - f * n) (f * n) (-2)) by nia.
    rewrite (mul_exact (Dec.Dc f (-2)) (Dec.Dc 100 0))
      by (unfold fits, exact_mul; cbn [Dec.coef Dec.dexp]; nia).
    rewrite (mul_exact (Dec.Dc c (-2)) (Dec.Dc 8 0))
      by (unfold fits, exact_mul; cbn [Dec.coef Dec.dexp]; nia).
    unfold exact_mul. cbn [Dec.coef Dec.dexp]. change (-2 + 0) with (-2).
    rewrite (add_same_exp (c * 8) 50 (-2)) by nia.
    rewrite !eqb_same_exp, !leb_same_exp, !ltb_same_exp.
    unfold Dec.leb, Dec.align. cbn [Dec.coef Dec.dexp].
    change (Z.min 0 (-2)) with (-2). change (-2 - -2) with 0. change (10 ^ 0) with 1.
    rewrite Z.mul_0_l, Z.mul_1_r.
    repeat split.
    + apply Z.eqb_eq. lia.
    + apply Z.leb_le. lia.
    + apply Z.leb_le. nia.
    + apply Z.ltb_lt. nia.
Qed.

Lemma pot_is_prize_plus_fees_witness :
  100 <= 1050 <= 99999900 /\ 2 <= 2 <= 1000 /\
  exists r,
    calculate_fee (Dec.Dc 1050 (-2)) 2 = Ok r /\
    Dec.eqb (Dec.add (winner_prize r) (total_fee r)) (total_pot r) = true /\
    Dec.leb (Dec.Dc 0 0) (fee_per_player r) = true /\
    Dec.leb (Dec.mul (fee_per_player r) (Dec.Dc 100 0))
            (Dec.add (Dec.mul (Dec.Dc 1050 (-2)) (Dec.Dc 8 0)) (Dec.Dc 50 (-2))) = true /\
    Dec.ltb (Dec.Dc 1050 (-2)) (winner_prize r) = true.
Proof.
  split; [lia |]. split; [lia |].
  apply (pot_is_prize_plus_fees 1050 2); lia.
Defined.

End PotFacts.

(** ** What the shield guarantees (security.py) *)

Section ShieldFacts.
Import Security.

Variable whole_seconds : Z -> Z.

Lemma record_device_usage_keeps (store : SecurityMemoryStore) (uid : UUID) (fp : string) :
  match_requests (record_device_usage store uid fp) = match_requests store /\
  quarantine (record_device_usage store uid fp) = quarantine store /\
  failed_matches (record_device_usage store uid fp) = failed_matches store.
Proof. unfold record_device_usage. destruct (String.eqb fp ""); repeat split. Qed.

Lemma is_in_quarantine_keeps (now : datetime) (store : SecurityMemoryStore) (uid : UUID) :
  let store' := snd (is_in_quarantine now store uid) in
  ip_to_users store' = ip_to_users store /\
  device_to_users store' = device_to_users store /\
  match_requests store' = match_requests store /\
  failed_matches store' = failed_matches store /\
  user_ips store' = user_ips store.
Proof.
  cbn zeta. unfold is_in_quarantine.
  destruct (quarantine store !! uid) as [until |]; [| repeat split].
  destruct (until <? now); repeat split.
Qed.

Ltac refused := cbn; (split; [split |]); discriminate.

(** X9. [verify_player] lets a player proceed exactly when its verdict is
    APPROVED, and an approved player is not frozen, not in quarantine, has a
    trust score of at least 30, has a verified KYC when the bet is 100.0 or
    more, has made at most 10 requests in the minute counted by the shield
    (this one included), and carries a risk score from 0 to 69. *)
Theorem approval_is_sound (clk : Clock) (store : SecurityMemoryStore)
    (profile : PlayerSecurityProfile) (bet_amount : Dec.t) :
  let r := fst (verify_player whole_seconds clk store profile bet_amount) in
  let store' := snd (verify_player whole_seconds clk store profile bet_amount) in
  (can_proceed r = true <-> verdict r = APPROVED) /\
  (verdict r = APPROVED ->
   is_frozen profile = false /\
   fst (is_in_quarantine (utc_check clk) store (user_id profile)) = None /\
   30 <= trust_score profile /\
   (Dec.leb SecurityConfig.HIGH_STAKE_THRESHOLD bet_amount = true ->
    kyc_status profile = "VERIFIED"%string) /\
   get_match_request_count (t_count clk) store' (user_id profile) <= 10 /\
   0 <= risk_score r < 70).
Proof.
  cbn zeta. unfold verify_player.
  destruct (is_frozen profile); [refused |].
  destruct (is_in_quarantine (utc_check clk) store (user_id profile)) as [until store1].
  destruct until as [until |]; [refused |].
  unfold SecurityConfig.MIN_TRUST_SCORE_FOR_MATCH.
  destruct (Z.ltb_spec (trust_score profile) 30) as [Hlow | Htrust];
    [refused |].
  destruct (Dec.leb SecurityConfig.HIGH_STAKE_THRESHOLD bet_amount) eqn:Hhigh;
    destruct (String.eqb (kyc_status profile) "VERIFIED") eqn:Hkyc; cbn [andb negb];
    try (destruct (String.eqb (trust_level profile) "RED");
         [| destruct (String.eqb (trust_level profile) "YELLOW")];
         refused).
  all: set (store2 := record_match_request (t_request clk) store1 (user_id profile)).
  all: unfold SecurityConfig.MAX_MATCH_REQUESTS_PER_MINUTE.
  all: destruct (Z.ltb_spec 10 (get_match_request_count (t_count clk) store2 (user_id profile)))
         as [Hmany | Hfew];
    [destruct (String.eqb (trust_level profile) "RED");
     [| destruct (String.eqb (trust_level profile) "YELLOW")];
     destruct (trust_score profile <? SecurityConfig.MIN_TRUST_SCORE_FOR_HIGH_STAKES);
     refused |].
  all: assert (Hcount : forall s,
         match_requests s = match_requests store2 ->
         get_match_request_count (t_count clk) s (user_id profile) <= 10)
         by (intros s Hs; unfold get_match_request_count in *; rewrite Hs; exact Hfew).
  all: apply String.eqb_eq in Hkyc || clear Hkyc.
  all: destruct (String.eqb (trust_level profile) "RED");
         [| destruct (String.eqb (trust_level profile) "YELLOW")];
         destruct (trust_score profile <? SecurityConfig.MIN_TRUST_SCORE_FOR_HIGH_STAKES);
         cbn [andb];
         destruct (SecurityConfig.MAX_FAILED_MATCHES_PER_HOUR <=?
                   get_failed_match_count (t_failed clk) store2 (user_id profile));
         destruct ((SecurityConfig.MIN_MATCHES_FOR_WIN_RATE <=? recent_matches profile)
                   && PrimFloat.leb SecurityConfig.SUSPICIOUS_WIN_RATE
                        (Jitter.int_div (recent_wins profile) (recent_matches profile)));
         destruct (3 <=? recent_disconnects profile);
         cbv beta iota zeta;
         match goal with
         | |- context [70 <=? ?x] =>
             let b := eval vm_compute in (70 <=? x) in
             let v := eval vm_compute in x in
             change (70 <=? x) with b; change x with v
         end;
         cbv beta iota zeta; cbn [fst snd verdict can_proceed risk_score];
         (split; [split; first [discriminate | reflexivity] |]);
         first [ discriminate
               | intros _; repeat split; try assumption; try discriminate; try lia;
                 try (intros _; assumption);
                 try (apply Hcount; destruct (device_fingerprint profile);
                      [rewrite (proj1 (record_device_usage_keeps _ _ _)) |]; reflexivity) ].
Qed.

(** The verdicts of [verify_player] in their order of precedence, each with
    the store it leaves. *)
Lemma verify_player_cases (clk : Clock) (store : SecurityMemoryStore)
    (profile : PlayerSecurityProfile) (bet_amount : Dec.t) :
  let r := fst (verify_player whole_seconds clk store profile bet_amount) in
  let store' := snd (verify_player whole_seconds clk store profile bet_amount) in
  let uid := user_id profile in
  let q := is_in_quarantine (utc_check clk) store uid in
  let store2 := record_match_request (t_request clk) (snd q) uid in
  let store3 := record_ip_usage (t_ip clk) (t_ip_cutoff clk) store2 uid (current_ip profile) in
  let tracked := match device_fingerprint profile with
                 | Some fp => record_device_usage store3 uid fp
                 | None => store3
                 end in
  (verdict r = DENIED_FROZEN /\ is_frozen profile = true /\ store' = store)
  \/ (is_frozen profile = false /\
      ((exists until, verdict r = DENIED_QUARANTINE /\ fst q = Some until /\
                      retry_after r = Some (whole_seconds (until - utc_retry clk)) /\
                      store' = snd q)
       \/ (fst q = None /\
           ((verdict r = DENIED_LOW_TRUST /\ trust_score profile < 30 /\ store' = snd q)
            \/ (30 <= trust_score profile /\
                ((verdict r = DENIED_KYC /\
                  Dec.leb SecurityConfig.HIGH_STAKE_THRESHOLD bet_amount = true /\
                  String.eqb (kyc_status profile) "VERIFIED" = false /\ store' = snd q)
                 \/ ((Dec.leb SecurityConfig.HIGH_STAKE_THRESHOLD bet_amount = true ->
                      kyc_status profile = "VERIFIED"%string) /\
                     ((verdict r = DENIED_RATE_LIMIT /\ retry_after r = Some 60 /\
                       10 < get_match_request_count (t_count clk) store2 uid /\
                       store' = store2)
                      \/ (get_match_request_count (t_count clk) store2 uid <= 10 /\
                          (verdict r = REVIEW_REQUIRED \/ verdict r = APPROVED) /\
                          store' = tracked))))))))).
Proof.
  cbn zeta. unfold verify_player.
  destruct (is_frozen profile); [left; cbn; repeat split |].
  right. split; [reflexivity |].
  destruct (is_in_quarantine (utc_check clk) store (user_id profile)) as [until store1].
  destruct until as [until |]; [left; exists until; cbn; repeat split |].
  right. split; [reflexivity |].
  unfold SecurityConfig.MIN_TRUST_SCORE_FOR_MATCH.
  destruct (Z.ltb_spec (trust_score profile) 30) as [Hlow | Htrust];
    [left; cbn; repeat split; exact Hlow |].
  right. split; [exact Htrust |].
  destruct (Dec.leb SecurityConfig.HIGH_STAKE_THRESHOLD bet_amount) eqn:Hhigh;
    destruct (String.eqb (kyc_status profile) "VERIFIED") eqn:Hkyc; cbn [andb negb];
    try solve [left; destruct (String.eqb (trust_level profile) "RED");
               [| destruct (String.eqb (trust_level profile) "YELLOW")];
               cbn; repeat split].
  all: right; split;
         [first [ intros _; apply String.eqb_eq; exact Hkyc | discriminate ] |].
  all: cbn [snd].
  all: set (store2 := record_match_request (t_request clk) store1 (user_id profile)).
  all: unfold SecurityConfig.MAX_MATCH_REQUESTS_PER_MINUTE.
  all: destruct (Z.ltb_spec 10 (get_match_request_count (t_count clk) store2 (user_id profile)))
         as [Hmany | Hfew];
    [left; destruct (String.eqb (trust_level profile) "RED");
     [| destruct (String.eqb (trust_level profile) "YELLOW")];
     destruct (trust_score profile <? SecurityConfig.MIN_TRUST_SCORE_FOR_HIGH_STAKES);
     cbn; repeat split; exact Hmany |].
  all: right; split; [exact Hfew |].
  all: destruct (String.eqb (trust_level profile) "RED");
         [| destruct (String.eqb (trust_level profile) "YELLOW")];
         destruct (trust_score profile <? SecurityConfig.MIN_TRUST_SCORE_FOR_HIGH_STAKES);
         cbn [andb];
         destruct (SecurityConfig.MAX_FAILED_MATCHES_PER_HOUR <=?
                   get_failed_match_count (t_failed clk) store2 (user_id profile));
         destruct ((SecurityConfig.MIN_MATCHES_FOR_WIN_RATE <=? recent_matches profile)
                   && PrimFloat.leb SecurityConfig.SUSPICIOUS_WIN_RATE
                        (Jitter.int_div (recent_wins profile) (recent_matches profile)));
         destruct (3 <=? recent_disconnects profile);
         cbv beta iota zeta;
         match goal with
         | |- context [70 <=? ?x] =>
             let b := eval vm_compute in (70 <=? x) in
             change (70 <=? x) with b
         end;
         cbv beta iota zeta; cbn [fst snd verdict];
         (split; [first [left; reflexivity | right; reflexivity] | reflexivity]).
Qed.

(** X10. A player the shield turns away as frozen, quarantined, of low trust,
    without KYC or over the rate limit leaves no trace in the IP and device
    histories that the collusion check reads, nor in the records of failed
    matches; and unless the refusal is the rate limit itself, the request is
    not counted against the rate limit. *)
Theorem refused_player_leaves_no_trace (clk : Clock) (store : SecurityMemoryStore)
    (profile : PlayerSecurityProfile) (bet_amount : Dec.t) :
  let r := fst (verify_player whole_seconds clk store profile bet_amount) in
  let store' := snd (verify_player whole_seconds clk store profile bet_amount) in
  verdict r = DENIED_FROZEN \/ verdict r = DENIED_QUARANTINE \/
  verdict r = DENIED_LOW_TRUST \/ verdict r = DENIED_KYC \/
  verdict r = DENIED_RATE_LIMIT ->
  ip_to_users store' = ip_to_users store /\
  device_to_users store' = device_to_users store /\
  user_ips store' = user_ips store /\
  failed_matches store' = failed_matches store /\
  (verdict r <> DENIED_RATE_LIMIT -> match_requests store' = match_requests store).
Proof.
  cbn zeta. intros Hv.
  pose proof (is_in_quarantine_keeps (utc_check clk) store (user_id profile)) as Hq.
  cbn zeta in Hq. destruct Hq as (Hq1 & Hq2 & Hq3 & Hq4 & Hq5).
  destruct (verify_player_cases clk store profile bet_amount)
    as [(V & _ & E)
       | (_ & [(until & V & _ & _ & E)
              | (_ & [(V & _ & E)
                     | (_ & [(V & _ & _ & E)
                            | (_ & [(V & _ & _ & E) | (_ & V & _)])])])])];
    rewrite ?E.
  - repeat split.
  - repeat split; intros; assumption.
  - repeat split; intros; assumption.
  - repeat split; intros; assumption.
  - unfold record_match_request.
    cbn [ip_to_users device_to_users user_ips failed_matches].
    repeat split; try assumption. intros Hn. elim Hn. exact V.
  - exfalso. destruct V as [V | V]; rewrite V in Hv;
      destruct Hv as [H | [H | [H | [H | H]]]]; discriminate H.
Qed.

(** X11. Quarantine holds for two hours.  After [trigger_quarantine] at time
    [now], a player who is not frozen is answered DENIED_QUARANTINE, with the
    seconds left as [retry_after], by every check made up to [now] + 2 h
    included; a check made later is not answered DENIED_QUARANTINE and leaves
    the store without the quarantine. *)
Theorem quarantine_lasts_two_hours (clk : Clock) (store : SecurityMemoryStore)
    (profile : PlayerSecurityProfile) (bet_amount : Dec.t) (now : datetime) :
  is_frozen profile = false ->
  let store1 := trigger_quarantine now store (user_id profile) in
  let r := fst (verify_player whole_seconds clk store1 profile bet_amount) in
  let store' := snd (verify_player whole_seconds clk store1 profile bet_amount) in
  (utc_check clk <= now + 7200000000 ->
   verdict r = DENIED_QUARANTINE /\ can_proceed r = false /\
   retry_after r = Some (whole_seconds (now + 7200000000 - utc_retry clk)) /\
   store' = store1) /\
  (now + 7200000000 < utc_check clk ->
   verdict r <> DENIED_QUARANTINE /\ quarantine store' !! user_id profile = None).
Proof.
  intros Hfrozen. cbn zeta.
  set (store1 := trigger_quarantine now store (user_id profile)).
  assert (Hq : quarantine store1 !! user_id profile = Some (now + 7200000000)).
  { unfold store1, trigger_quarantine, set_quarantine, QUARANTINE_DURATION_HOURS.
    cbn [quarantine]. rewrite lookup_insert_eq. reflexivity. }
  split.
  - intros Hle. unfold verify_player. rewrite Hfrozen.
    unfold is_in_quarantine. rewrite Hq.
    destruct (Z.ltb_spec (now + 7200000000) (utc_check clk)); [lia |].
    cbn. repeat split.
  - intros Hlt.
    assert (Eq : is_in_quarantine (utc_check clk) store1 (user_id profile)
                 = (None, mkStore (ip_to_users store1) (device_to_users store1)
                            (match_requests store1) (failed_matches store1)
                            (user_ips store1)
                            (delete (user_id profile) (quarantine store1)))).
    { unfold is_in_quarantine. rewrite Hq.
      destruct (Z.ltb_spec (now + 7200000000) (utc_check clk)); [reflexivity | lia]. }
    destruct (verify_player_cases clk store1 profile bet_amount)
      as [(_ & F & _)
         | (_ & [(until & _ & Q & _)
                | (_ & [(V & _ & E)
                       | (_ & [(V & _ & _ & E)
                              | (_ & [(V & _ & _ & E) | (_ & V & E)])])])])].
    + rewrite Hfrozen in F. discriminate F.
    + rewrite Eq in Q. discriminate Q.
    + rewrite V, E, Eq. split; [discriminate |]. cbn. apply lookup_delete_eq.
    + rewrite V, E, Eq. split; [discriminate |]. cbn. apply lookup_delete_eq.
    + rewrite V, E, Eq. split; [discriminate |]. cbn. apply lookup_delete_eq.
    + rewrite E, Eq. split; [destruct V as [V | V]; rewrite V; discriminate |].
      destruct (device_fingerprint profile) as [fp |];
        [rewrite (proj1 (proj2 (record_device_usage_keeps _ _ _))) |];
        cbn; apply lookup_delete_eq.
Qed.

Lemma filter_all (A : Type) (f : A -> bool) (l : list A) :
  Forall (fun x => f x = true) l -> List.filter f l = l.
Proof.
  induction 1 as [| x l Hx _ IH]; [reflexivity |].
  cbn [List.filter]. rewrite Hx, IH. reflexivity.
Qed.

(** X12. The rate limit.  For a player who passes the checks made before it
    (not frozen, not quarantined, trust score at least 30, KYC in order for
    the bet), and whose recorded requests all fall within the minute before
    the readings of the clock, the request is answered DENIED_RATE_LIMIT
    exactly when 10 requests or more are already on record; the refusal asks
    to retry after 60 seconds; and, refused or not, the request is itself put
    on record, so that retrying keeps the player over the limit. *)
Theorem eleventh_request_is_refused (clk : Clock) (store : SecurityMemoryStore)
    (profile : PlayerSecurityProfile) (bet_amount : Dec.t) :
  let uid := user_id profile in
  let stamps := default [] (match_requests store !! uid) in
  let r := fst (verify_player whole_seconds clk store profile bet_amount) in
  let store' := snd (verify_player whole_seconds clk store profile bet_amount) in
  is_frozen profile = false ->
  fst (is_in_quarantine (utc_check clk) store uid) = None ->
  30 <= trust_score profile ->
  (Dec.leb SecurityConfig.HIGH_STAKE_THRESHOLD bet_amount = true ->
   kyc_status profile = "VERIFIED"%string) ->
  Forall (fun ts => newer_than (PrimFloat.sub (t_request clk) 60) ts = true /\
                    newer_than (PrimFloat.sub (t_count clk) 60) ts = true)
         (stamps ++ [t_request clk]) ->
  (verdict r = DENIED_RATE_LIMIT <-> (10 <= length stamps)%nat) /\
  (verdict r = DENIED_RATE_LIMIT -> can_proceed r = false /\ retry_after r = Some 60) /\
  match_requests store' !! uid = Some (stamps ++ [t_request clk]).
Proof.
  cbn zeta. intros Hfrozen Hq Htrust Hkyc Hfresh.
  set (uid := user_id profile) in *.
  set (stamps := default [] (match_requests store !! uid)) in *.
  set (q := is_in_quarantine (utc_check clk) store uid) in *.
  set (store2 := record_match_request (t_request clk) (snd q) uid).
  assert (Hrec : match_requests store2 !! uid = Some (stamps ++ [t_request clk])).
  { unfold store2, record_match_request. cbn [match_requests].
    rewrite lookup_insert_eq. f_equal.
    pose proof (is_in_quarantine_keeps (utc_check clk) store uid) as K.
    cbn zeta in K. destruct K as (_ & _ & K & _). fold q in K. rewrite K. fold stamps.
    apply filter_all. eapply Forall_impl; [exact Hfresh |]. intros ts [H _]. exact H. }
  assert (Hcount : get_match_request_count (t_count clk) store2 uid
                   = Z.of_nat (length stamps) + 1).
  { unfold get_match_request_count. rewrite Hrec. cbn [default].
    rewrite filter_all.
    - unfold id. rewrite length_app. cbn [length]. lia.
    - eapply Forall_impl; [exact Hfresh |]. intros ts [_ H]. exact H. }
  pose proof (verify_player_cases clk store profile bet_amount) as C.
  cbn zeta in C. fold uid in C. fold q in C. fold store2 in C.
  destruct C
    as [(_ & F & _)
       | (_ & [(until & _ & Q & _)
              | (_ & [(_ & L & _)
                     | (_ & [(_ & Hh & Hk & _)
                            | (_ & [(V & Hr & Hc & E) | (Hc & V & E)])])])])].
  - rewrite Hfrozen in F. discriminate F.
  - rewrite Hq in Q. discriminate Q.
  - lia.
  - rewrite (Hkyc Hh) in Hk. discriminate Hk.
  - rewrite Hcount in Hc. rewrite V, E. repeat split; try assumption; try lia.
    revert V. unfold verify_player. rewrite Hfrozen. fold uid q.
    destruct q as [u s1]. cbn [fst] in Hq. subst u.
    repeat match goal with
           | |- context [if ?b then _ else _] => destruct b
           | |- context [match ?o with Some _ => _ | None => _ end] => destruct o
           end; cbn; first [discriminate | reflexivity].
  - rewrite Hcount in Hc. rewrite E. split; [| split].
    + split; [intros H; destruct V as [V | V]; rewrite V in H; discriminate H | lia].
    + intros H. destruct V as [V | V]; rewrite V in H; discriminate H.
    + destruct (device_fingerprint profile) as [fp |];
        [rewrite (proj1 (record_device_usage_keeps _ _ _)) |];
        cbn [record_ip_usage match_requests]; exact Hrec.
Qed.

End ShieldFacts.

Lemma refused_player_leaves_no_trace_witness :
  let profile := Security.mkSecurityProfile "mallory" 100 "GREEN" "VERIFIED" true
                   (Some "device"%string) "10.0.0.1" (Dec.Dc 10000 (-2)) 0 0 0 None false
                   None in
  Security.verdict (fst (Security.verify_player Spec.whole_seconds Spec.sample_shield_clock Spec.empty_store
                  profile (Dec.Dc 25 0))) = Security.DENIED_FROZEN /\
  Security.ip_to_users (snd (Security.verify_player Spec.whole_seconds Spec.sample_shield_clock Spec.empty_store
                      profile (Dec.Dc 25 0))) = Security.ip_to_users Spec.empty_store.
Proof.
  cbn zeta. split; [reflexivity |].
  apply (refused_player_leaves_no_trace Spec.whole_seconds Spec.sample_shield_clock Spec.empty_store
           (Security.mkSecurityProfile "mallory" 100 "GREEN" "VERIFIED" true
              (Some "device"%string) "10.0.0.1" (Dec.Dc 10000 (-2)) 0 0 0 None false None)
           (Dec.Dc 25 0)).
  left. reflexivity.
Defined.

Lemma quarantine_lasts_two_hours_witness :
  Security.is_frozen (Spec.sample_profile 80) = false /\
  Security.verdict (fst (Security.verify_player Spec.whole_seconds Spec.sample_shield_clock
                  (Security.trigger_quarantine 1699999000000000 Spec.empty_store
                     (Security.user_id (Spec.sample_profile 80)))
                  (Spec.sample_profile 80) (Dec.Dc 25 0))) = Security.DENIED_QUARANTINE.
Proof.
  split; [reflexivity |].
  apply (proj1 (quarantine_lasts_two_hours Spec.whole_seconds Spec.sample_shield_clock Spec.empty_store
                  (Spec.sample_profile 80) (Dec.Dc 25 0) 1699999000000000 eq_refl)).
  vm_compute. discriminate.
Defined.

Lemma eleventh_request_is_refused_witness :
  Security.verdict
    (fst (Security.verify_player Spec.whole_seconds Spec.sample_shield_clock Spec.busy_store
            (Spec.sample_profile 80) (Dec.Dc 25 0))) = Security.DENIED_RATE_LIMIT.
Proof.
  pose proof (eleventh_request_is_refused Spec.whole_seconds Spec.sample_shield_clock
                Spec.busy_store (Spec.sample_profile 80) (Dec.Dc 25 0)) as H.
  cbn zeta in H.
  apply H.
  - reflexivity.
  - reflexivity.
  - vm_compute. discriminate.
  - intros _. reflexivity.
  - vm_compute. repeat constructor.
  - vm_compute. repeat constructor.
Defined.

Lemma approval_is_sound_witness :
  Security.verdict
    (fst (Security.verify_player Spec.whole_seconds Spec.sample_shield_clock Spec.empty_store
            (Spec.sample_profile 80) (Dec.Dc 25 0))) = Security.APPROVED /\
  0 <= Security.risk_score
         (fst (Security.verify_player Spec.whole_seconds Spec.sample_shield_clock
                 Spec.empty_store (Spec.sample_profile 80) (Dec.Dc 25 0))) < 70.
Proof.
  assert (H : Security.verdict
                (fst (Security.verify_player Spec.whole_seconds Spec.sample_shield_clock
                        Spec.empty_store (Spec.sample_profile 80) (Dec.Dc 25 0)))
              = Security.APPROVED) by reflexivity.
  split; [exact H |].
  apply (proj2 (approval_is_sound Spec.whole_seconds Spec.sample_shield_clock
                  Spec.empty_store (Spec.sample_profile 80) (Dec.Dc 25 0)) H).
Defined.

(** ** Collusion between two players (security.py) *)

Section CollusionFacts.
Import Security.

Lemma encounter_key_sym (a b : UUID) : encounter_key a b = encounter_key b a.
Proof.
  unfold encounter_key, String.ltb. rewrite (String.compare_antisym a b).
  destruct (String.compare b a) eqn:E; cbn [CompOpp]; try reflexivity.
  apply String.compare_eq_iff in E. subst. reflexivity.
Qed.

Lemma encounter_key_same_pair (a b c d : UUID) :
  encounter_key c d = encounter_key a b -> (c = a /\ d = b) \/ (c = b /\ d = a).
Proof.
  unfold encounter_key.
  destruct (String.ltb d c), (String.ltb b a); intros H; injection H as -> ->; auto.
Qed.

(** X13. The encounter history counts unordered pairs: the count of two
    players does not depend on the order in which they are named, recording
    an encounter raises it by one whichever way round it is read back, and the
    count of every other pair is left as it was. *)
Theorem encounters_are_counted_per_pair (h : EncounterHistory) (a b : UUID) :
  get_encounter_count h a b = get_encounter_count h b a /\
  get_encounter_count (record_encounter h a b) a b = get_encounter_count h a b + 1 /\
  get_encounter_count (record_encounter h a b) b a = get_encounter_count h a b + 1 /\
  (forall c d, ~ (c = a /\ d = b) -> ~ (c = b /\ d = a) ->
               get_encounter_count (record_encounter h a b) c d
               = get_encounter_count h c d).
Proof.
  unfold get_encounter_count, record_encounter.
  rewrite <- (encounter_key_sym a b).
  rewrite lookup_insert_eq. cbn [default]. unfold id.
  repeat split; try reflexivity.
  intros c d H1 H2. rewrite lookup_insert_ne; [reflexivity |].
  intros E. symmetry in E. destruct (encounter_key_same_pair _ _ _ _ E); tauto.
Qed.

Ltac collusion_cases store h p1 p2 :=
  unfold check_collusion, refuses_match;
  destruct (String.eqb (current_ip p1) (current_ip p2));
  destruct (same_device p1 p2);
  destruct (ip_history_overlap store p1 p2);
  destruct (device_history_overlap store p1 p2);
  destruct (10 <? get_encounter_count h (user_id p1) (user_id p2));
  vm_compute.

(** X14. What [check_collusion] answers, in terms of its five indicators.  The
    match is cancelled (suspicious at level HIGH or CRITICAL) exactly when the
    two players are on the same device or the second has used the device of
    the first: a shared IP, an overlap of IP histories and frequent encounters
    never cancel a match, however many of them hold.  The level is LOW exactly
    when no indicator holds, and CRITICAL exactly when a device indicator
    holds among three indicators or more. *)
Theorem collusion_refusal_is_about_devices (store : SecurityMemoryStore)
    (h : EncounterHistory) (p1 p2 : PlayerSecurityProfile) :
  let c := check_collusion store h p1 p2 in
  let device := same_device p1 p2 || device_history_overlap store p1 p2 in
  refuses_match c = device /\
  is_suspicious c = ((2 <=? length (collusion_indicators c))%nat || device) /\
  (risk_level c = "LOW"%string <-> collusion_indicators c = []) /\
  (risk_level c = "CRITICAL"%string
   <-> device = true /\ (3 <= length (collusion_indicators c))%nat) /\
  (risk_level c = "HIGH"%string
   <-> device = true /\ (length (collusion_indicators c) <= 2)%nat) /\
  In (risk_level c) ["LOW"; "MEDIUM"; "HIGH"; "CRITICAL"]%string.
Proof.
  cbn zeta. collusion_cases store h p1 p2;
    repeat split; intros; try reflexivity; try discriminate; try lia;
    repeat match goal with
           | H : _ /\ _ |- _ => destruct H
           end;
    try discriminate; try lia; tauto.
Qed.

Variable whole_seconds : Z -> Z.

Lemma add_collusion_risk_keeps (c : CollusionCheck) (rs : list ShieldCheckResult) :
  forallb can_proceed (map (add_collusion_risk c) rs) = forallb can_proceed rs.
Proof.
  induction rs as [| r rs IH]; [reflexivity |].
  cbn [map forallb]. rewrite IH. reflexivity.
Qed.

(** X15. [verify_match_entry] never admits two players who are on the same
    device: whatever the store, the history and the individual checks say, it
    answers [False], and the encounter is not recorded. *)
Theorem shared_device_is_never_admitted (clk_of : nat -> Clock)
    (store : SecurityMemoryStore) (h : EncounterHistory)
    (p0 p1 : PlayerSecurityProfile) (bet_amount : Dec.t) :
  same_device p0 p1 = true ->
  let out := verify_match_entry whole_seconds clk_of store h [p0; p1] bet_amount in
  fst (fst (fst (fst out))) = false /\ snd out = h.
Proof.
  intros Hdev. cbn zeta. unfold verify_match_entry.
  destruct (verify_each whole_seconds clk_of 0 store [p0; p1] bet_amount)
    as [results store1].
  destruct (forallb can_proceed results); cbn [negb]; [| split; reflexivity].
  unfold check_collusion. rewrite Hdev.
  destruct (String.eqb (current_ip p0) (current_ip p1));
    destruct (ip_history_overlap store1 p0 p1);
    destruct (device_history_overlap store1 p0 p1);
    destruct (10 <? get_encounter_count h (user_id p0) (user_id p1));
    split; reflexivity.
Qed.

(** X16. [verify_match_entry] on two players records their encounter exactly
    when it admits them: if it answers [True], every individual result lets
    its player proceed, the collusion check is not suspicious at level HIGH or
    CRITICAL, and the count of the pair has risen by one; if it answers
    [False], the encounter history is unchanged. *)
Theorem admission_records_the_encounter (clk_of : nat -> Clock)
    (store : SecurityMemoryStore) (h : EncounterHistory)
    (p0 p1 : PlayerSecurityProfile) (bet_amount : Dec.t) :
  let out := verify_match_entry whole_seconds clk_of store h [p0; p1] bet_amount in
  let admitted := fst (fst (fst (fst out))) in
  let results := snd (fst (fst (fst out))) in
  let check := snd (fst (fst out)) in
  (admitted = true ->
   forallb can_proceed results = true /\
   (exists c, check = Some c /\ refuses_match c = false) /\
   get_encounter_count (snd out) (user_id p0) (user_id p1)
   = get_encounter_count h (user_id p0) (user_id p1) + 1) /\
  (admitted = false -> snd out = h).
Proof.
  cbn zeta. unfold verify_match_entry.
  destruct (verify_each whole_seconds clk_of 0 store [p0; p1] bet_amount)
    as [results store1].
  destruct (forallb can_proceed results) eqn:Hall; cbn [negb];
    [| split; [discriminate | reflexivity]].
  set (c := check_collusion store1 h p0 p1).
  destruct (is_suspicious c && (String.eqb (risk_level c) "HIGH"
                                || String.eqb (risk_level c) "CRITICAL")) eqn:Hr;
    cbn [fst snd]; (split; [| first [reflexivity | discriminate]]);
    [discriminate |].
  intros _. split; [| split].
  - destruct (is_suspicious c); [rewrite add_collusion_risk_keeps |]; exact Hall.
  - exists c. split; [reflexivity | exact Hr].
  - unfold get_encounter_count, record_encounter.
    rewrite lookup_insert_eq. reflexivity.
Qed.

End CollusionFacts.

Lemma shared_device_is_never_admitted_witness :
  Security.same_device (Spec.sample_profile 80) (Spec.sample_profile 90) = true /\
  fst (fst (fst (fst (Security.verify_match_entry Spec.whole_seconds
                   (fun _ => Spec.sample_shield_clock) Spec.empty_store ∅
                   [Spec.sample_profile 80; Spec.sample_profile 90] (Dec.Dc 25 0)))))
  = false.
Proof.
  split; [reflexivity |].
  apply (shared_device_is_never_admitted Spec.whole_seconds
           (fun _ => Spec.sample_shield_clock) Spec.empty_store ∅
           (Spec.sample_profile 80) (Spec.sample_profile 90) (Dec.Dc 25 0)).
  reflexivity.
Defined.

Lemma encounters_are_counted_per_pair_witness :
  Security.get_encounter_count (Security.record_encounter ∅ "alice" "bob") "bob" "alice" = 1 /\
  Security.get_encounter_count (Security.record_encounter ∅ "alice" "bob") "carol" "bob"
  = Security.get_encounter_count ∅ "carol" "bob".
Proof.
  split.
  - exact (proj1 (proj2 (proj2 (encounters_are_counted_per_pair ∅ "alice" "bob")))).
  - apply (proj2 (proj2 (proj2 (encounters_are_counted_per_pair ∅ "alice" "bob")))).
    + intros [H _]. discriminate H.
    + intros [H _]. discriminate H.
Defined.

Lemma collusion_refusal_is_about_devices_witness :
  Security.refuses_match
    (Security.check_collusion Spec.empty_store ∅ (Spec.sample_profile 80) Spec.other_profile)
  = false.
Proof.
  exact (eq_trans
           (proj1 (collusion_refusal_is_about_devices Spec.empty_store ∅
                     (Spec.sample_profile 80) Spec.other_profile))
           eq_refl).
Defined.

Lemma admission_records_the_encounter_witness :
  fst (fst (fst (fst (Security.verify_match_entry Spec.whole_seconds
                        (fun _ => Spec.sample_shield_clock) Spec.empty_store ∅
                        [Spec.sample_profile 80; Spec.other_profile] (Dec.Dc 25 0)))))
  = true /\
  Security.get_encounter_count
    (snd (Security.verify_match_entry Spec.whole_seconds
            (fun _ => Spec.sample_shield_clock) Spec.empty_store ∅
            [Spec.sample_profile 80; Spec.other_profile] (Dec.Dc 25 0)))
    "alice" "bob" = 1.
Proof.
  assert (H : fst (fst (fst (fst (Security.verify_match_entry Spec.whole_seconds
                        (fun _ => Spec.sample_shield_clock) Spec.empty_store ∅
                        [Spec.sample_profile 80; Spec.other_profile] (Dec.Dc 25 0)))))
              = true) by (vm_compute; reflexivity).
  split; [exact H |].
  exact (proj2 (proj2 (proj1 (admission_records_the_encounter Spec.whole_seconds
                                (fun _ => Spec.sample_shield_clock) Spec.empty_store ∅
                                (Spec.sample_profile 80) Spec.other_profile (Dec.Dc 25 0))
                         H))).
Defined.

(** ** Rooms over time (websocket_handler.py) *)

Section RoomFacts.
Import WebsocketHandler Spec.

Lemma transition_state_step (now : float) (mgr : MatchManager) (mid : UUID)
    (room : MatchRoom) (s : MatchState) :
  active_matches mgr !! mid = Some room ->
  (fst (transition_state now mgr mid s) = true /\
   exists room', active_matches (snd (transition_state now mgr mid s)) !! mid = Some room' /\
                 stage (state room) < stage (state room') <= 6)
  \/ (fst (transition_state now mgr mid s) = false /\
      snd (transition_state now mgr mid s) = mgr).
Proof.
  intros Hroom. unfold transition_state. rewrite Hroom.
  destruct (existsb (MatchState_eqb s) (valid_transitions (state room))) eqn:E;
    cbn [negb fst snd]; [left | right; split; reflexivity].
  split; [reflexivity |]. eexists. split.
  - cbn [active_matches with_matches]. apply lookup_insert_eq.
  - cbn [state enter_state]. destruct (state room), s; cbn in E; try discriminate E; cbn; lia.
Qed.

Lemma stage_bounds (s : MatchState) : 0 <= stage s <= 6.
Proof. destruct s; cbn; lia. Qed.

(** X17. A room only moves forward.  Whatever transitions are requested of a
    room, in any number and order, the room stays registered; its stage in the
    life cycle has advanced by at least the number of requests granted, so at
    most six are ever granted and no state is entered twice; when none is
    granted the manager is unchanged; and a room that is COMPLETED or CANCELLED
    is granted nothing. *)
Theorem room_only_moves_forward (mgr : MatchManager) (mid : UUID) (room : MatchRoom)
    (requests : list (float * MatchState)) :
  active_matches mgr !! mid = Some room ->
  let granted := fst (transition_all mgr mid requests) in
  let mgr' := snd (transition_all mgr mid requests) in
  exists room',
    active_matches mgr' !! mid = Some room' /\
    stage (state room) + Z.of_nat (length (List.filter (fun ok => ok) granted))
    <= stage (state room') <= 6 /\
    (Forall (fun ok => ok = false) granted -> mgr' = mgr) /\
    (state room = COMPLETED \/ state room = CANCELLED ->
     Forall (fun ok => ok = false) granted).
Proof.
  cbn zeta. revert mgr room.
  induction requests as [| [now s] rest IH]; intros mgr room Hroom.
  - exists room. cbn. pose proof (stage_bounds (state room)).
    repeat split; try assumption; try lia; constructor.
  - cbn [transition_all].
    destruct (transition_state_step now mgr mid room s Hroom)
      as [(Hok & room1 & Hroom1 & Hst) | (Hok & Hsame)];
      destruct (transition_state now mgr mid s) as [ok mgr1];
      cbn [fst snd] in *; subst ok.
    + destruct (IH mgr1 room1 Hroom1) as (room' & Hroom' & Hle & _ & _).
      destruct (transition_all mgr1 mid rest) as [oks mgr2]. cbn [fst snd] in *.
      exists room'. split; [exact Hroom' |].
      split; [cbn [List.filter length]; lia |].
      split.
      * intros H. inversion H; discriminate.
      * intros [H | H]; rewrite H in Hst; cbn in Hst; lia.
    + subst mgr1.
      destruct (IH mgr room Hroom) as (room' & Hroom' & Hle & Hnone & Hclosed).
      destruct (transition_all mgr mid rest) as [oks mgr2]. cbn [fst snd] in *.
      exists room'. split; [exact Hroom' |].
      split; [cbn [List.filter]; exact Hle |].
      split.
      * intros H. inversion H; subst. apply Hnone. assumption.
      * intros H. constructor; [reflexivity | apply Hclosed; exact H].
Qed.

Lemma lookup_fold_delete_none {A B : Type} (f : B -> string) (l : list B)
    (m : gmap string A) (k : string) :
  m !! k = None -> fold_left (fun m p => delete (f p) m) l m !! k = None.
Proof.
  revert m. induction l as [| a l IH]; intros m H; [exact H |].
  cbn [fold_left]. apply IH.
  destruct (decide (f a = k)) as [-> | Hne].
  - apply lookup_delete_eq.
  - rewrite lookup_delete_ne by exact Hne. exact H.
Qed.

Lemma lookup_fold_delete_in {A B : Type} (f : B -> string) (l : list B)
    (m : gmap string A) (x : B) :
  In x l -> fold_left (fun m p => delete (f p) m) l m !! f x = None.
Proof.
  revert m. induction l as [| a l IH]; intros m H; [destruct H |].
  cbn [fold_left]. destruct H as [-> | H].
  - apply lookup_fold_delete_none. apply lookup_delete_eq.
  - apply IH. exact H.
Qed.

(** X18. [cleanup_match] forgets the room and its players: afterwards the room
    cannot be found by its id, none of its players can be found by user id or
    by socket id, every other room is still there, and a second cleanup
    changes nothing. *)
Theorem cleanup_forgets_the_room (mgr : MatchManager) (mid : UUID) (room : MatchRoom) :
  active_matches mgr !! mid = Some room ->
  let mgr' := cleanup_match mgr mid in
  get_match mgr' mid = None /\
  (forall uid c, In (uid, c) (players room) ->
                 get_match_by_player mgr' uid = None /\
                 get_user_by_sid mgr' (sid c) = None) /\
  (forall other, other <> mid -> get_match mgr' other = get_match mgr other) /\
  cleanup_match mgr' mid = mgr'.
Proof.
  intros Hroom. cbn zeta. unfold cleanup_match. rewrite Hroom.
  unfold get_match, get_match_by_player, get_user_by_sid.
  cbn [active_matches player_to_match sid_to_user].
  rewrite lookup_delete_eq.
  split; [reflexivity |]. split; [| split; [| reflexivity]].
  - intros uid c Hin. split.
    + pose proof (lookup_fold_delete_in fst (players room) (player_to_match mgr)
                    (uid, c) Hin) as E.
      cbn [fst] in E. rewrite E. reflexivity.
    + apply (lookup_fold_delete_in (fun p => sid (snd p)) (players room)
               (sid_to_user mgr) (uid, c) Hin).
  - intros other Hne. apply lookup_delete_ne. congruence.
Qed.

Lemma cleanup_forgets_the_room_witness :
  active_matches (sample_manager COMPLETED (Dec.Dc 25 0)) !! sample_match_id
  = Some (sample_room COMPLETED (Dec.Dc 25 0)) /\
  get_match (cleanup_match (sample_manager COMPLETED (Dec.Dc 25 0)) sample_match_id)
            sample_match_id = None.
Proof.
  assert (H : active_matches (sample_manager COMPLETED (Dec.Dc 25 0)) !! sample_match_id
              = Some (sample_room COMPLETED (Dec.Dc 25 0))) by reflexivity.
  split; [exact H |].
  exact (proj1 (cleanup_forgets_the_room _ _ _ H)).
Defined.

Lemma room_only_moves_forward_witness :
  active_matches (sample_manager MATCHMAKING (Dec.Dc 25 0)) !! sample_match_id
  = Some (sample_room MATCHMAKING (Dec.Dc 25 0)) /\
  exists room',
    active_matches
      (snd (transition_all (sample_manager MATCHMAKING (Dec.Dc 25 0)) sample_match_id
              [(0%float, LOCKED); (1%float, MATCHMAKING); (2%float, IN_PROGRESS)]))
      !! sample_match_id = Some room' /\
    stage (state room') <= 6.
Proof.
  assert (H : active_matches (sample_manager MATCHMAKING (Dec.Dc 25 0)) !! sample_match_id
              = Some (sample_room MATCHMAKING (Dec.Dc 25 0))) by reflexivity.
  split; [exact H |].
  destruct (room_only_moves_forward _ _ _
              [(0%float, LOCKED); (1%float, MATCHMAKING); (2%float, IN_PROGRESS)] H)
    as (room' & Hr & Hle & _).
  exists room'. split; [exact Hr | lia].
Defined.

(** X19. [record_move] numbers the moves of a room 1, 2, 3, ...: on a room
    whose log is so numbered it returns the next number, appends one entry
    carrying that number, the player and the clock, and leaves the log so
    numbered; every other room is untouched; and without the room it returns
    -1 and changes nothing. *)
Theorem moves_are_numbered_in_order (now : float) (mgr : MatchManager) (mid uid : UUID)
    (payload : string) :
  (forall room,
      active_matches mgr !! mid = Some room -> log_in_order room ->
      fst (record_move now mgr mid uid payload)
      = Z.of_nat (length (moves_log room)) + 1 /\
      exists room',
        active_matches (snd (record_move now mgr mid uid payload)) !! mid = Some room' /\
        moves_log room'
        = moves_log room
          ++ [mkMoveEntry (Z.of_nat (length (moves_log room)) + 1) uid now payload] /\
        log_in_order room' /\ state room' = state room /\ players room' = players room) /\
  (forall other, other <> mid ->
      active_matches (snd (record_move now mgr mid uid payload)) !! other
      = active_matches mgr !! other) /\
  (active_matches mgr !! mid = None ->
   record_move now mgr mid uid payload = (-1, mgr)).
Proof.
  unfold record_move. split; [| split].
  - intros room Hroom [Hseq Hcount]. rewrite Hroom. cbn [fst snd].
    rewrite Hcount. split; [reflexivity |].
    eexists. split; [cbn [active_matches with_matches]; apply lookup_insert_eq |].
    cbn [moves_log move_sequence state players]. split; [reflexivity |].
    split; [| split; reflexivity].
    unfold log_in_order. cbn [moves_log move_sequence].
    rewrite length_app, map_app, Hseq. cbn [length map sequence].
    split.
    + rewrite Nat.add_1_r. rewrite seq_S, map_app. cbn [map]. f_equal. f_equal. lia.
    + lia.
  - intros other Hne.
    destruct (active_matches mgr !! mid); cbn [snd]; [| reflexivity].
    cbn [active_matches with_matches]. apply lookup_insert_ne. congruence.
  - intros Hnone. rewrite Hnone. reflexivity.
Qed.

(** X20. The match-found step cancels the room exactly when its two players
    are on the same device (a fingerprint that is not empty) or the second
    has used the device of the first: the room is then cleaned up and
    [match_cancelled] is emitted; otherwise the manager is unchanged and
    [match_found] is emitted. *)
Theorem match_found_cancels_shared_devices (store : Security.SecurityMemoryStore)
    (h : Security.EncounterHistory) (mgr : MatchManager) (room : MatchRoom)
    (u0 u1 : UUID) (c0 c1 : PlayerConnection) :
  players room = [(u0, c0); (u1, c1)] ->
  let device :=
    Security.same_device (profile_of_connection c0) (profile_of_connection c1)
    || Security.device_history_overlap store (profile_of_connection c0)
                                       (profile_of_connection c1) in
  _handle_match_found store h mgr room
  = if device then (cleanup_match mgr (match_id room), ["match_cancelled"%string])
    else (mgr, ["match_found"%string]).
Proof.
  intros Hp. cbn zeta. unfold _handle_match_found. rewrite Hp. cbn [map snd].
  set (p0 := profile_of_connection c0). set (p1 := profile_of_connection c1).
  assert (E : Security.refuses_match (Security.check_collusion store h p0 p1)
              = Security.same_device p0 p1 || Security.device_history_overlap store p0 p1).
  { unfold Security.check_collusion, Security.refuses_match.
    destruct (String.eqb (Security.current_ip p0) (Security.current_ip p1));
      destruct (Security.same_device p0 p1);
      destruct (Security.ip_history_overlap store p0 p1);
      destruct (Security.device_history_overlap store p0 p1);
      destruct (10 <? Security.get_encounter_count h (Security.user_id p0)
                        (Security.user_id p1));
      reflexivity. }
  rewrite E. reflexivity.
Qed.

Lemma match_found_cancels_shared_devices_witness :
  players (sample_room MATCHMAKING (Dec.Dc 25 0))
  = [("alice"%string, sample_connection "alice"); ("bob"%string, sample_connection "bob")] /\
  _handle_match_found empty_store ∅ (sample_manager MATCHMAKING (Dec.Dc 25 0))
                      (sample_room MATCHMAKING (Dec.Dc 25 0))
  = (cleanup_match (sample_manager MATCHMAKING (Dec.Dc 25 0)) sample_match_id,
     ["match_cancelled"%string]).
Proof.
  split; [reflexivity |].
  exact (match_found_cancels_shared_devices empty_store ∅
           (sample_manager MATCHMAKING (Dec.Dc 25 0))
           (sample_room MATCHMAKING (Dec.Dc 25 0))
           "alice" "bob" (sample_connection "alice") (sample_connection "bob") eq_refl).
Defined.

Lemma moves_are_numbered_in_order_witness :
  log_in_order (sample_room IN_PROGRESS (Dec.Dc 25 0)) /\
  fst (record_move 5 (sample_manager IN_PROGRESS (Dec.Dc 25 0)) sample_match_id "alice"
         "{}") = 1.
Proof.
  assert (H : log_in_order (sample_room IN_PROGRESS (Dec.Dc 25 0)))
    by (split; reflexivity).
  split; [exact H |].
  exact (proj1 (proj1 (moves_are_numbered_in_order 5
                         (sample_manager IN_PROGRESS (Dec.Dc 25 0)) sample_match_id
                         "alice" "{}")
                  (sample_room IN_PROGRESS (Dec.Dc 25 0)) eq_refl H)).
Defined.

End RoomFacts.

(** ** Matchmaking (websocket_handler.py) *)

Section MatchmakingFacts.
Import WebsocketHandler Spec.

Lemma release_after_acquire (mgr : MatchManager) (key : string) :
  fst (acquire_lock mgr key) = true ->
  release_lock (snd (acquire_lock mgr key)) key = mgr.
Proof.
  unfold acquire_lock, release_lock.
  destruct (bool_decide (("lock:" ++ key)%string ∈ _locks mgr)) eqn:E;
    cbn [fst snd]; [discriminate |].
  intros _. apply bool_decide_eq_false in E.
  destruct mgr as [am pm sm locks]. cbn [active_matches player_to_match sid_to_user _locks] in *.
  f_equal. apply set_eq. intros x.
  rewrite elem_of_difference, elem_of_union, !elem_of_singleton.
  split.
  - intros [[Hx | Hx] Hn]; [contradiction | exact Hx].
  - intros Hx. split; [right; exact Hx | intros ->; contradiction].
Qed.

Lemma add_to_empty_queue (new_id : UUID) (session seed : string) (now : float)
    (mgr : MatchManager) (queues : MatchmakingQueue) (entry : MatchmakingEntry) :
  map_Forall (fun _ q => q = []) queues ->
  let out := add_to_matchmaking new_id session seed now mgr queues entry in
  (fst (fst out) = BotTypeError \/ fst (fst out) = LockBusy) /\
  snd (fst out) = mgr /\
  map_Forall (fun _ q => q = []) (snd out) /\
  (_locks mgr = ∅ -> fst (fst out) = BotTypeError).
Proof.
  intros Hq. cbn zeta. unfold add_to_matchmaking.
  set (key := _get_queue_key (e_game_type entry) (e_bet_amount entry)).
  pose proof (release_after_acquire mgr key) as Hrel.
  assert (Hfree : _locks mgr = ∅ -> fst (acquire_lock mgr key) = true).
  { intros H. unfold acquire_lock. rewrite H.
    rewrite bool_decide_eq_false_2 by apply not_elem_of_empty. reflexivity. }
  destruct (acquire_lock mgr key) as [got mgr1]. cbn [fst snd] in *.
  destruct got; cbn [negb].
  - assert (Hempty : default [] (queues !! key) = []).
    { destruct (queues !! key) as [q |] eqn:E; [| reflexivity].
      cbn. exact (Hq _ _ E). }
    rewrite Hempty. cbn [find_opponent].
    unfold ENABLE_BOT_MATCHMAKING, _create_bot_entry. cbn [fst snd].
    split; [left; reflexivity |]. split; [apply Hrel; reflexivity |].
    split; [| intros _; reflexivity].
    apply map_Forall_insert_2; [reflexivity | exact Hq].
  - cbn [fst snd]. split; [right; reflexivity |]. split; [reflexivity |].
    split; [exact Hq |]. intros H. specialize (Hfree H). discriminate Hfree.
Qed.

(** X21. Matchmaking pairs nobody.  Building the entry of the bot always
    raises [TypeError] (the profile is given a keyword it does not have), and
    this happens before the player is queued; so, from queues that hold no
    entry, as they are at start, every call of [add_to_matchmaking], for any
    players, games and bets, either finds the queue locked or raises
    [TypeError]; no room is created, the manager is left as it was with the
    lock released, and the queues still hold no entry.  When no lock is held
    beforehand every call raises. *)
Theorem matchmaking_pairs_nobody (joins : list JoinRequest) (mgr : MatchManager)
    (queues : MatchmakingQueue) :
  map_Forall (fun _ q => q = []) queues ->
  let run := matchmaking_run joins mgr queues in
  Forall (fun out => out = BotTypeError \/ out = LockBusy) (fst (fst run)) /\
  snd (fst run) = mgr /\
  map_Forall (fun _ q => q = []) (snd run) /\
  (_locks mgr = ∅ -> Forall (fun out => out = BotTypeError) (fst (fst run))).
Proof.
  cbn zeta. revert queues. induction joins as [| j rest IH]; intros queues Hq.
  - cbn. repeat split; try assumption; constructor.
  - cbn [matchmaking_run].
    pose proof (add_to_empty_queue (j_new_id j) (j_session j) (j_seed j) (j_now j)
                  mgr queues (j_entry j) Hq) as H.
    cbn zeta in H.
    destruct (add_to_matchmaking (j_new_id j) (j_session j) (j_seed j) (j_now j)
                mgr queues (j_entry j)) as [[out mgr1] queues1].
    cbn [fst snd] in H. destruct H as (Hout & -> & Hq1 & Hfree).
    specialize (IH queues1 Hq1).
    destruct (matchmaking_run rest mgr queues1) as [[outs mgr2] queues2].
    cbn [fst snd] in *. destruct IH as (Houts & -> & Hq2 & Hfrees).
    repeat split; try assumption.
    + constructor; assumption.
    + intros H. constructor; [apply Hfree; exact H | apply Hfrees; exact H].
Qed.

End MatchmakingFacts.

Lemma matchmaking_pairs_nobody_witness :
  map_Forall (fun _ (q : list WebsocketHandler.MatchmakingEntry) => q = [])
             (∅ : WebsocketHandler.MatchmakingQueue) /\
  fst (fst (WebsocketHandler.matchmaking_run
              [WebsocketHandler.mkJoinRequest Spec.sample_match_id "session" "seed" 0
                 (WebsocketHandler.mkMatchmakingEntry "alice" "sid-alice" "LUDO" (Dec.Dc 25 0)
                    (Spec.sample_profile 80) 0)]
              WebsocketHandler.MatchManager_init ∅))
  = [WebsocketHandler.BotTypeError].
Proof.
  assert (H : map_Forall (fun _ (q : list WebsocketHandler.MatchmakingEntry) => q = [])
                         (∅ : WebsocketHandler.MatchmakingQueue))
    by apply map_Forall_empty.
  split; [exact H |].
  pose proof (proj2 (proj2 (proj2
    (matchmaking_pairs_nobody
       [WebsocketHandler.mkJoinRequest Spec.sample_match_id "session" "seed" 0
          (WebsocketHandler.mkMatchmakingEntry "alice" "sid-alice" "LUDO" (Dec.Dc 25 0)
             (Spec.sample_profile 80) 0)]
       WebsocketHandler.MatchManager_init ∅ H))) eq_refl) as Hall.
  inversion Hall as [| out outs Hout Hrest E]; subst.
  inversion Hrest; subst. reflexivity.
Defined.

(** ** Ready, locked, started (websocket_handler.py) *)

Section LockFacts.
Import WebsocketHandler Spec.

Variable snapshot_hash : MatchRoom -> string.

Lemma soft_lock_of_covered_bet (mid : UUID) (bet : Dec.t)
    (ps : list (UUID * PlayerConnection)) :
  Dec.ltb (Dec.Dc 10000 (-2)) bet = false ->
  soft_lock_players mid bet ps
  = (true, map (fun p => (fst p, with_balance_at_lock (snd p) (Dec.Dc 10000 (-2)))) ps).
Proof.
  intros Hbet. induction ps as [| [uid c] ps IH]; [reflexivity |].
  cbn [soft_lock_players map fst snd].
  unfold _get_user_balance, _lock_user_balance. rewrite Hbet. cbn [negb].
  rewrite IH. reflexivity.
Qed.

Lemma soft_lock_of_uncovered_bet (mid : UUID) (bet : Dec.t)
    (ps : list (UUID * PlayerConnection)) :
  Dec.ltb (Dec.Dc 10000 (-2)) bet = true -> ps <> [] ->
  soft_lock_players mid bet ps = (false, ps).
Proof.
  intros Hbet Hne. destruct ps as [| [uid c] ps]; [contradiction |].
  cbn [soft_lock_players]. unfold _get_user_balance. rewrite Hbet. reflexivity.
Qed.

Lemma has_player_nonempty (room : MatchRoom) (uid : UUID) :
  has_player room uid = true -> players room <> [].
Proof. unfold has_player. destruct (players room); [discriminate | discriminate]. Qed.

Lemma update_conn_keys (ps : list (UUID * PlayerConnection)) (uid : UUID)
    (f : PlayerConnection -> PlayerConnection) :
  map fst (update_conn ps uid f) = map fst ps.
Proof.
  induction ps as [| [k c] ps IH]; [reflexivity |].
  cbn [update_conn]. destruct (String.eqb k uid); cbn [map fst]; [reflexivity |].
  rewrite IH. reflexivity.
Qed.

(** X22. When the last player of a room in MATCHMAKING reports ready, the
    room is locked if the bet is at most 100.00, the balance the handler reads
    for every user, and cancelled otherwise.  In the first case the room is
    LOCKED with the lock time set, every player has 100.00 recorded as the
    balance at lock, and [match_locked] is emitted; in the second the room is
    CANCELLED and two errors are emitted.  Either way the client seed of the
    player is on record. *)
Theorem last_ready_locks_or_cancels (now : float) (mgr : MatchManager) (s : string)
    (mid : UUID) (seed : string) (uid : UUID) (room : MatchRoom) :
  get_user_by_sid mgr s = Some uid ->
  get_match mgr mid = Some room ->
  match_id room = mid ->
  has_player room uid = true ->
  state room = MATCHMAKING ->
  all_players_ready (with_players room (update_conn (players room) uid mark_ready)) = true ->
  let out := player_ready snapshot_hash now mgr s mid seed in
  exists room',
    get_match (fst out) mid = Some room' /\
    client_seeds room' !! uid = Some seed /\
    map fst (players room') = map fst (players room) /\
    if Dec.ltb (Dec.Dc 10000 (-2)) (bet_amount room)
    then state room' = CANCELLED /\
         snd out = ["player_ready_update"; "error"; "error"]%string
    else state room' = LOCKED /\ locked_at room' = Some now /\
         Forall (fun p => balance_at_lock (snd p) = Dec.Dc 10000 (-2)) (players room') /\
         snd out = ["player_ready_update"; "match_locked"]%string.
Proof.
  intros Hsid Hroom Hid Hhas Hst Hall. cbn zeta.
  unfold player_ready. rewrite Hsid, Hroom, Hhas. cbn [negb].
  unfold all_players_ready in *. cbn [players with_players] in *. rewrite Hall.
  cbn [match_id]. rewrite Hid.
  unfold _transition_to_locked, transition_state.
  cbn [active_matches with_matches]. rewrite lookup_insert_eq.
  cbn [state]. rewrite Hst. cbn [valid_transitions existsb MatchState_eqb orb negb].
  cbn [active_matches with_matches]. rewrite lookup_insert_eq.
  unfold _execute_soft_lock. cbn [match_id bet_amount players enter_state].
  destruct (Dec.ltb (Dec.Dc 10000 (-2)) (bet_amount room)) eqn:Hbet.
  - rewrite soft_lock_of_uncovered_bet; [| exact Hbet |].
    2:{ intros E. apply (f_equal (map fst)) in E. rewrite update_conn_keys in E.
        apply (has_player_nonempty room uid Hhas). destruct (players room); [reflexivity | discriminate E]. }
    cbn [negb]. cbn [active_matches with_matches]. rewrite lookup_insert_eq.
    cbn [state with_players]. cbn [valid_transitions existsb MatchState_eqb orb negb snd fst].
    eexists. unfold get_match. cbn [active_matches with_matches].
    split; [apply lookup_insert_eq |].
    cbn [client_seeds players state enter_state with_players].
    split; [apply lookup_insert_eq |].
    split; [apply update_conn_keys |].
    split; reflexivity.
  - rewrite soft_lock_of_covered_bet by exact Hbet.
    cbn [negb]. unfold generate_initial_hash.
    cbn [active_matches with_matches]. rewrite lookup_insert_eq. cbn [snd fst].
    eexists. unfold get_match. cbn [active_matches with_matches].
    split; [apply lookup_insert_eq |].
    cbn [client_seeds players state locked_at enter_state with_players].
    split; [apply lookup_insert_eq |].
    split; [rewrite map_map; cbn [fst]; apply update_conn_keys |].
    split; [reflexivity |]. split; [reflexivity |].
    split; [| reflexivity].
    generalize (update_conn (players room) uid mark_ready). intros l.
    induction l as [| p l IH]; constructor; [reflexivity | exact IH].
Qed.

(** X23. [confirm_escrow] from a connected user, for a registered room.  It is
    ignored unless the room is LOCKED; on a LOCKED room it raises [KeyError]
    when the sender is not one of the players; and when the sender is the last
    player to confirm, the room goes to IN_PROGRESS with the start time set,
    [match_started] is emitted, and nothing else of the players changes. *)
Theorem last_confirmation_starts_the_match (now : float) (mgr : MatchManager) (s : string)
    (mid uid : UUID) (room : MatchRoom) :
  get_user_by_sid mgr s = Some uid ->
  get_match mgr mid = Some room ->
  match_id room = mid ->
  (state room <> LOCKED -> confirm_escrow now mgr s mid = Ok (mgr, [])) /\
  (state room = LOCKED -> has_player room uid = false ->
   confirm_escrow now mgr s mid = Raise KeyError) /\
  (state room = LOCKED -> has_player room uid = true ->
   all_escrow_confirmed (with_players room (update_conn (players room) uid mark_escrow))
   = true ->
   exists mgr' room',
     confirm_escrow now mgr s mid = Ok (mgr', ["match_started"%string]) /\
     get_match mgr' mid = Some room' /\
     state room' = IN_PROGRESS /\ started_at room' = Some now /\
     players room' = update_conn (players room) uid mark_escrow).
Proof.
  intros Hsid Hroom Hid. unfold confirm_escrow. rewrite Hsid, Hroom.
  split; [| split].
  - intros Hst. destruct (state room); try reflexivity. contradiction Hst. reflexivity.
  - intros Hst Hhas. rewrite Hst, Hhas. reflexivity.
  - intros Hst Hhas Hall. rewrite Hst, Hhas, Hall. cbn [MatchState_eqb negb].
    cbn [match_id with_players]. rewrite Hid.
    unfold _start_match, transition_state.
    cbn [active_matches with_matches]. rewrite lookup_insert_eq.
    cbn [state with_players]. rewrite Hst.
    cbn [valid_transitions existsb MatchState_eqb orb negb].
    eexists _, _. split; [reflexivity |].
    unfold get_match. cbn [active_matches with_matches].
    split; [apply lookup_insert_eq |].
    cbn [state started_at players enter_state with_players]. repeat split.
Qed.

End LockFacts.

Lemma last_ready_locks_or_cancels_witness :
  exists room',
    WebsocketHandler.get_match
      (fst (WebsocketHandler.player_ready WebsocketHandler.session_id 7
              (Spec.sample_manager WebsocketHandler.MATCHMAKING (Dec.Dc 25 0))
              "sid-alice" Spec.sample_match_id "s53"))
      Spec.sample_match_id = Some room' /\
    WebsocketHandler.state room' = WebsocketHandler.LOCKED.
Proof.
  destruct (last_ready_locks_or_cancels WebsocketHandler.session_id 7
              (Spec.sample_manager WebsocketHandler.MATCHMAKING (Dec.Dc 25 0))
              "sid-alice" Spec.sample_match_id "s53" "alice"
              (Spec.sample_room WebsocketHandler.MATCHMAKING (Dec.Dc 25 0))
              eq_refl eq_refl eq_refl eq_refl eq_refl eq_refl)
    as (room' & Hr & _ & _ & Hcase).
  exists room'. split; [exact Hr |].
  change (Dec.ltb (Dec.Dc 10000 (-2))
            (WebsocketHandler.bet_amount
               (Spec.sample_room WebsocketHandler.MATCHMAKING (Dec.Dc 25 0))))
    with false in Hcase.
  exact (proj1 Hcase).
Defined.

Lemma last_confirmation_starts_the_match_witness :
  exists mgr' room',
    WebsocketHandler.confirm_escrow 9
      (Spec.sample_manager WebsocketHandler.LOCKED (Dec.Dc 25 0)) "sid-bob"
      Spec.sample_match_id = Ok (mgr', ["match_started"%string]) /\
    WebsocketHandler.get_match mgr' Spec.sample_match_id = Some room' /\
    WebsocketHandler.state room' = WebsocketHandler.IN_PROGRESS.
Proof.
  destruct (proj2 (proj2 (last_confirmation_starts_the_match 9
              (Spec.sample_manager WebsocketHandler.LOCKED (Dec.Dc 25 0)) "sid-bob"
              Spec.sample_match_id "bob"
              (Spec.sample_room WebsocketHandler.LOCKED (Dec.Dc 25 0))
              eq_refl eq_refl eq_refl)) eq_refl eq_refl eq_refl)
    as (mgr' & room' & Hc & Hr & Hs & _).
  exists mgr', room'. repeat split; assumption.
Defined.

(** The whole way from found to started, on the room of the examples with
    neither player ready: both report ready, both confirm. *)
Example ready_ready_confirm_confirm :
  let unready c :=
    WebsocketHandler.mkConnection (WebsocketHandler.user_id c) (WebsocketHandler.sid c)
      0 0 false true "10.0.0.1" "" false (Dec.Dc 0 0) in
  let room :=
    WebsocketHandler.with_players (Spec.sample_room WebsocketHandler.MATCHMAKING (Dec.Dc 25 0))
      [("alice"%string, unready (Spec.sample_connection "alice"));
       ("bob"%string, unready (Spec.sample_connection "bob"))] in
  let m0 :=
    WebsocketHandler.with_matches (Spec.sample_manager WebsocketHandler.MATCHMAKING (Dec.Dc 25 0))
      {[ Spec.sample_match_id := room ]} in
  let m1 := fst (WebsocketHandler.player_ready WebsocketHandler.session_id 1 m0
                   "sid-alice" Spec.sample_match_id "a") in
  let m2 := fst (WebsocketHandler.player_ready WebsocketHandler.session_id 2 m1
                   "sid-bob" Spec.sample_match_id "b") in
  option_map WebsocketHandler.state (WebsocketHandler.get_match m1 Spec.sample_match_id)
  = Some WebsocketHandler.MATCHMAKING /\
  option_map WebsocketHandler.state (WebsocketHandler.get_match m2 Spec.sample_match_id)
  = Some WebsocketHandler.LOCKED /\
  exists m3 m4 e3 e4,
    WebsocketHandler.confirm_escrow 3 m2 "sid-alice" Spec.sample_match_id = Ok (m3, e3) /\
    WebsocketHandler.confirm_escrow 4 m3 "sid-bob" Spec.sample_match_id = Ok (m4, e4) /\
    option_map WebsocketHandler.state (WebsocketHandler.get_match m3 Spec.sample_match_id)
    = Some WebsocketHandler.LOCKED /\
    option_map WebsocketHandler.state (WebsocketHandler.get_match m4 Spec.sample_match_id)
    = Some WebsocketHandler.IN_PROGRESS /\
    e4 = ["match_started"%string].
Proof.
  cbn zeta. split; [vm_compute; reflexivity |]. split; [vm_compute; reflexivity |].
  eexists _, _, _, _. split; [vm_compute; reflexivity |].
  split; [vm_compute; reflexivity |].
  repeat split; vm_compute; reflexivity.
Qed.

(** ** The detector over a stream of heartbeats (jitter_detector.py) *)

Section HeartbeatFacts.
Import Jitter.

Variable upper : string -> string.
Variable mean : list float -> float.
Variable stdev : list float -> float.
Variable sorted : list float -> list float.

Lemma push_sample_length (l : list HeartbeatSample) (s : HeartbeatSample) :
  length (push_sample l s) = Nat.min 100 (length l + 1).
Proof.
  unfold push_sample. rewrite length_skipn, length_app. cbn [length]. lia.
Qed.

Lemma push_sample_last (l : list HeartbeatSample) (s : HeartbeatSample) :
  exists older, push_sample l s = older ++ [s].
Proof.
  unfold push_sample. rewrite length_app. cbn [length].
  destruct (Nat.le_gt_cases (length l + 1 - 100) (length l)) as [Hle | Hgt].
  - exists (skipn (length l + 1 - 100) l).
    rewrite skipn_app.
    replace (length l + 1 - 100 - length l)%nat with 0%nat by lia. reflexivity.
  - lia.
Qed.

Lemma analyze_jitter_keeps (p p' : LatencyProfile) (s : HeartbeatSample)
    (a : JitterAnalysis) :
  _analyze_jitter upper mean p s = Ok (a, p') ->
  samples p' = samples p /\ missed_heartbeats p' = missed_heartbeats p /\
  last_heartbeat p' = last_heartbeat p /\ current_rtt p' = current_rtt p /\
  baseline_rtt p' = baseline_rtt p.
Proof.
  unfold _analyze_jitter.
  destruct (PrimFloat.eqb (baseline_rtt p) 0).
  - intros H. injection H as _ <-. repeat split.
  - unfold normalized_deviation_of, fdiv.
    destruct (PrimFloat.eqb (PrimFloat.add (baseline_std p) 1) 0); cbn [bind];
      [discriminate |].
    intros H. injection H as _ <-.
    match goal with
    | |- context [if ?b then _ else _] => destruct b
    end; cbn; repeat split.
Qed.

Lemma update_baseline_keeps (p : LatencyProfile) :
  samples (_update_baseline mean stdev sorted p) = samples p /\
  missed_heartbeats (_update_baseline mean stdev sorted p) = missed_heartbeats p /\
  last_heartbeat (_update_baseline mean stdev sorted p) = last_heartbeat p /\
  current_rtt (_update_baseline mean stdev sorted p) = current_rtt p.
Proof.
  unfold _update_baseline.
  destruct (JitterConfig.BASELINE_SAMPLES <=?
            Z.of_nat (length (map round_trip_time (last_n 20 (samples p)))));
    repeat split.
Qed.

(** X24. The books of a heartbeat.  Whenever [process_heartbeat] returns, the
    profile of the player is on record with the new sample as the newest of
    its buffer, the buffer holds one sample more than before but never more
    than 100 (the oldest leaves), the round-trip time is the server time less
    the client time in milliseconds, the missed-heartbeat count is back to 0,
    the last heartbeat and the last-seen time are the server time, and the
    profiles of the other players are untouched. *)
Theorem heartbeat_is_booked (server_time t_register : float) (d d' : JitterDetector)
    (uid : UUID) (client_timestamp : float) (seq : Z) (tag : string) (a : JitterAnalysis) :
  process_heartbeat upper mean stdev sorted server_time t_register d uid
                    client_timestamp seq tag = Ok (a, d') ->
  let before := match profiles d !! uid with
                | Some p => samples p
                | None => []
                end in
  let rtt := PrimFloat.mul (PrimFloat.sub server_time client_timestamp) 1000 in
  exists p',
    profiles d' !! uid = Some p' /\
    (exists older, samples p'
                   = older ++ [mkSample server_time client_timestamp rtt seq tag]) /\
    length (samples p') = Nat.min 100 (length before + 1) /\
    current_rtt p' = rtt /\
    missed_heartbeats p' = 0 /\
    last_heartbeat p' = server_time /\
    active_players d' !! uid = Some server_time /\
    (forall other, other <> uid -> profiles d' !! other = profiles d !! other).
Proof.
  unfold process_heartbeat. cbn zeta.
  set (reg := match profiles d !! uid with
              | Some p => (p, d)
              | None => register_player t_register d uid
              end).
  assert (Hreg : samples (fst reg) = match profiles d !! uid with
                                     | Some p => samples p
                                     | None => []
                                     end /\
                 forall other, other <> uid ->
                               profiles (snd reg) !! other = profiles d !! other).
  { unfold reg, register_player. destruct (profiles d !! uid) as [p |] eqn:E.
    - split; [reflexivity | reflexivity].
    - cbn [fst snd profiles]. rewrite lookup_insert_eq. cbn.
      split; [reflexivity |]. intros other Hne. apply lookup_insert_ne. congruence. }
  destruct reg as [profile d1]. cbn [fst snd] in Hreg. destruct Hreg as [Hsamples Hothers].
  set (rtt := PrimFloat.mul (PrimFloat.sub server_time client_timestamp) 1000).
  set (sample := mkSample server_time client_timestamp rtt seq tag).
  set (p1 := mkProfile (user_id profile) (baseline_rtt profile) (baseline_std profile) rtt
               (push_sample (samples profile) sample) (spike_timestamps profile)
               (connection_quality profile) (is_flagged profile) (flag_reason profile)
               0 server_time (spikes_during_critical profile)
               (total_critical_moments profile)).
  set (p2 := if JitterConfig.BASELINE_SAMPLES <=? Z.of_nat (length (samples p1))
             then _update_baseline mean stdev sorted p1 else p1).
  assert (H2 : samples p2 = samples p1 /\ missed_heartbeats p2 = 0 /\
               last_heartbeat p2 = server_time /\ current_rtt p2 = rtt).
  { unfold p2. destruct (JitterConfig.BASELINE_SAMPLES <=? Z.of_nat (length (samples p1))).
    - destruct (update_baseline_keeps p1) as (E1 & E2 & E3 & E4).
      rewrite E1, E2, E3, E4. repeat split.
    - repeat split. }
  destruct H2 as (S2 & M2 & L2 & C2).
  destruct (_analyze_jitter upper mean p2 sample) as [[a0 p3] | e] eqn:Ha; cbn [bind];
    [| discriminate].
  intros H. injection H as _ <-. cbn [fst snd profiles active_players].
  destruct (analyze_jitter_keeps _ _ _ _ Ha) as (S3 & M3 & L3 & C3 & _).
  exists p3. split; [apply lookup_insert_eq |].
  rewrite S3, S2, M3, M2, L3, L2, C3, C2. cbn [samples p1].
  split; [apply push_sample_last |].
  split; [rewrite push_sample_length, Hsamples; reflexivity |].
  split; [reflexivity |]. split; [reflexivity |]. split; [reflexivity |].
  split; [apply lookup_insert_eq |].
  intros other Hne. rewrite lookup_insert_ne by congruence. apply Hothers. exact Hne.
Qed.

(** No disconnect is reported while fewer than three heartbeats are missed. *)
Lemma check_below_three (now t_classify : float) (d : JitterDetector) (uid : UUID)
    (p : LatencyProfile) :
  profiles d !! uid = Some p ->
  missed_heartbeats p + 1 < 3 ->
  fst (check_missed_heartbeat now t_classify d uid) = None /\
  exists p',
    profiles (snd (check_missed_heartbeat now t_classify d uid)) !! uid = Some p' /\
    missed_heartbeats p' <= missed_heartbeats p + 1.
Proof.
  intros Hp Hm. unfold check_missed_heartbeat. rewrite Hp.
  destruct (PrimFloat.ltb (PrimFloat.add 3 1) (PrimFloat.sub now (last_heartbeat p))).
  - destruct (Z.leb_spec 3 (missed_heartbeats p + 1)) as [Hge | _]; [lia |].
    cbn [fst snd profiles]. split; [reflexivity |].
    eexists. split; [apply lookup_insert_eq |]. cbn [missed_heartbeats with_missed]. lia.
  - cbn [fst snd]. split; [reflexivity |]. exists p. split; [exact Hp | lia].
Qed.

(** X25. A heartbeat buys two checks.  After a heartbeat of a player has been
    processed, the next two calls of [check_missed_heartbeat] for that player
    report no disconnect, however late they come: a disconnect needs three
    checks in a row that find the heartbeat overdue. *)
Theorem heartbeat_buys_two_checks (server_time t_register : float) (d d' : JitterDetector)
    (uid : UUID) (client_timestamp : float) (seq : Z) (tag : string) (a : JitterAnalysis)
    (t1 c1 t2 c2 : float) :
  process_heartbeat upper mean stdev sorted server_time t_register d uid
                    client_timestamp seq tag = Ok (a, d') ->
  let first := check_missed_heartbeat t1 c1 d' uid in
  let second := check_missed_heartbeat t2 c2 (snd first) uid in
  fst first = None /\ fst second = None.
Proof.
  intros H. cbn zeta.
  unfold process_heartbeat in H. cbn zeta in H.
  set (reg := match profiles d !! uid with
              | Some p => (p, d)
              | None => register_player t_register d uid
              end) in H.
  destruct reg as [profile d1].
  match type of H with
  | context [_analyze_jitter upper mean ?p2 ?s] =>
      assert (M2 : missed_heartbeats p2 = 0);
      [| destruct (_analyze_jitter upper mean p2 s) as [[a0 p3] | e] eqn:Ha;
         cbn [bind] in H; [| discriminate H] ]
  end.
  { match goal with
    | |- context [if ?b then _ else _] => destruct b
    end; [rewrite (proj1 (proj2 (update_baseline_keeps _))) |]; reflexivity. }
  injection H as _ <-.
  destruct (analyze_jitter_keeps _ _ _ _ Ha) as (_ & M3 & _).
  assert (Hp : profiles
                 (mkDetector (<[uid := p3]> (profiles d1))
                    (<[uid := server_time]> (active_players d1))
                    (recent_disconnects d1)) !! uid = Some p3)
    by (cbn [profiles]; apply lookup_insert_eq).
  cbn [fst snd] in *.
  destruct (check_below_three t1 c1 _ uid p3 Hp) as (N1 & p4 & Hp4 & M4); [lia |].
  split; [exact N1 |].
  destruct (check_below_three t2 c2 _ uid p4 Hp4) as (N2 & _); [lia |].
  exact N2.
Qed.



Lemma filter_none (A : Type) (f : A -> bool) (l : list A) :
  Forall (fun x => f x = false) l -> List.filter f l = [].
Proof.
  induction 1 as [| x l Hx _ IH]; [reflexivity |].
  cbn [List.filter]. rewrite Hx. exact IH.
Qed.

(** X27. Among five monitored players or fewer, a lone disconnect is always a
    mass outage.  When the third check in a row finds the heartbeat of a
    player overdue, no other disconnect was recorded in the last 30 seconds
    and at most five players are being monitored, the disconnect is
    classified MASS_OUTAGE: it is reported as not suspicious with the action
    PAUSE_MATCH_OR_ROLLBACK, whether or not the player was flagged for lag
    switching and however many spikes are on record. *)
Theorem lone_disconnect_among_few_is_mass_outage (now t_classify : float)
    (d : JitterDetector) (uid : UUID) (p : LatencyProfile) :
  profiles d !! uid = Some p ->
  PrimFloat.ltb 4 (PrimFloat.sub now (last_heartbeat p)) = true ->
  2 <= missed_heartbeats p ->
  (1 <= size (active_players d) <= 5)%nat ->
  PrimFloat.ltb (PrimFloat.sub t_classify 30) t_classify = true ->
  Forall (fun e => PrimFloat.ltb (PrimFloat.sub t_classify 30) (snd e) = false)
         (recent_disconnects d) ->
  exists r d',
    check_missed_heartbeat now t_classify d uid = (Some r, d') /\
    d_disconnect_type r = MASS_OUTAGE /\
    d_is_suspicious r = false /\
    d_recommended_action r = "PAUSE_MATCH_OR_ROLLBACK"%string /\
    d_missed_heartbeats r = missed_heartbeats p + 1 /\
    recent_disconnects d' = [(uid, t_classify)].
Proof.
  intros Hp Hlate Hmiss Hsize Hclock Hstale.
  unfold check_missed_heartbeat. rewrite Hp.
  change (PrimFloat.add 3 1) with 4%float. rewrite Hlate.
  destruct (Z.leb_spec 3 (missed_heartbeats p + 1)) as [_ | Hlt]; [| lia].
  unfold _classify_disconnect. cbn [recent_disconnects active_players profiles].
  rewrite List.filter_app, (filter_none _ _ _ Hstale). cbn [List.filter snd app].
  rewrite Hclock. cbn [length].
  remember (size (active_players d)) as n eqn:En.
  assert (Hn : n = 1%nat \/ n = 2%nat \/ n = 3%nat \/ n = 4%nat \/ n = 5%nat) by lia.
  destruct Hn as [-> | [-> | [-> | [-> | ->]]]];
    match goal with
    | |- context [(0 <? ?z) && PrimFloat.leb ?a ?b] =>
        let v := eval vm_compute in ((0 <? z) && PrimFloat.leb a b) in
        change ((0 <? z) && PrimFloat.leb a b) with v
    end;
    cbv iota; eexists _, _; (split; [reflexivity |]); repeat split.
Qed.

Lemma ltb_leb (x y : float) : PrimFloat.ltb x y = true -> PrimFloat.leb x y = true.
Proof.
  rewrite ltb_spec, leb_spec. unfold SFltb, SFleb.
  destruct (SFcompare (Prim2SF x) (Prim2SF y)) as [[| |] |]; try discriminate; reflexivity.
Qed.

Lemma fmin_100 (x : float) : PrimFloat.leb (Py.fmin 100 x) 100 = true.
Proof.
  unfold Py.fmin. destruct (PrimFloat.ltb x 100) eqn:E.
  - apply ltb_leb. exact E.
  - reflexivity.
Qed.

(** X28. The jitter score never exceeds 100: whatever the profile and the
    sample, the score of an analysis that [_analyze_jitter] returns compares
    less than or equal to 100 (so it is not NaN either), the 30 points of the
    suspicious timing pattern included. *)
Theorem jitter_score_is_at_most_100 (p p' : LatencyProfile) (s : HeartbeatSample)
    (a : JitterAnalysis) :
  _analyze_jitter upper mean p s = Ok (a, p') ->
  PrimFloat.leb (jitter_score a) 100 = true.
Proof.
  unfold _analyze_jitter.
  destruct (PrimFloat.eqb (baseline_rtt p) 0).
  - intros H. injection H as <- _. reflexivity.
  - unfold normalized_deviation_of, fdiv.
    destruct (PrimFloat.eqb (PrimFloat.add (baseline_std p) 1) 0); cbn [bind];
      [discriminate |].
    intros H. injection H as <- _. cbn [jitter_score].
    match goal with
    | |- context [if ?b then Py.fmin 100 _ else _] => destruct b
    end; [apply fmin_100 |].
    unfold _calculate_jitter_score. apply fmin_100.
Qed.

End HeartbeatFacts.

Lemma heartbeat_is_booked_witness :
  exists a d' p',
    Jitter.process_heartbeat Jitter.ascii_upper Spec.naive_mean (fun _ => 0%float)
      (fun l => l) 100 100 Jitter.JitterDetector_init "alice" 99.75 1 "" = Ok (a, d') /\
    Jitter.profiles d' !! "alice"%string = Some p' /\
    Jitter.missed_heartbeats p' = 0.
Proof.
  destruct (Jitter.process_heartbeat Jitter.ascii_upper Spec.naive_mean (fun _ => 0%float)
              (fun l => l) 100 100 Jitter.JitterDetector_init "alice" 99.75 1 "")
    as [[a d'] | e] eqn:H.
  - destruct (heartbeat_is_booked _ _ _ _ _ _ _ _ _ _ _ _ _ H)
      as (p' & Hp & _ & _ & _ & Hm & _).
    exists a, d', p'. repeat split; assumption.
  - vm_compute in H. discriminate H.
Defined.

Lemma heartbeat_buys_two_checks_witness :
  exists a d',
    Jitter.process_heartbeat Jitter.ascii_upper Spec.naive_mean (fun _ => 0%float)
      (fun l => l) 100 100 Jitter.JitterDetector_init "alice" 99.75 1 "" = Ok (a, d') /\
    fst (Jitter.check_missed_heartbeat 200 200 d' "alice") = None.
Proof.
  destruct (Jitter.process_heartbeat Jitter.ascii_upper Spec.naive_mean (fun _ => 0%float)
              (fun l => l) 100 100 Jitter.JitterDetector_init "alice" 99.75 1 "")
    as [[a d'] | e] eqn:H.
  - exists a, d'. split; [reflexivity |].
    exact (proj1 (heartbeat_buys_two_checks _ _ _ _ _ _ _ _ _ _ _ _ _ 200 200 300 300 H)).
  - vm_compute in H. discriminate H.
Defined.


Lemma lone_disconnect_among_few_is_mass_outage_witness :
  exists r d',
    Jitter.check_missed_heartbeat 120 120 Spec.flagged_detector "alice" = (Some r, d') /\
    Jitter.d_disconnect_type r = Jitter.MASS_OUTAGE /\
    Jitter.d_is_suspicious r = false.
Proof.
  destruct (lone_disconnect_among_few_is_mass_outage 120 120 Spec.flagged_detector "alice"
              Spec.flagged_profile)
    as (r & d' & Hc & Ht & Hs & _).
  - reflexivity.
  - vm_compute. reflexivity.
  - vm_compute. discriminate.
  - vm_compute. split; repeat constructor.
  - vm_compute. reflexivity.
  - constructor.
  - exists r, d'. repeat split; assumption.
Defined.

Lemma jitter_score_is_at_most_100_witness :
  exists a p',
    Jitter._analyze_jitter Jitter.ascii_upper Spec.naive_mean
      (Spec.profile_with 50 5 [] 0 0) (Spec.sample_at 100 900 "SHOOTING") = Ok (a, p') /\
    PrimFloat.leb (Jitter.jitter_score a) 100 = true.
Proof.
  destruct (Jitter._analyze_jitter Jitter.ascii_upper Spec.naive_mean
              (Spec.profile_with 50 5 [] 0 0) (Spec.sample_at 100 900 "SHOOTING"))
    as [[a p'] | e] eqn:H.
  - exists a, p'. split; [reflexivity |].
    exact (jitter_score_is_at_most_100 _ _ _ _ _ _ H).
  - vm_compute in H. discriminate H.
Defined.
